(** * Schema Registry operator: the reconciliation core

    A shallow embedding of the Go sources of the operator
    (internal/client/client.go, internal/controller/helpers.go,
    schema_controller.go, schemaregistry_controller.go and the API types of
    api/v1alpha1) together with the properties of its specification.

    Conventions of the embedding:
    - a Go function returning a pointer and an error returns a [result T]; a function
      returning only [error] returns an [option error] ([None] is [nil]);
    - code that talks to the remote registry is a state transformer over
      [Net], code that talks to the API server reads or transforms a
      [Cluster]; a reconciler transforms a [World] made of both;
    - functions of the Go standard library and of the Kubernetes libraries,
      whose code is not part of the repository, are either modelled next to
      their first use, with a comment naming the library function, or taken
      from the class [GoLibs]. *)

From Stdlib Require Import ZArith String Ascii List Bool Lia DecimalString.
From stdpp Require Import base option gmap strings list.

Local Open Scope Z_scope.

(** ** Generic plumbing: state passing *)

Definition State (S A : Type) : Type := S → A * S.

Definition ret {S A} (a : A) : State S A := λ s, (a, s).

Definition bind {S A B} (m : State S A) (k : A → State S B) : State S B :=
  λ s, let '(a, s') := m s in k a s'.

Notation "x <- m ;; k" := (bind m (λ x, k))
  (at level 100, m at next level, right associativity).

(** ** Go values shared by all packages *)

Module Go.

(** The empty string, Go's zero value of [string]. *)
Definition empty : string := EmptyString.

(** The double-quote character and [%q] of [fmt]: the argument between
    double quotes.  The escaping that [%q] applies to quotes, backslashes
    and control characters is not modelled; the operator only formats
    Kubernetes object names with it. *)
Definition dquote : string := String "034"%char EmptyString.
Definition Quote (s : string) : string := dquote +:+ s +:+ dquote.

(** [%d] of [fmt]: the decimal rendering of an integer. *)
Definition itoa (z : Z) : string := NilEmpty.string_of_int (Z.to_int z).

(** [strings.Contains]. *)
Fixpoint Contains (s substr : string) : bool :=
  String.prefix substr s ||
  match s with
  | EmptyString => false
  | String _ s' => Contains s' substr
  end.

(** Reasons of the API server's status errors (apimachinery
    [metav1.StatusReason]); only [NotFound] is inspected by the code. *)
Inductive StatusReason :=
| StatusReasonNotFound
| StatusReasonConflict
| StatusReasonForbidden
| StatusReasonInvalid
| StatusReasonUnknown.

(** Error values.  [errorString] is what [errors.New] and [fmt.Errorf]
    without [%w] build, [wrapError] what [fmt.Errorf] with [%w] builds (the
    message is already formatted), [StatusError] is an error of the API
    server, [opError] an error of the network stack. *)
Inductive error :=
| errorString (msg : string)
| wrapError (msg : string) (cause : error)
| StatusError (reason : StatusReason) (msg : string)
| opError (msg : string).

(** The [Error()] method. *)
Definition Error (e : error) : string :=
  match e with
  | errorString msg => msg
  | wrapError msg _ => msg
  | StatusError _ msg => msg
  | opError msg => msg
  end.

(** [fmt.Errorf(prefix + "%w", err)]. *)
Definition Errorf_w (prefix : string) (err : error) : error :=
  wrapError (prefix +:+ Error err) err.

(** [apierrors.IsNotFound]: looks through wrapped errors. *)
Fixpoint IsNotFound (e : error) : bool :=
  match e with
  | StatusError StatusReasonNotFound _ => true
  | wrapError _ cause => IsNotFound cause
  | _ => false
  end.

(** [client.IgnoreNotFound]. *)
Definition IgnoreNotFound (e : error) : option error :=
  if IsNotFound e then None else Some e.

(** Results of functions that return a pointer and an error. *)
Inductive result (A : Type) : Type :=
| Ok (v : A)
| Err (err : error).
Global Arguments Ok {A} v.
Global Arguments Err {A} err.

Definition is_Err {A} (r : result A) : Prop :=
  match r with Err _ => True | Ok _ => False end.

(** [time.Duration], in nanoseconds, and [time.Time], in seconds since
    Go's zero instant. *)
Definition Duration := Z.
Definition Second : Duration := 1000000000.
Definition Minute : Duration := 60 * Second.
Definition Time := Z.

(** Multiplication of two [int64], with Go's silent wrap-around. *)
Definition wrap64 (z : Z) : Z := (z + 2 ^ 63) mod 2 ^ 64 - 2 ^ 63.
Definition mul64 (a b : Z) : Z := wrap64 (a * b).

End Go.
Export Go.

(** ** Package internal/client *)

Module schemaclient.

(** [tls.Certificate] and [x509.CertPool]: the PEM blocks they were built
    from.  The zero certificate has no blocks. *)
Record Certificate := { certPEM : string; keyPEM : string }.
Definition noCertificate : Certificate :=
  {| certPEM := Go.empty; keyPEM := Go.empty |}.
Definition CertPool := list string.

(** <<type AuthConfig struct>> *)
Record AuthConfig := {
  auth_Type : string;
  Username : string;
  Password : string;
  BearerToken : string;
  ClientCert : Certificate;
  CACert : option CertPool
}.

(** <<type SchemaResponse struct>> *)
Record SchemaResponse := {
  resp_ID : Z;
  resp_Version : Z;
  resp_Schema : string
}.

(** <<type SchemaReference struct>> *)
Record SchemaReference := {
  ref_Name : string;
  ref_Subject : string;
  ref_Version : Z
}.

(** <<type RegisterSchemaRequest struct>> *)
Record RegisterSchemaRequest := {
  req_Schema : string;
  req_SchemaType : string;
  req_References : list SchemaReference
}.

(** *** net/http, as far as the client uses it *)

Inductive Method := MethodGet | MethodPost | MethodPut | MethodDelete.

(** A request body is kept as the value that [json.Marshal] was given;
    marshalling these values (strings and integers) cannot fail. *)
Inductive Payload :=
| noBody
| registerBody (request : RegisterSchemaRequest)
| compatibilityBody (level : string).

(** A header value is a text, or the credentials that [SetBasicAuth]
    renders as the word Basic followed by base64 of user:password. *)
Inductive HeaderValue :=
| headerText (s : string)
| headerBasic (username password : string).

Record Request := {
  req_Method : Method;
  req_URL : string;
  req_Header : gmap string HeaderValue;
  req_Body : Payload
}.

(** A response: its status code and the bytes read from its body. *)
Record Response := {
  StatusCode : Z;
  resp_Body : string
}.

Definition StatusOK : Z := 200.
Definition StatusNotFound : Z := 404.

Record tlsConfig := {
  InsecureSkipVerify : bool;
  Certificates : list Certificate;
  RootCAs : option CertPool
}.

Record httpClient := {
  Timeout : Duration;
  TLSClientConfig : tlsConfig
}.

(** The remote side: a deterministic server and network.  What comes back
    for a request may depend on the requests that were sent before, on the
    transport configuration and on the request; it is either a transport
    error (refused connection, timeout, cancelled context) or a response. *)
Record Net := {
  roundTrip : list Request → httpClient → Request → result Response;
  sent : list Request
}.

(** <<httpClient.Do>>: one round trip, recorded in the history. *)
Definition Do (hc : httpClient) (req : Request) : State Net (result Response) :=
  λ n, (roundTrip n (sent n) hc req,
        {| roundTrip := roundTrip n; sent := sent n ++ [req] |}).

(** Library functions whose implementation is outside the repository. *)
Class GoLibs := {
  (** [tls.X509KeyPair]: fails when either input holds no PEM data. *)
  X509KeyPair : string → string → result Certificate;
  X509KeyPair_no_cert : ∀ key, is_Err (X509KeyPair Go.empty key);
  X509KeyPair_no_key : ∀ crt, is_Err (X509KeyPair crt Go.empty);
  (** [CertPool.AppendCertsFromPEM] *)
  AppendCertsFromPEM : CertPool → string → CertPool;
  (** the error of [http.NewRequestWithContext] for a method and URL *)
  NewRequest_error : Method → string → option error;
  (** [json.Unmarshal] into <<struct { ID int `json:"id"` }>> *)
  Unmarshal_ID : string → result Z;
  (** [json.NewDecoder(r).Decode] into a [SchemaResponse] *)
  Decode_SchemaResponse : string → result SchemaResponse
}.

(** <<type SchemaRegistryClient struct>> *)
Record SchemaRegistryClient := {
  baseURL : string;
  client_http : httpClient;
  auth : AuthConfig
}.

(** <<func NewClient>>; it has no failing path. *)
Definition NewClient (baseURL : string) (auth : AuthConfig) (timeout : Duration)
    (insecureSkipVerify : bool) : result SchemaRegistryClient :=
  let tlsConfig0 :=
    {| InsecureSkipVerify := insecureSkipVerify; Certificates := []; RootCAs := None |} in
  let tlsConfig1 :=
    if String.eqb (auth_Type auth) "MTLS" then
      {| InsecureSkipVerify := insecureSkipVerify;
         Certificates := [ClientCert auth];
         RootCAs := match CACert auth with
                    | Some pool => Some pool
                    | None => RootCAs tlsConfig0
                    end |}
    else tlsConfig0 in
  Ok {| baseURL := baseURL;
        client_http := {| Timeout := timeout; TLSClientConfig := tlsConfig1 |};
        auth := auth |}.

Section Operations.
Context `{!GoLibs}.

(** <<http.NewRequestWithContext>> *)
Definition NewRequestWithContext (m : Method) (url : string) (body : Payload)
    : result Request :=
  match NewRequest_error m url with
  | Some err => Err err
  | None => Ok {| req_Method := m; req_URL := url; req_Header := ∅; req_Body := body |}
  end.

(** <<req.Header.Set>> *)
Definition Header_Set (key : string) (v : HeaderValue) (req : Request) : Request :=
  {| req_Method := req_Method req; req_URL := req_URL req;
     req_Header := <[key := v]> (req_Header req); req_Body := req_Body req |}.

(** <<func (c *SchemaRegistryClient) addAuth>> *)
Definition addAuth (c : SchemaRegistryClient) (req : Request) : Request :=
  if String.eqb (auth_Type (auth c)) "BASIC" then
    Header_Set "Authorization" (headerBasic (Username (auth c)) (Password (auth c))) req
  else if String.eqb (auth_Type (auth c)) "BEARER" then
    Header_Set "Authorization" (headerText ("Bearer " +:+ BearerToken (auth c))) req
  else req.

Definition contentType : HeaderValue :=
  headerText "application/vnd.schemaregistry.v1+json".

(** <<func (c *SchemaRegistryClient) HealthCheck>> *)
Definition HealthCheck (c : SchemaRegistryClient) : State Net (option error) :=
  let url := baseURL c +:+ "/subjects" in
  match NewRequestWithContext MethodGet url noBody with
  | Err err => ret (Some err)
  | Ok req =>
    let req := addAuth c req in
    r <- Do (client_http c) req ;;
    match r with
    | Err err => ret (Some (Errorf_w "health check failed: " err))
    | Ok resp =>
      if negb (StatusCode resp =? StatusOK) then
        ret (Some (errorString
          ("health check failed with status: " +:+ itoa (StatusCode resp))))
      else ret None
    end
  end.

(** <<func (c *SchemaRegistryClient) getLatestVersionForSubject>> *)
Definition getLatestVersionForSubject (c : SchemaRegistryClient) (subject : string)
    : State Net (result Z) :=
  let url := baseURL c +:+ "/subjects/" +:+ subject +:+ "/versions/latest" in
  match NewRequestWithContext MethodGet url noBody with
  | Err err => ret (Err err)
  | Ok req =>
    let req := addAuth c req in
    r <- Do (client_http c) req ;;
    match r with
    | Err err => ret (Err (Errorf_w "failed to get latest version: " err))
    | Ok resp =>
      if negb (StatusCode resp =? StatusOK) then
        ret (Err (errorString
          ("get latest version failed with status: " +:+ itoa (StatusCode resp))))
      else
        match Decode_SchemaResponse (resp_Body resp) with
        | Err err =>
          ret (Err (Errorf_w "failed to decode latest version response: " err))
        | Ok result => ret (Ok (resp_Version result))
        end
    end
  end.

(** <<func (c *SchemaRegistryClient) RegisterSchema>> *)
Definition RegisterSchema (c : SchemaRegistryClient) (subject : string)
    (request : RegisterSchemaRequest) : State Net (result SchemaResponse) :=
  let url := baseURL c +:+ "/subjects/" +:+ subject +:+ "/versions" in
  match NewRequestWithContext MethodPost url (registerBody request) with
  | Err err => ret (Err err)
  | Ok req =>
    let req := addAuth c req in
    let req := Header_Set "Content-Type" contentType req in
    r <- Do (client_http c) req ;;
    match r with
    | Err err => ret (Err (Errorf_w "failed to register schema: " err))
    | Ok resp =>
      let respBody := resp_Body resp in
      if negb (StatusCode resp =? StatusOK) then
        ret (Err (errorString
          ("schema registration failed with status " +:+ itoa (StatusCode resp)
             +:+ ": " +:+ respBody)))
      else
        match Unmarshal_ID respBody with
        | Err err => ret (Err (Errorf_w "failed to decode register response: " err))
        | Ok id =>
          v <- getLatestVersionForSubject c subject ;;
          match v with
          | Err _ =>
            (* Non-fatal: return with ID but without version *)
            ret (Ok {| resp_ID := id; resp_Version := 0; resp_Schema := Go.empty |})
          | Ok version =>
            ret (Ok {| resp_ID := id; resp_Version := version; resp_Schema := Go.empty |})
          end
        end
    end
  end.

(** <<func (c *SchemaRegistryClient) DeleteSubject>> *)
Definition DeleteSubject (c : SchemaRegistryClient) (subject : string)
    : State Net (option error) :=
  let url := baseURL c +:+ "/subjects/" +:+ subject in
  match NewRequestWithContext MethodDelete url noBody with
  | Err err => ret (Some err)
  | Ok req =>
    let req := addAuth c req in
    r <- Do (client_http c) req ;;
    match r with
    | Err err => ret (Some (Errorf_w "failed to delete subject: " err))
    | Ok resp =>
      (* 404 means already gone, which is fine for idempotent cleanup *)
      if StatusCode resp =? StatusNotFound then ret None
      else if negb (StatusCode resp =? StatusOK) then
        ret (Some (errorString
          ("delete subject failed with status " +:+ itoa (StatusCode resp)
             +:+ ": " +:+ resp_Body resp)))
      else ret None
    end
  end.

(** <<func (c *SchemaRegistryClient) SetCompatibility>> *)
Definition SetCompatibility (c : SchemaRegistryClient) (subject level : string)
    : State Net (option error) :=
  let url := baseURL c +:+ "/config/" +:+ subject in
  match NewRequestWithContext MethodPut url (compatibilityBody level) with
  | Err err => ret (Some err)
  | Ok req =>
    let req := addAuth c req in
    let req := Header_Set "Content-Type" contentType req in
    r <- Do (client_http c) req ;;
    match r with
    | Err err => ret (Some (Errorf_w "failed to set compatibility: " err))
    | Ok resp =>
      if negb (StatusCode resp =? StatusOK) then
        ret (Some (errorString
          ("set compatibility failed with status " +:+ itoa (StatusCode resp)
             +:+ ": " +:+ resp_Body resp)))
      else ret None
    end
  end.

(** The request each operation hands to [Do]: what the function has built
    when it reaches <<c.httpClient.Do(req)>>, or the error it returns before
    sending anything.  These name the requests in the statements below. *)
Definition healthCheckRequest (c : SchemaRegistryClient) : result Request :=
  match NewRequestWithContext MethodGet (baseURL c +:+ "/subjects") noBody with
  | Err err => Err err
  | Ok req => Ok (addAuth c req)
  end.

Definition latestVersionRequest (c : SchemaRegistryClient) (subject : string)
    : result Request :=
  match NewRequestWithContext MethodGet
          (baseURL c +:+ "/subjects/" +:+ subject +:+ "/versions/latest") noBody with
  | Err err => Err err
  | Ok req => Ok (addAuth c req)
  end.

Definition registerRequest (c : SchemaRegistryClient) (subject : string)
    (request : RegisterSchemaRequest) : result Request :=
  match NewRequestWithContext MethodPost
          (baseURL c +:+ "/subjects/" +:+ subject +:+ "/versions")
          (registerBody request) with
  | Err err => Err err
  | Ok req => Ok (Header_Set "Content-Type" contentType (addAuth c req))
  end.

Definition deleteRequest (c : SchemaRegistryClient) (subject : string) : result Request :=
  match NewRequestWithContext MethodDelete (baseURL c +:+ "/subjects/" +:+ subject)
          noBody with
  | Err err => Err err
  | Ok req => Ok (addAuth c req)
  end.

Definition compatibilityRequest (c : SchemaRegistryClient) (subject level : string)
    : result Request :=
  match NewRequestWithContext MethodPut (baseURL c +:+ "/config/" +:+ subject)
          (compatibilityBody level) with
  | Err err => Err err
  | Ok req => Ok (Header_Set "Content-Type" contentType (addAuth c req))
  end.

(** The answer of the remote side to [req], sent now. *)
Definition answer (n : Net) (c : SchemaRegistryClient) (req : Request) : result Response :=
  roundTrip n (sent n) (client_http c) req.

End Operations.

End schemaclient.

(** ** Kubernetes API machinery, as far as the controllers use it *)

Module metav1.

(** [metav1.Time.IsZero]; a nil pointer to a time is zero as well. *)
Definition IsZero (t : Time) : bool := t =? 0.
Definition IsZeroPtr (t : option Time) : bool :=
  match t with
  | None => true
  | Some t => IsZero t
  end.

Inductive ConditionStatus := ConditionTrue | ConditionFalse | ConditionUnknown.

Definition ConditionStatus_eqb (a b : ConditionStatus) : bool :=
  match a, b with
  | ConditionTrue, ConditionTrue
  | ConditionFalse, ConditionFalse
  | ConditionUnknown, ConditionUnknown => true
  | _, _ => false
  end.

(** <<metav1.Condition>> *)
Record Condition := {
  cond_Type : string;
  cond_Status : ConditionStatus;
  cond_ObservedGeneration : Z;
  LastTransitionTime : Time;
  Reason : string;
  Message : string
}.

(** The part of <<metav1.ObjectMeta>> that the controllers read or write. *)
Record ObjectMeta := {
  Name : string;
  Namespace : string;
  Generation : Z;
  DeletionTimestamp : option Time;
  Finalizers : list string
}.

Definition set_Finalizers (fs : list string) (m : ObjectMeta) : ObjectMeta :=
  {| Name := Name m; Namespace := Namespace m; Generation := Generation m;
     DeletionTimestamp := DeletionTimestamp m; Finalizers := fs |}.

(** [meta.FindStatusCondition]: the first condition of the given type. *)
Fixpoint FindStatusCondition (conditions : list Condition) (conditionType : string)
    : option Condition :=
  match conditions with
  | [] => None
  | c :: rest =>
    if String.eqb (cond_Type c) conditionType then Some c
    else FindStatusCondition rest conditionType
  end.

(** What [meta.SetStatusCondition] leaves in the slot of an existing
    condition: status, reason, message and observed generation of the new
    one; the transition time moves only when the status changes. *)
Definition mergeCondition (now : Time) (existing new : Condition) : Condition :=
  {| cond_Type := cond_Type existing;
     cond_Status := cond_Status new;
     cond_ObservedGeneration := cond_ObservedGeneration new;
     LastTransitionTime :=
       if ConditionStatus_eqb (cond_Status existing) (cond_Status new)
       then LastTransitionTime existing
       else if IsZero (LastTransitionTime new) then now
            else LastTransitionTime new;
     Reason := Reason new;
     Message := Message new |}.

Definition stampCondition (now : Time) (new : Condition) : Condition :=
  {| cond_Type := cond_Type new;
     cond_Status := cond_Status new;
     cond_ObservedGeneration := cond_ObservedGeneration new;
     LastTransitionTime :=
       if IsZero (LastTransitionTime new) then now else LastTransitionTime new;
     Reason := Reason new;
     Message := Message new |}.

(** [meta.SetStatusCondition], with the reading of the clock passed in:
    the first condition of the new condition's type is updated in place,
    and the new condition is appended when there is none. *)
Fixpoint SetStatusCondition (now : Time) (conditions : list Condition)
    (newCondition : Condition) : list Condition :=
  match conditions with
  | [] => [stampCondition now newCondition]
  | c :: rest =>
    if String.eqb (cond_Type c) (cond_Type newCondition)
    then mergeCondition now c newCondition :: rest
    else c :: SetStatusCondition now rest newCondition
  end.

End metav1.

(** [controllerutil.ContainsFinalizer], [AddFinalizer], [RemoveFinalizer],
    on the finalizer list of an object. *)
Module controllerutil.

Definition ContainsFinalizer (fs : list string) (finalizer : string) : bool :=
  existsb (String.eqb finalizer) fs.

Definition AddFinalizer (fs : list string) (finalizer : string) : list string :=
  if ContainsFinalizer fs finalizer then fs else fs ++ [finalizer].

Definition RemoveFinalizer (fs : list string) (finalizer : string) : list string :=
  List.filter (λ f, negb (String.eqb f finalizer)) fs.

End controllerutil.

(** ** Package api/v1alpha1 *)

Module v1alpha1.
Import metav1.

Definition SchemaTypeAvro : string := "AVRO".
Definition SchemaTypeJSON : string := "JSON".
Definition SchemaTypeProtobuf : string := "PROTOBUF".

(** <<type SchemaReference struct>> *)
Record SchemaReference := {
  sref_Name : string;
  sref_Subject : string;
  sref_Version : Z
}.

(** <<type SchemaRegistryRef struct>> *)
Record SchemaRegistryRef := {
  rref_Name : string;
  rref_Namespace : string
}.

(** <<type SchemaSpec struct>> *)
Record SchemaSpec := {
  Subject : string;
  SchemaType : string;
  spec_Schema : string;
  References : list SchemaReference;
  RegistryRef : SchemaRegistryRef;
  CompatibilityLevel : string
}.

(** <<type SchemaStatus struct>> *)
Record SchemaStatus := {
  SchemaID : option Z;
  Version : option Z;
  RegisteredAt : option Time;
  ObservedGeneration : Z;
  Conditions : list Condition
}.

(** <<type Schema struct>> *)
Record Schema := {
  schema_Meta : ObjectMeta;
  schema_Spec : SchemaSpec;
  schema_Status : SchemaStatus
}.

Definition AuthTypeNone : string := "NONE".
Definition AuthTypeBasic : string := "BASIC".
Definition AuthTypeBearer : string := "BEARER".
Definition AuthTypeMTLS : string := "MTLS".

(** <<type BasicAuthConfig struct>>, <<type BearerAuthConfig struct>> *)
Record BasicAuthConfig := { basic_SecretRef : string }.
Record BearerAuthConfig := { bearer_SecretRef : string }.

(** <<type MTLSConfig struct>> *)
Record MTLSConfig := {
  CertSecretRef : string;
  CASecretRef : string
}.

(** <<type AuthConfig struct>> *)
Record AuthConfig := {
  Type_ : string;
  BasicAuth : option BasicAuthConfig;
  BearerAuth : option BearerAuthConfig;
  MTLS : option MTLSConfig
}.

(** <<type SchemaRegistrySpec struct>> *)
Record SchemaRegistrySpec := {
  URL : string;
  Auth : option AuthConfig;
  spec_InsecureSkipVerify : bool;
  spec_Timeout : Z
}.

(** <<type SchemaRegistryStatus struct>> *)
Record SchemaRegistryStatus := {
  ConnectionStatus : string;
  LastChecked : option Time;
  sr_ObservedGeneration : Z;
  sr_Conditions : list Condition
}.

(** <<type SchemaRegistry struct>> *)
Record SchemaRegistry := {
  sr_Meta : ObjectMeta;
  sr_Spec : SchemaRegistrySpec;
  sr_Status : SchemaRegistryStatus
}.

End v1alpha1.

(** <<corev1.Secret>>: byte-valued fields by key. *)
Module corev1.

Record Secret := { Data : gmap string string }.

(** Indexing a Go map: the zero value, no bytes, when the key is absent. *)
Definition Data_index (s : Secret) (key : string) : string :=
  default Go.empty (Data s !! key).

End corev1.

(** ** The API server behind the controller-runtime client

    The substrate is outside the repository.  It is modelled as a store of
    the three kinds of objects the controllers touch, keyed by namespace and
    name, together with a table of requests that the server rejects (RBAC,
    admission, conflicts with a concurrent writer, an unreachable server).
    Writers other than the reconciler under study are not modelled: between
    two calls of one reconcile the store changes only by that reconcile. *)

Module apiserver.
Import metav1 v1alpha1 corev1.

(** Namespace and name, <<types.NamespacedName>>. *)
Abbreviation ObjectKey := (string * string)%type.

Inductive Verb := VerbGet | VerbList | VerbUpdate | VerbUpdateStatus.
Inductive Kind := KindSchema | KindSchemaRegistry | KindSecret.

Record Cluster := {
  schemas : gmap (string * string) Schema;
  registries : gmap (string * string) SchemaRegistry;
  secrets : gmap (string * string) Secret;
  rejected : Verb → Kind → string * string → option error
}.

Definition set_schemas (m : gmap (string * string) Schema) (c : Cluster) : Cluster :=
  {| schemas := m; registries := registries c; secrets := secrets c;
     rejected := rejected c |}.

Definition set_registries (m : gmap (string * string) SchemaRegistry) (c : Cluster)
    : Cluster :=
  {| schemas := schemas c; registries := m; secrets := secrets c;
     rejected := rejected c |}.

Definition notFound (key : string * string) : error :=
  StatusError StatusReasonNotFound (Quote (snd key) +:+ " not found").

(** <<client.ObjectKeyFromObject>> *)
Definition ObjectKeyFromObject (m : ObjectMeta) : string * string :=
  (Namespace m, Name m).

(** <<r.Get>> for each kind. *)
Definition Get {A} (kind : Kind) (store : gmap (string * string) A)
    (key : string * string) (c : Cluster) : result A :=
  match rejected c VerbGet kind key with
  | Some err => Err err
  | None =>
    match store !! key with
    | Some obj => Ok obj
    | None => Err (notFound key)
    end
  end.

Definition Get_Schema (key : string * string) (c : Cluster) : result Schema :=
  Get KindSchema (schemas c) key c.
Definition Get_SchemaRegistry (key : string * string) (c : Cluster)
    : result SchemaRegistry :=
  Get KindSchemaRegistry (registries c) key c.
Definition Get_Secret (key : string * string) (c : Cluster) : result Secret :=
  Get KindSecret (secrets c) key c.

(** <<r.List(ctx, list, client.InNamespace(ns))>>; the empty namespace
    selects all namespaces. *)
Definition List_Schemas (ns : string) (c : Cluster) : result (list Schema) :=
  match rejected c VerbList KindSchema (ns, Go.empty) with
  | Some err => Err err
  | None =>
    Ok (List.filter
          (λ s, String.eqb ns Go.empty || String.eqb (Namespace (schema_Meta s)) ns)
          (snd <$> map_to_list (schemas c)))
  end.

Definition List_SchemaRegistries (ns : string) (c : Cluster)
    : result (list SchemaRegistry) :=
  match rejected c VerbList KindSchemaRegistry (ns, Go.empty) with
  | Some err => Err err
  | None =>
    Ok (List.filter
          (λ s, String.eqb ns Go.empty || String.eqb (Namespace (sr_Meta s)) ns)
          (snd <$> map_to_list (registries c)))
  end.

(** <<r.Update>> of a Schema.  The status is a subresource and is not
    written; of the metadata the finalizers are.  An object whose deletion
    was requested is purged as soon as its last finalizer is gone.  (The
    server would also advance the generation of an object whose spec
    changed; the controllers never send a changed spec.) *)
Definition Update_Schema (obj : Schema) : State Cluster (option error) := λ c,
  let key := ObjectKeyFromObject (schema_Meta obj) in
  match rejected c VerbUpdate KindSchema key with
  | Some err => (Some err, c)
  | None =>
    match schemas c !! key with
    | None => (Some (notFound key), c)
    | Some cur =>
      let meta := set_Finalizers (Finalizers (schema_Meta obj)) (schema_Meta cur) in
      let stored := {| schema_Meta := meta; schema_Spec := schema_Spec obj;
                       schema_Status := schema_Status cur |} in
      match DeletionTimestamp meta, Finalizers meta with
      | Some _, [] => (None, set_schemas (delete key (schemas c)) c)
      | _, _ => (None, set_schemas (<[key := stored]> (schemas c)) c)
      end
    end
  end.

(** <<r.Status().Update>>: only the status of the stored object changes. *)
Definition UpdateStatus_Schema (obj : Schema) : State Cluster (option error) := λ c,
  let key := ObjectKeyFromObject (schema_Meta obj) in
  match rejected c VerbUpdateStatus KindSchema key with
  | Some err => (Some err, c)
  | None =>
    match schemas c !! key with
    | None => (Some (notFound key), c)
    | Some cur =>
      let stored := {| schema_Meta := schema_Meta cur; schema_Spec := schema_Spec cur;
                       schema_Status := schema_Status obj |} in
      (None, set_schemas (<[key := stored]> (schemas c)) c)
    end
  end.

Definition UpdateStatus_SchemaRegistry (obj : SchemaRegistry)
    : State Cluster (option error) := λ c,
  let key := ObjectKeyFromObject (sr_Meta obj) in
  match rejected c VerbUpdateStatus KindSchemaRegistry key with
  | Some err => (Some err, c)
  | None =>
    match registries c !! key with
    | None => (Some (notFound key), c)
    | Some cur =>
      let stored := {| sr_Meta := sr_Meta cur; sr_Spec := sr_Spec cur;
                       sr_Status := sr_Status obj |} in
      (None, set_registries (<[key := stored]> (registries c)) c)
    end
  end.

End apiserver.

(** ** What one reconcile runs against *)

Module runtime.
Import schemaclient apiserver.

(** A line of the structured log: <<log.Info>> or <<log.Error>> with the
    message and the key/value pairs. *)
Inductive LogEntry :=
| logInfo (msg : string) (keysAndValues : list (string * string))
| logError (err : error) (msg : string) (keysAndValues : list (string * string)).

Record World := {
  cluster : Cluster;
  net : Net;
  (** the wall clock; one reconcile reads it as a single instant *)
  clock : Time;
  log : list LogEntry
}.

(** A read of the API server. *)
Definition read {A} (f : Cluster → A) : State World A :=
  λ w, (f (cluster w), w).

(** A write to the API server. *)
Definition api {A} (f : State Cluster A) : State World A :=
  λ w, let '(a, c) := f (cluster w) in
       (a, {| cluster := c; net := net w; clock := clock w; log := log w |}).

(** A call of the registry client. *)
Definition remote {A} (f : State Net A) : State World A :=
  λ w, let '(a, n) := f (net w) in
       (a, {| cluster := cluster w; net := n; clock := clock w; log := log w |}).

(** <<metav1.Now()>>, <<time.Now()>> *)
Definition Now : State World Time := λ w, (clock w, w).

Definition logf (e : LogEntry) : State World unit :=
  λ w, (tt, {| cluster := cluster w; net := net w; clock := clock w;
               log := log w ++ [e] |}).

(** <<ctrl.Result>> *)
Record Result := {
  Requeue : bool;
  RequeueAfter : Duration
}.

Definition noRequeue : Result := {| Requeue := false; RequeueAfter := 0 |}.
Definition requeueAfter (d : Duration) : Result :=
  {| Requeue := false; RequeueAfter := d |}.

End runtime.

(** ** Package internal/controller *)

Module controller.
Import metav1 v1alpha1 corev1 apiserver runtime.

Section Controllers.
Context `{!schemaclient.GoLibs}.

(** *** helpers.go *)

Definition with_Type (t : string) (a : schemaclient.AuthConfig) : schemaclient.AuthConfig :=
  {| schemaclient.auth_Type := t;
     schemaclient.Username := schemaclient.Username a;
     schemaclient.Password := schemaclient.Password a;
     schemaclient.BearerToken := schemaclient.BearerToken a;
     schemaclient.ClientCert := schemaclient.ClientCert a;
     schemaclient.CACert := schemaclient.CACert a |}.

Definition with_Basic (username password : string) (a : schemaclient.AuthConfig)
    : schemaclient.AuthConfig :=
  {| schemaclient.auth_Type := schemaclient.auth_Type a;
     schemaclient.Username := username;
     schemaclient.Password := password;
     schemaclient.BearerToken := schemaclient.BearerToken a;
     schemaclient.ClientCert := schemaclient.ClientCert a;
     schemaclient.CACert := schemaclient.CACert a |}.

Definition with_BearerToken (token : string) (a : schemaclient.AuthConfig)
    : schemaclient.AuthConfig :=
  {| schemaclient.auth_Type := schemaclient.auth_Type a;
     schemaclient.Username := schemaclient.Username a;
     schemaclient.Password := schemaclient.Password a;
     schemaclient.BearerToken := token;
     schemaclient.ClientCert := schemaclient.ClientCert a;
     schemaclient.CACert := schemaclient.CACert a |}.

Definition with_ClientCert (cert : schemaclient.Certificate) (a : schemaclient.AuthConfig)
    : schemaclient.AuthConfig :=
  {| schemaclient.auth_Type := schemaclient.auth_Type a;
     schemaclient.Username := schemaclient.Username a;
     schemaclient.Password := schemaclient.Password a;
     schemaclient.BearerToken := schemaclient.BearerToken a;
     schemaclient.ClientCert := cert;
     schemaclient.CACert := schemaclient.CACert a |}.

Definition with_CACert (pool : schemaclient.CertPool) (a : schemaclient.AuthConfig)
    : schemaclient.AuthConfig :=
  {| schemaclient.auth_Type := schemaclient.auth_Type a;
     schemaclient.Username := schemaclient.Username a;
     schemaclient.Password := schemaclient.Password a;
     schemaclient.BearerToken := schemaclient.BearerToken a;
     schemaclient.ClientCert := schemaclient.ClientCert a;
     schemaclient.CACert := Some pool |}.

(** <<schemaclient.AuthConfig{Type: "NONE"}>> *)
Definition authNone : schemaclient.AuthConfig :=
  {| schemaclient.auth_Type := "NONE";
     schemaclient.Username := Go.empty;
     schemaclient.Password := Go.empty;
     schemaclient.BearerToken := Go.empty;
     schemaclient.ClientCert := schemaclient.noCertificate;
     schemaclient.CACert := None |}.

(** <<func loadAuthConfig>>.  Go returns the bundle built so far together
    with the error. *)
Definition loadAuthConfig (c : Cluster) (sr : SchemaRegistry)
    : schemaclient.AuthConfig * option error :=
  let authConfig := authNone in
  match Auth (sr_Spec sr) with
  | None => (authConfig, None)
  | Some a =>
    let authConfig := with_Type (Type_ a) authConfig in
    if String.eqb (Type_ a) AuthTypeBasic then
      match BasicAuth a with
      | None =>
        (authConfig, Some (errorString "basicAuth config is required when type is BASIC"))
      | Some basicAuth =>
        match Get_Secret (Namespace (sr_Meta sr), basic_SecretRef basicAuth) c with
        | Err err =>
          (authConfig,
           Some (Errorf_w ("failed to get basic auth secret "
                             +:+ Quote (basic_SecretRef basicAuth) +:+ ": ") err))
        | Ok secret =>
          (with_Basic (Data_index secret "username") (Data_index secret "password")
             authConfig, None)
        end
      end
    else if String.eqb (Type_ a) AuthTypeBearer then
      match BearerAuth a with
      | None =>
        (authConfig, Some (errorString "bearerAuth config is required when type is BEARER"))
      | Some bearerAuth =>
        match Get_Secret (Namespace (sr_Meta sr), bearer_SecretRef bearerAuth) c with
        | Err err =>
          (authConfig,
           Some (Errorf_w ("failed to get bearer auth secret "
                             +:+ Quote (bearer_SecretRef bearerAuth) +:+ ": ") err))
        | Ok secret =>
          (with_BearerToken (Data_index secret "token") authConfig, None)
        end
      end
    else if String.eqb (Type_ a) AuthTypeMTLS then
      match MTLS a with
      | None =>
        (authConfig, Some (errorString "mtls config is required when type is MTLS"))
      | Some mtls =>
        match Get_Secret (Namespace (sr_Meta sr), CertSecretRef mtls) c with
        | Err err =>
          (authConfig,
           Some (Errorf_w ("failed to get client cert secret "
                             +:+ Quote (CertSecretRef mtls) +:+ ": ") err))
        | Ok certSecret =>
          match schemaclient.X509KeyPair (Data_index certSecret "tls.crt")
                  (Data_index certSecret "tls.key") with
          | Err err =>
            (authConfig, Some (Errorf_w "failed to parse client certificate: " err))
          | Ok cert =>
            let authConfig := with_ClientCert cert authConfig in
            if negb (String.eqb (CASecretRef mtls) Go.empty) then
              match Get_Secret (Namespace (sr_Meta sr), CASecretRef mtls) c with
              | Err err =>
                (authConfig,
                 Some (Errorf_w ("failed to get CA cert secret "
                                   +:+ Quote (CASecretRef mtls) +:+ ": ") err))
              | Ok caSecret =>
                let caCertPool :=
                  schemaclient.AppendCertsFromPEM [] (Data_index caSecret "ca.crt") in
                (with_CACert caCertPool authConfig, None)
              end
            else (authConfig, None)
          end
        end
      end
    else (authConfig, None)
  end.

(** The timeout both reconcilers derive from the spec:
    <<time.Duration(Spec.Timeout) * time.Second>>, 30 seconds when that is 0. *)
Definition clientTimeout (sr : SchemaRegistry) : Duration :=
  let timeout := mul64 (spec_Timeout (sr_Spec sr)) Second in
  if timeout =? 0 then 30 * Second else timeout.

(** A condition literal as the reconcilers write it: type Ready, no
    transition time. *)
Definition readyCondition (status : ConditionStatus) (reason message : string)
    (generation : Z) : Condition :=
  {| cond_Type := "Ready"; cond_Status := status;
     cond_ObservedGeneration := generation; LastTransitionTime := 0;
     Reason := reason; Message := message |}.

End Controllers.

(** *** schema_controller.go *)

Module SchemaReconciler.
Section Reconciler.
Context `{!schemaclient.GoLibs}.

Definition schemaFinalizer : string := "registry.strimzi.io/schema-finalizer".

Definition set_schema_Finalizers (fs : list string) (schema : Schema) : Schema :=
  {| schema_Meta := set_Finalizers fs (schema_Meta schema);
     schema_Spec := schema_Spec schema;
     schema_Status := schema_Status schema |}.

Definition set_schema_Status (st : SchemaStatus) (schema : Schema) : Schema :=
  {| schema_Meta := schema_Meta schema;
     schema_Spec := schema_Spec schema;
     schema_Status := st |}.

Definition set_Conditions (conds : list Condition) (st : SchemaStatus) : SchemaStatus :=
  {| SchemaID := SchemaID st; Version := Version st; RegisteredAt := RegisteredAt st;
     ObservedGeneration := ObservedGeneration st; Conditions := conds |}.

(** <<func (r *SchemaReconciler) buildClient>> *)
Definition buildClient (schema : Schema) (c : Cluster)
    : result schemaclient.SchemaRegistryClient :=
  let registryNamespace :=
    if String.eqb (rref_Namespace (RegistryRef (schema_Spec schema))) Go.empty
    then Namespace (schema_Meta schema)
    else rref_Namespace (RegistryRef (schema_Spec schema)) in
  match Get_SchemaRegistry
          (registryNamespace, rref_Name (RegistryRef (schema_Spec schema))) c with
  | Err err =>
    Err (Errorf_w ("failed to get SchemaRegistry "
                     +:+ Quote (rref_Name (RegistryRef (schema_Spec schema))) +:+ ": ") err)
  | Ok schemaRegistry =>
    match loadAuthConfig c schemaRegistry with
    | (_, Some err) => Err err
    | (authConfig, None) =>
      schemaclient.NewClient (URL (sr_Spec schemaRegistry)) authConfig
        (clientTimeout schemaRegistry) (spec_InsecureSkipVerify (sr_Spec schemaRegistry))
    end
  end.

(** <<func (r *SchemaReconciler) deleteFromRegistry>> *)
Definition deleteFromRegistry (schema : Schema) : State World (option error) :=
  b <- read (buildClient schema) ;;
  match b with
  | Err err =>
    (* If the registry itself is gone, we can still proceed with finalizer removal *)
    _ <- logf (logInfo "Could not build client during deletion, skipping registry cleanup"
                 [("error", Error err)]) ;;
    ret None
  | Ok srClient =>
    remote (schemaclient.DeleteSubject srClient (Subject (schema_Spec schema)))
  end.

(** <<func (r *SchemaReconciler) setConditionFailed>> *)
Definition setConditionFailed (schema : Schema) (reason message : string)
    : State World (option error) :=
  g <- read (Get_Schema (ObjectKeyFromObject (schema_Meta schema))) ;;
  match g with
  | Err err => ret (IgnoreNotFound err)
  | Ok schema =>
    now <- Now ;;
    let conditions :=
      SetStatusCondition now (Conditions (schema_Status schema))
        (readyCondition ConditionFalse reason message (Generation (schema_Meta schema))) in
    api (UpdateStatus_Schema
           (set_schema_Status (set_Conditions conditions (schema_Status schema)) schema))
  end.

(** <<func convertReferences>> *)
Definition convertReferences (refs : list SchemaReference)
    : list schemaclient.SchemaReference :=
  List.map (λ ref, {| schemaclient.ref_Name := sref_Name ref;
                      schemaclient.ref_Subject := sref_Subject ref;
                      schemaclient.ref_Version := sref_Version ref |}) refs.

(** The tail of <<Reconcile>>, from the comment <<Build Schema Registry
    client>> to its end, run on the object as fetched (or re-fetched after
    the finalizer was attached). *)
Definition reconcileRegistration (req : string * string) (schema : Schema)
    : State World (Result * option error) :=
  (* --- Build Schema Registry client --- *)
  b <- read (buildClient schema) ;;
  match b with
  | Err err =>
    _ <- logf (logError err "Failed to build Schema Registry client" []) ;;
    e <- setConditionFailed schema "ClientBuildFailed" (Error err) ;;
    ret (requeueAfter Minute, e)
  | Ok srClient =>
    (* --- Register schema --- *)
    let registerReq :=
      {| schemaclient.req_Schema := spec_Schema (schema_Spec schema);
         schemaclient.req_SchemaType := SchemaType (schema_Spec schema);
         schemaclient.req_References := convertReferences (References (schema_Spec schema)) |} in
    _ <- logf (logInfo "Registering schema"
                 [("subject", Subject (schema_Spec schema));
                  ("type", SchemaType (schema_Spec schema))]) ;;
    r <- remote (schemaclient.RegisterSchema srClient (Subject (schema_Spec schema))
                   registerReq) ;;
    match r with
    | Err err =>
      _ <- logf (logError err "Failed to register schema"
                   [("subject", Subject (schema_Spec schema))]) ;;
      e <- setConditionFailed schema "RegistrationFailed" (Error err) ;;
      ret (requeueAfter Minute, e)
    | Ok resp =>
      (* --- Set compatibility level if specified --- *)
      _ <- (if negb (String.eqb (CompatibilityLevel (schema_Spec schema)) Go.empty) then
              s <- remote (schemaclient.SetCompatibility srClient
                             (Subject (schema_Spec schema))
                             (CompatibilityLevel (schema_Spec schema))) ;;
              match s with
              | Some err =>
                (* Non-fatal: log but continue - schema is already registered *)
                logf (logError err "Failed to set compatibility level"
                        [("subject", Subject (schema_Spec schema));
                         ("level", CompatibilityLevel (schema_Spec schema))])
              | None => ret tt
              end
            else ret tt) ;;
      (* --- Update status --- *)
      g <- read (Get_Schema req) ;;
      match g with
      | Err err => ret (noRequeue, IgnoreNotFound err)
      | Ok schema =>
        now <- Now ;;
        now' <- Now ;;
        let conditions :=
          SetStatusCondition now' (Conditions (schema_Status schema))
            (readyCondition ConditionTrue "Registered"
               ("Schema registered with ID " +:+ itoa (schemaclient.resp_ID resp)
                  +:+ ", version " +:+ itoa (schemaclient.resp_Version resp))
               (Generation (schema_Meta schema))) in
        let status :=
          {| SchemaID := Some (schemaclient.resp_ID resp);
             Version := Some (schemaclient.resp_Version resp);
             RegisteredAt := Some now;
             ObservedGeneration := Generation (schema_Meta schema);
             Conditions := conditions |} in
        u <- api (UpdateStatus_Schema (set_schema_Status status schema)) ;;
        match u with
        | Some err =>
          _ <- logf (logError err "Failed to update Schema status" []) ;;
          ret (noRequeue, Some err)
        | None =>
          _ <- logf (logInfo "Schema successfully registered"
                       [("subject", Subject (schema_Spec schema));
                        ("schemaID", itoa (schemaclient.resp_ID resp));
                        ("version", itoa (schemaclient.resp_Version resp))]) ;;
          ret (noRequeue, None)
        end
      end
    end
  end.

(** <<func (r *SchemaReconciler) Reconcile>> *)
Definition Reconcile (req : string * string) : State World (Result * option error) :=
  g <- read (Get_Schema req) ;;
  match g with
  | Err err => ret (noRequeue, IgnoreNotFound err)
  | Ok schema =>
    (* --- Deletion path --- *)
    if negb (IsZeroPtr (DeletionTimestamp (schema_Meta schema))) then
      if controllerutil.ContainsFinalizer (Finalizers (schema_Meta schema)) schemaFinalizer
      then
        _ <- logf (logInfo "Deleting schema subject from registry"
                     [("subject", Subject (schema_Spec schema))]) ;;
        d <- deleteFromRegistry schema ;;
        match d with
        | Some err =>
          _ <- logf (logError err "Failed to delete schema subject from registry" []) ;;
          ret (noRequeue, Some err)
        | None =>
          let schema :=
            set_schema_Finalizers
              (controllerutil.RemoveFinalizer (Finalizers (schema_Meta schema))
                 schemaFinalizer) schema in
          u <- api (Update_Schema schema) ;;
          match u with
          | Some err => ret (noRequeue, Some err)
          | None => ret (noRequeue, None)
          end
        end
      else ret (noRequeue, None)
    else
      (* --- Add finalizer if missing --- *)
      if negb (controllerutil.ContainsFinalizer (Finalizers (schema_Meta schema))
                 schemaFinalizer)
      then
        let schema :=
          set_schema_Finalizers
            (controllerutil.AddFinalizer (Finalizers (schema_Meta schema))
               schemaFinalizer) schema in
        u <- api (Update_Schema schema) ;;
        match u with
        | Some err => ret (noRequeue, Some err)
        | None =>
          (* Re-fetch after update *)
          g <- read (Get_Schema req) ;;
          match g with
          | Err err => ret (noRequeue, IgnoreNotFound err)
          | Ok schema => reconcileRegistration req schema
          end
        end
      else reconcileRegistration req schema
  end.

(** The loop of <<findSchemasForRegistry>> over the listed items. *)
Fixpoint requestsFor (registryName : string) (items : list Schema)
    : list (string * string) :=
  match items with
  | [] => []
  | schema :: rest =>
    if String.eqb (rref_Name (RegistryRef (schema_Spec schema))) registryName
    then (Namespace (schema_Meta schema), Name (schema_Meta schema))
           :: requestsFor registryName rest
    else requestsFor registryName rest
  end.

(** <<func (r *SchemaReconciler) findSchemasForRegistry>>: the requests
    enqueued when the given registry object changes. *)
Definition findSchemasForRegistry (registry : SchemaRegistry) (c : Cluster)
    : list (string * string) :=
  match List_Schemas (Namespace (sr_Meta registry)) c with
  | Err _ => []
  | Ok items => requestsFor (Name (sr_Meta registry)) items
  end.

End Reconciler.
End SchemaReconciler.

(** *** schemaregistry_controller.go *)

Module SchemaRegistryReconciler.
Section Reconciler.
Context `{!schemaclient.GoLibs}.

Definition set_sr_Status (st : SchemaRegistryStatus) (sr : SchemaRegistry)
    : SchemaRegistry :=
  {| sr_Meta := sr_Meta sr; sr_Spec := sr_Spec sr; sr_Status := st |}.

(** <<func (r *SchemaRegistryReconciler) setConditionFailed>> *)
Definition setConditionFailed (sr : SchemaRegistry) (reason message : string)
    : State World (option error) :=
  g <- read (Get_SchemaRegistry (ObjectKeyFromObject (sr_Meta sr))) ;;
  match g with
  | Err err => ret (IgnoreNotFound err)
  | Ok sr =>
    now <- Now ;;
    let conditions :=
      SetStatusCondition now (sr_Conditions (sr_Status sr))
        (readyCondition ConditionFalse reason message (Generation (sr_Meta sr))) in
    let status :=
      {| ConnectionStatus := "Unreachable";
         LastChecked := LastChecked (sr_Status sr);
         sr_ObservedGeneration := sr_ObservedGeneration (sr_Status sr);
         sr_Conditions := conditions |} in
    api (UpdateStatus_SchemaRegistry (set_sr_Status status sr))
  end.

(** <<func (r *SchemaRegistryReconciler) Reconcile>> *)
Definition Reconcile (req : string * string) : State World (Result * option error) :=
  g <- read (Get_SchemaRegistry req) ;;
  match g with
  | Err err => ret (noRequeue, IgnoreNotFound err)
  | Ok schemaRegistry =>
    (* Build the Schema Registry HTTP client from spec + secrets *)
    l <- read (λ c, loadAuthConfig c schemaRegistry) ;;
    match l with
    | (_, Some err) =>
      _ <- logf (logError err "Failed to load auth config" []) ;;
      e <- setConditionFailed schemaRegistry "AuthLoadFailed" (Error err) ;;
      ret (noRequeue, e)
    | (authConfig, None) =>
      match schemaclient.NewClient (URL (sr_Spec schemaRegistry)) authConfig
              (clientTimeout schemaRegistry)
              (spec_InsecureSkipVerify (sr_Spec schemaRegistry)) with
      | Err err =>
        _ <- logf (logError err "Failed to create Schema Registry client" []) ;;
        e <- setConditionFailed schemaRegistry "ClientCreateFailed" (Error err) ;;
        ret (noRequeue, e)
      | Ok srClient =>
        (* Health check *)
        healthErr <- remote (schemaclient.HealthCheck srClient) ;;
        (* Re-fetch before status update to avoid conflicts *)
        g <- read (Get_SchemaRegistry req) ;;
        match g with
        | Err err => ret (noRequeue, IgnoreNotFound err)
        | Ok schemaRegistry =>
          now <- Now ;;
          now' <- Now ;;
          status <-
            match healthErr with
            | Some healthErr =>
              _ <- logf (logError healthErr "Schema Registry health check failed" []) ;;
              ret {| ConnectionStatus := "Unreachable";
                     LastChecked := Some now;
                     sr_ObservedGeneration := Generation (sr_Meta schemaRegistry);
                     sr_Conditions :=
                       SetStatusCondition now' (sr_Conditions (sr_Status schemaRegistry))
                         (readyCondition ConditionFalse "ConnectionFailed"
                            (Error healthErr) (Generation (sr_Meta schemaRegistry))) |}
            | None =>
              _ <- logf (logInfo "Schema Registry health check succeeded" []) ;;
              ret {| ConnectionStatus := "Connected";
                     LastChecked := Some now;
                     sr_ObservedGeneration := Generation (sr_Meta schemaRegistry);
                     sr_Conditions :=
                       SetStatusCondition now' (sr_Conditions (sr_Status schemaRegistry))
                         (readyCondition ConditionTrue "Connected"
                            "Successfully connected to Schema Registry"
                            (Generation (sr_Meta schemaRegistry))) |}
            end ;;
          u <- api (UpdateStatus_SchemaRegistry (set_sr_Status status schemaRegistry)) ;;
          match u with
          | Some err =>
            _ <- logf (logError err "Failed to update SchemaRegistry status" []) ;;
            ret (noRequeue, Some err)
          | None =>
            (* Requeue periodically for ongoing health monitoring *)
            ret (requeueAfter (5 * Minute), None)
          end
        end
      end
    end
  end.

(** <<func schemaRegistryReferencesSecret>> *)
Definition schemaRegistryReferencesSecret (sr : SchemaRegistry) (secretName : string)
    : bool :=
  match Auth (sr_Spec sr) with
  | None => false
  | Some a =>
    if String.eqb (Type_ a) AuthTypeBasic then
      match BasicAuth a with
      | Some b => String.eqb (basic_SecretRef b) secretName
      | None => false
      end
    else if String.eqb (Type_ a) AuthTypeBearer then
      match BearerAuth a with
      | Some b => String.eqb (bearer_SecretRef b) secretName
      | None => false
      end
    else if String.eqb (Type_ a) AuthTypeMTLS then
      match MTLS a with
      | None => false
      | Some m =>
        String.eqb (CertSecretRef m) secretName || String.eqb (CASecretRef m) secretName
      end
    else false
  end.

(** The loop of <<findSchemaRegistriesForSecret>> over the listed items. *)
Fixpoint requestsFor (secretName : string) (items : list SchemaRegistry)
    : list (string * string) :=
  match items with
  | [] => []
  | sr :: rest =>
    if schemaRegistryReferencesSecret sr secretName
    then (Namespace (sr_Meta sr), Name (sr_Meta sr)) :: requestsFor secretName rest
    else requestsFor secretName rest
  end.

(** <<func (r *SchemaRegistryReconciler) findSchemaRegistriesForSecret>> *)
Definition findSchemaRegistriesForSecret (secretNamespace secretName : string)
    (c : Cluster) : list (string * string) :=
  match List_SchemaRegistries secretNamespace c with
  | Err _ => []
  | Ok items => requestsFor secretName items
  end.

End Reconciler.
End SchemaRegistryReconciler.

End controller.

(** ** Vocabulary of the statements

    Names for the situations and states that the properties below speak
    about.  They add nothing to the code: each is a predicate on, or a
    projection of, the definitions above. *)

Section Vocabulary.
Context `{!schemaclient.GoLibs}.
Import metav1 v1alpha1 corev1 apiserver runtime controller.
Import controller.SchemaReconciler.

(** The key under which [buildClient] looks for the owning registry. *)
Definition owningRegistry (schema : Schema) : string * string :=
  (if String.eqb (rref_Namespace (RegistryRef (schema_Spec schema))) Go.empty
   then Namespace (schema_Meta schema)
   else rref_Namespace (RegistryRef (schema_Spec schema)),
   rref_Name (RegistryRef (schema_Spec schema))).

(** A Schema whose deletion was requested and that still carries the
    finalizer, stored under its own key. *)
Definition Deleting (schema : Schema) (c : Cluster) : Prop :=
  schemas c !! ObjectKeyFromObject (schema_Meta schema) = Some schema ∧
  IsZeroPtr (DeletionTimestamp (schema_Meta schema)) = false ∧
  controllerutil.ContainsFinalizer (Finalizers (schema_Meta schema)) schemaFinalizer = true.

(** The state reached when the finalizer has been cleared: the object is
    purged, or is stored without the finalizer and otherwise as before; no
    other object is touched. *)
Definition Removed (schema : Schema) (c c' : Cluster) : Prop :=
  let key := ObjectKeyFromObject (schema_Meta schema) in
  (schemas c' !! key = None ∨
   ∃ stored, schemas c' !! key = Some stored ∧
             controllerutil.ContainsFinalizer (Finalizers (schema_Meta stored))
               schemaFinalizer = false ∧
             schema_Spec stored = schema_Spec schema ∧
             schema_Status stored = schema_Status schema) ∧
  (∀ k, k ≠ key → schemas c' !! k = schemas c !! k) ∧
  registries c' = registries c ∧ secrets c' = secrets c.

(** The request body that [Reconcile] builds from the spec. *)
Definition registerReqOf (schema : Schema) : schemaclient.RegisterSchemaRequest :=
  {| schemaclient.req_Schema := spec_Schema (schema_Spec schema);
     schemaclient.req_SchemaType := SchemaType (schema_Spec schema);
     schemaclient.req_References := convertReferences (References (schema_Spec schema)) |}.

(** The Schema with the finalizer attached. *)
Definition withFinalizer (schema : Schema) : Schema :=
  set_schema_Finalizers
    (controllerutil.AddFinalizer (Finalizers (schema_Meta schema)) schemaFinalizer) schema.

(** A world in which the stored Schema under [key] is replaced. *)
Definition storing (key : string * string) (schema : Schema) (w : World) : World :=
  {| cluster := set_schemas (<[key := schema]> (schemas (cluster w))) (cluster w);
     net := net w; clock := clock w; log := log w |}.

(** The Schema with the Ready condition of a failure. *)
Definition markFailed (now : Time) (reason message : string) (schema : Schema) : Schema :=
  set_schema_Status
    (set_Conditions
       (SetStatusCondition now (Conditions (schema_Status schema))
          (readyCondition ConditionFalse reason message (Generation (schema_Meta schema))))
       (schema_Status schema)) schema.

(** The Schema with the status of a successful registration. *)
Definition markRegistered (now : Time) (resp : schemaclient.SchemaResponse)
    (schema : Schema) : Schema :=
  set_schema_Status
    {| SchemaID := Some (schemaclient.resp_ID resp);
       Version := Some (schemaclient.resp_Version resp);
       RegisteredAt := Some now;
       ObservedGeneration := Generation (schema_Meta schema);
       Conditions :=
         SetStatusCondition now (Conditions (schema_Status schema))
           (readyCondition ConditionTrue "Registered"
              ("Schema registered with ID " +:+ itoa (schemaclient.resp_ID resp)
                 +:+ ", version " +:+ itoa (schemaclient.resp_Version resp))
              (Generation (schema_Meta schema))) |} schema.

(** How the registration of a Schema fails: no client can be built, or
    [RegisterSchema] returns an error.  [reason] is the reason the reconciler
    reports for it. *)
Definition RegistrationFails (schema : Schema) (c : Cluster) (n : schemaclient.Net)
    (reason : string) (e : error) : Prop :=
  (buildClient schema c = Err e ∧ reason = "ClientBuildFailed") ∨
  (∃ srClient,
     buildClient schema c = Ok srClient ∧
     fst (schemaclient.RegisterSchema srClient (Subject (schema_Spec schema))
            (registerReqOf schema) n) = Err e ∧
     reason = "RegistrationFailed").

(** The client [Reconcile] builds once the credentials are resolved. *)
Definition clientFor (sr : SchemaRegistry) (authConfig : schemaclient.AuthConfig)
    : result schemaclient.SchemaRegistryClient :=
  schemaclient.NewClient (URL (sr_Spec sr)) authConfig (clientTimeout sr)
    (spec_InsecureSkipVerify (sr_Spec sr)).

(** The requests that a run of a client operation adds to the history. *)
Definition sentBy {A} (op : State schemaclient.Net A) (n : schemaclient.Net)
    : list schemaclient.Request :=
  drop (length (schemaclient.sent n)) (schemaclient.sent (snd (op n))).

(** The optional step of [Reconcile] that sets the compatibility level:
    nothing is done when the spec declares none. *)
Definition compatibilityStep (srClient : schemaclient.SchemaRegistryClient)
    (schema : Schema) : State schemaclient.Net (option error) :=
  if negb (String.eqb (CompatibilityLevel (schema_Spec schema)) Go.empty)
  then schemaclient.SetCompatibility srClient (Subject (schema_Spec schema))
         (CompatibilityLevel (schema_Spec schema))
  else ret None.

(** The requests that a run of a reconciler adds to the history. *)
Definition sentDuring {A} (op : State World A) (w : World) : list schemaclient.Request :=
  drop (length (schemaclient.sent (net w))) (schemaclient.sent (net (snd (op w)))).

(** Every stored Schema is stored under its own namespace and name. *)
Definition wellKeyed (c : Cluster) : Prop :=
  ∀ k s, schemas c !! k = Some s → ObjectKeyFromObject (schema_Meta s) = k.

(** The same for the stored registries. *)
Definition wellKeyedRegistries (c : Cluster) : Prop :=
  ∀ k sr, registries c !! k = Some sr → ObjectKeyFromObject (sr_Meta sr) = k.

(** [keeps I op]: a run of [op] from a world in which [I] holds ends in a
    world in which [I] holds. *)
Definition keeps {A} (I : World → Prop) (op : State World A) : Prop :=
  ∀ w, I w → I (snd (op w)).

(** [returns Q op]: whatever the world, the result of [op] satisfies [Q]. *)
Definition returns {A} (Q : A → Prop) (op : State World A) : Prop :=
  ∀ w, Q (fst (op w)).

(** What may differ between the cluster [c] before and the cluster [c']
    after a reconcile of the Schema under [key]: that Schema, of which the
    name, the namespace, the generation, the deletion timestamp and the spec
    stay. *)
Definition touchesOnlySchema (key : string * string) (c c' : Cluster) : Prop :=
  registries c' = registries c ∧ secrets c' = secrets c ∧ rejected c' = rejected c ∧
  (∀ k, k ≠ key → schemas c' !! k = schemas c !! k) ∧
  (∀ stored', schemas c' !! key = Some stored' →
     ∃ stored, schemas c !! key = Some stored ∧
       schema_Spec stored' = schema_Spec stored ∧
       Name (schema_Meta stored') = Name (schema_Meta stored) ∧
       Namespace (schema_Meta stored') = Namespace (schema_Meta stored) ∧
       Generation (schema_Meta stored') = Generation (schema_Meta stored) ∧
       DeletionTimestamp (schema_Meta stored') = DeletionTimestamp (schema_Meta stored)).

(** The same for a reconcile of the registry under [key]: only the status
    of that registry may differ. *)
Definition touchesOnlyStatus (key : string * string) (c c' : Cluster) : Prop :=
  schemas c' = schemas c ∧ secrets c' = secrets c ∧ rejected c' = rejected c ∧
  (∀ k, k ≠ key → registries c' !! k = registries c !! k) ∧
  ((λ sr, (sr_Meta sr, sr_Spec sr)) <$> registries c' !! key)
    = ((λ sr, (sr_Meta sr, sr_Spec sr)) <$> registries c !! key).

(** The requests that a reconcile of [schema] builds: the DELETE of the
    subject when the deletion of the Schema was requested; otherwise the
    registration, the read of the latest version and, when the spec declares
    a compatibility level, the PUT of that level.  All of them are built by
    the client of the owning registry. *)
Definition schemaRequest (schema : Schema) (c : Cluster) (req : schemaclient.Request)
    : Prop :=
  ∃ srClient,
    buildClient schema c = Ok srClient ∧
    let subject := Subject (schema_Spec schema) in
    if IsZeroPtr (DeletionTimestamp (schema_Meta schema)) then
      schemaclient.registerRequest srClient subject (registerReqOf schema) = Ok req ∨
      schemaclient.latestVersionRequest srClient subject = Ok req ∨
      (CompatibilityLevel (schema_Spec schema) ≠ Go.empty ∧
       schemaclient.compatibilityRequest srClient subject
         (CompatibilityLevel (schema_Spec schema)) = Ok req)
    else schemaclient.deleteRequest srClient subject = Ok req.

(** The request that a reconcile of the registry object [sr] builds: the
    probe of the client built from its spec and its credentials. *)
Definition registryRequest (sr : SchemaRegistry) (c : Cluster)
    (req : schemaclient.Request) : Prop :=
  ∃ authConfig srClient,
    loadAuthConfig c sr = (authConfig, None) ∧
    clientFor sr authConfig = Ok srClient ∧
    schemaclient.healthCheckRequest srClient = Ok req.

End Vocabulary.

(** ** A model of the library functions, for running the definitions

    The theorems below hold for every [GoLibs].  To evaluate the code on
    concrete inputs one instance is built here: a decoder for the JSON
    grammar of RFC 8259 with the field matching of [encoding/json], and a
    permissive stand-in for the PEM parser. *)

Module json.

Local Unset Elimination Schemes.

Inductive Value :=
| Null
| Bool (b : bool)
| Number (literal : string)
| Str (s : string)
| Array (elements : list Value)
| Object (members : list (string * Value)).

Local Set Elimination Schemes.

Definition isSpace (c : ascii) : bool :=
  let n := nat_of_ascii c in
  (n =? 32)%nat || (n =? 9)%nat || (n =? 10)%nat || (n =? 13)%nat.

Definition isDigit (c : ascii) : bool :=
  let n := nat_of_ascii c in (48 <=? n)%nat && (n <=? 57)%nat.

Fixpoint skipSpace (s : string) : string :=
  match s with
  | String c rest => if isSpace c then skipSpace rest else s
  | EmptyString => s
  end.

(** The longest prefix of digits and what follows it. *)
Fixpoint digits (s : string) : string * string :=
  match s with
  | String c rest =>
    if isDigit c then let '(d, r) := digits rest in (String c d, r)
    else (EmptyString, s)
  | EmptyString => (EmptyString, s)
  end.

Definition hexDigit (c : ascii) : option N :=
  let n := N_of_ascii c in
  if ((48 <=? n) && (n <=? 57))%N then Some (n - 48)%N
  else if ((97 <=? n) && (n <=? 102))%N then Some (n - 87)%N
  else if ((65 <=? n) && (n <=? 70))%N then Some (n - 55)%N
  else None.

Definition hex4 (a b c d : ascii) : option N :=
  match hexDigit a, hexDigit b, hexDigit c, hexDigit d with
  | Some a, Some b, Some c, Some d => Some (((a * 16 + b) * 16 + c) * 16 + d)%N
  | _, _, _, _ => None
  end.

(** UTF-8 of a code point; a lone half of a surrogate pair is written as
    the replacement character. *)
Definition utf8 (r : N) : string :=
  let byte n := String (ascii_of_N n) EmptyString in
  if (r <? 128)%N then byte r
  else if (r <? 2048)%N then byte (192 + r / 64)%N +:+ byte (128 + r mod 64)%N
  else if ((55296 <=? r) && (r <=? 57343))%N then
    byte 239%N +:+ byte 191%N +:+ byte 189%N
  else if (r <? 65536)%N then
    byte (224 + r / 4096)%N +:+ byte (128 + (r / 64) mod 64)%N
      +:+ byte (128 + r mod 64)%N
  else
    byte (240 + r / 262144)%N +:+ byte (128 + (r / 4096) mod 64)%N
      +:+ byte (128 + (r / 64) mod 64)%N +:+ byte (128 + r mod 64)%N.

(** The code point of a surrogate pair, when the two halves form one. *)
Definition surrogatePair (hi lo : N) : option N :=
  if ((55296 <=? hi) && (hi <=? 56319) && (56320 <=? lo) && (lo <=? 57343))%N
  then Some (65536 + (hi - 55296) * 1024 + (lo - 56320))%N
  else None.

(** The second half of a surrogate pair at the head of the input: its value
    and the input after it. *)
Definition lowHalf (hi : N) (s : string) : option N :=
  match s with
  | String b (String u (String a2 (String b2 (String c2 (String d2 _))))) =>
    if (nat_of_ascii b =? 92)%nat && (nat_of_ascii u =? 117)%nat then
      match hex4 a2 b2 c2 d2 with
      | Some lo => surrogatePair hi lo
      | None => None
      end
    else None
  | _ => None
  end.

(** The rest of a string literal after its opening quote. *)
Fixpoint stringBody (s : string) : option (string * string) :=
  match s with
  | EmptyString => None
  | String c rest =>
    let n := nat_of_ascii c in
    if (n =? 34)%nat then Some (EmptyString, rest)
    else if (n <? 32)%nat then None
    else if (n =? 92)%nat then
      match rest with
      | String e rest' =>
        let k := nat_of_ascii e in
        let simple (b : nat) :=
          match stringBody rest' with
          | Some (t, r) => Some (String (ascii_of_nat b) t, r)
          | None => None
          end in
        if (k =? 34)%nat then simple 34%nat
        else if (k =? 92)%nat then simple 92%nat
        else if (k =? 47)%nat then simple 47%nat
        else if (k =? 98)%nat then simple 8%nat
        else if (k =? 102)%nat then simple 12%nat
        else if (k =? 110)%nat then simple 10%nat
        else if (k =? 114)%nat then simple 13%nat
        else if (k =? 116)%nat then simple 9%nat
        else if (k =? 117)%nat then
          match rest' with
          | String a (String b (String c' (String d rest''))) =>
            match hex4 a b c' d with
            | None => None
            | Some r =>
              match lowHalf r rest'', rest'' with
              | Some point, String _ (String _ (String _ (String _ (String _ (String _ rest3))))) =>
                match stringBody rest3 with
                | Some (t, rem) => Some (utf8 point +:+ t, rem)
                | None => None
                end
              | _, _ =>
                match stringBody rest'' with
                | Some (t, rem) => Some (utf8 r +:+ t, rem)
                | None => None
                end
              end
            end
          | _ => None
          end
        else None
      | EmptyString => None
      end
    else
      match stringBody rest with
      | Some (t, r) => Some (String c t, r)
      | None => None
      end
  end.

(** A number literal at the head of the input. *)
Definition number (s : string) : option (string * string) :=
  let '(sign, s1) :=
    match s with
    | String "-" r => ("-", r)
    | _ => (EmptyString, s)
    end in
  let '(int, s2) := digits s1 in
  let intOk :=
    match int with
    | EmptyString => false
    | String "0" (String _ _) => false
    | _ => true
    end in
  if negb intOk then None
  else
    match s2 with
    | String "." r =>
      let '(frac, s3) := digits r in
      match frac with
      | EmptyString => None
      | _ => Some (sign +:+ int +:+ "." +:+ frac, s3)
      end
    | _ => Some (sign +:+ int, s2)
    end.

(** An exponent after a number literal. *)
Definition exponent (lit : string * string) : option (string * string) :=
  let '(l, s) := lit in
  match s with
  | String e r =>
    if (nat_of_ascii e =? 101)%nat || (nat_of_ascii e =? 69)%nat then
      let '(sign, r1) :=
        match r with
        | String "+" r' => ("+", r')
        | String "-" r' => ("-", r')
        | _ => (EmptyString, r)
        end in
      let '(ds, r2) := digits r1 in
      match ds with
      | EmptyString => None
      | _ => Some (l +:+ String e sign +:+ ds, r2)
      end
    else Some lit
  | EmptyString => Some lit
  end.

Definition literal (word : string) (v : Value) (s : string) : option (Value * string) :=
  if String.prefix word s
  then Some (v, String.substring (String.length word)
                  (String.length s - String.length word) s)
  else None.

(** One JSON value at the head of the input, and the input after it. *)
Fixpoint parseValue (fuel : nat) (s : string) {struct fuel} : option (Value * string) :=
  match fuel with
  | O => None
  | S fuel =>
    match skipSpace s with
    | EmptyString => None
    | String c rest as s' =>
      let n := nat_of_ascii c in
      if (n =? 123)%nat then
        match skipSpace rest with
        | String "}" r => Some (Object [], r)
        | _ => parseMembers fuel rest []
        end
      else if (n =? 91)%nat then
        match skipSpace rest with
        | String "]" r => Some (Array [], r)
        | _ => parseElements fuel rest []
        end
      else if (n =? 34)%nat then
        match stringBody rest with
        | Some (t, r) => Some (Str t, r)
        | None => None
        end
      else if (n =? 116)%nat then literal "true" (Bool true) s'
      else if (n =? 102)%nat then literal "false" (Bool false) s'
      else if (n =? 110)%nat then literal "null" Null s'
      else
        match number s' with
        | Some lit =>
          match exponent lit with
          | Some (l, r) => Some (Number l, r)
          | None => None
          end
        | None => None
        end
    end
  end
with parseElements (fuel : nat) (s : string) (acc : list Value) {struct fuel}
    : option (Value * string) :=
  match fuel with
  | O => None
  | S fuel =>
    match parseValue fuel s with
    | None => None
    | Some (v, r) =>
      match skipSpace r with
      | String "," r' => parseElements fuel r' (acc ++ [v])
      | String "]" r' => Some (Array (acc ++ [v]), r')
      | _ => None
      end
    end
  end
with parseMembers (fuel : nat) (s : string) (acc : list (string * Value)) {struct fuel}
    : option (Value * string) :=
  match fuel with
  | O => None
  | S fuel =>
    match skipSpace s with
    | String q rest =>
      if (nat_of_ascii q =? 34)%nat then
        match stringBody rest with
        | None => None
        | Some (key, r) =>
          match skipSpace r with
          | String ":" r' =>
            match parseValue fuel r' with
            | None => None
            | Some (v, r'') =>
              match skipSpace r'' with
              | String "," r3 => parseMembers fuel r3 (acc ++ [(key, v)])
              | String "}" r3 => Some (Object (acc ++ [(key, v)]), r3)
              | _ => None
              end
            end
          | _ => None
          end
        end
      else None
    | EmptyString => None
    end
  end.

Definition parse (s : string) : option (Value * string) :=
  parseValue (2 * String.length s + 2) s.

(** [json.Unmarshal] first checks that the input is one value and nothing
    else; a [Decoder] reads the first value of a stream. *)
Definition syntaxError : error := errorString "json: invalid input".
Definition typeError (field : string) : error :=
  errorString ("json: cannot unmarshal value into Go struct field " +:+ field).

Definition unmarshalValue (data : string) : result Value :=
  match parse data with
  | Some (v, rest) =>
    match skipSpace rest with
    | EmptyString => Ok v
    | _ => Err syntaxError
    end
  | None => Err syntaxError
  end.

Definition decodeValue (stream : string) : result Value :=
  match skipSpace stream with
  | EmptyString => Err (errorString "EOF")
  | _ =>
    match parse stream with
    | Some (v, _) => Ok v
    | None => Err syntaxError
    end
  end.

(** Field names match keys exactly or up to the case of ASCII letters.
    (The library also identifies two non-ASCII letters with s and k.) *)
Definition upper (c : ascii) : ascii :=
  let n := nat_of_ascii c in
  if (97 <=? n)%nat && (n <=? 122)%nat then ascii_of_nat (n - 32) else c.

Fixpoint equalFold (a b : string) : bool :=
  match a, b with
  | EmptyString, EmptyString => true
  | String x a', String y b' => Ascii.eqb (upper x) (upper y) && equalFold a' b'
  | _, _ => false
  end.

Fixpoint digitsValue (s : string) (acc : Z) : option Z :=
  match s with
  | EmptyString => Some acc
  | String c rest =>
    if isDigit c then digitsValue rest (10 * acc + Z.of_nat (nat_of_ascii c) - 48)
    else None
  end.

(** A number literal as a Go [int]: decimal digits only, within 64 bits. *)
Definition parseInt (lit : string) : option Z :=
  let v :=
    match lit with
    | String "-" ds => option_map Z.opp (digitsValue ds 0)
    | _ => digitsValue lit 0
    end in
  match v with
  | Some z => if (- 2 ^ 63 <=? z) && (z <? 2 ^ 63) then Some z else None
  | None => None
  end.

(** Storing a value into an [int] or a [string] field; [null] leaves the
    field as it is, a value of another type is a type error. *)
Definition intField (v : Value) (cur : Z) : option Z :=
  match v with
  | Null => Some cur
  | Number lit => parseInt lit
  | _ => None
  end.

Definition stringField (v : Value) (cur : string) : option string :=
  match v with
  | Null => Some cur
  | Str s => Some s
  | _ => None
  end.

(** The members of an object are stored in order; decoding goes on after a
    type error and reports the first one at the end. *)
Fixpoint storeID (members : list (string * Value)) (cur : Z) (err : option error)
    : Z * option error :=
  match members with
  | [] => (cur, err)
  | (key, v) :: rest =>
    if equalFold key "id" then
      match intField v cur with
      | Some z => storeID rest z err
      | None => storeID rest cur (match err with None => Some (typeError "id") | _ => err end)
      end
    else storeID rest cur err
  end.

Definition Unmarshal_ID (data : string) : result Z :=
  match unmarshalValue data with
  | Err err => Err err
  | Ok Null => Ok 0
  | Ok (Object members) =>
    match storeID members 0 None with
    | (_, Some err) => Err err
    | (id, None) => Ok id
    end
  | Ok _ => Err (typeError Go.empty)
  end.

Definition firstError (err : option error) (field : string) : option error :=
  match err with
  | None => Some (typeError field)
  | Some _ => err
  end.

Fixpoint storeSchemaResponse (members : list (string * Value))
    (cur : schemaclient.SchemaResponse) (err : option error)
    : schemaclient.SchemaResponse * option error :=
  match members with
  | [] => (cur, err)
  | (key, v) :: rest =>
    if equalFold key "id" then
      match intField v (schemaclient.resp_ID cur) with
      | Some z =>
        storeSchemaResponse rest
          {| schemaclient.resp_ID := z;
             schemaclient.resp_Version := schemaclient.resp_Version cur;
             schemaclient.resp_Schema := schemaclient.resp_Schema cur |} err
      | None => storeSchemaResponse rest cur (firstError err "id")
      end
    else if equalFold key "version" then
      match intField v (schemaclient.resp_Version cur) with
      | Some z =>
        storeSchemaResponse rest
          {| schemaclient.resp_ID := schemaclient.resp_ID cur;
             schemaclient.resp_Version := z;
             schemaclient.resp_Schema := schemaclient.resp_Schema cur |} err
      | None => storeSchemaResponse rest cur (firstError err "version")
      end
    else if equalFold key "schema" then
      match stringField v (schemaclient.resp_Schema cur) with
      | Some t =>
        storeSchemaResponse rest
          {| schemaclient.resp_ID := schemaclient.resp_ID cur;
             schemaclient.resp_Version := schemaclient.resp_Version cur;
             schemaclient.resp_Schema := t |} err
      | None => storeSchemaResponse rest cur (firstError err "schema")
      end
    else storeSchemaResponse rest cur err
  end.

Definition zeroSchemaResponse : schemaclient.SchemaResponse :=
  {| schemaclient.resp_ID := 0; schemaclient.resp_Version := 0;
     schemaclient.resp_Schema := Go.empty |}.

Definition Decode_SchemaResponse (stream : string) : result schemaclient.SchemaResponse :=
  match decodeValue stream with
  | Err err => Err err
  | Ok Null => Ok zeroSchemaResponse
  | Ok (Object members) =>
    match storeSchemaResponse members zeroSchemaResponse None with
    | (_, Some err) => Err err
    | (r, None) => Ok r
    end
  | Ok _ => Err (typeError Go.empty)
  end.

End json.

(** A stand-in for [tls.X509KeyPair] that accepts every pair of non-empty
    inputs; the library rejects more. *)
Definition permissiveX509KeyPair (crt key : string) : result schemaclient.Certificate :=
  match crt, key with
  | EmptyString, _ =>
    Err (errorString "tls: failed to find any PEM data in certificate input")
  | _, EmptyString =>
    Err (errorString "tls: failed to find any PEM data in key input")
  | _, _ => Ok {| schemaclient.certPEM := crt; schemaclient.keyPEM := key |}
  end.

(** The instance used to evaluate the code; every URL is taken to be
    well formed. *)
Definition modelLibs : schemaclient.GoLibs :=
  {| schemaclient.X509KeyPair := permissiveX509KeyPair;
     schemaclient.X509KeyPair_no_cert := λ _, I;
     schemaclient.X509KeyPair_no_key :=
       λ crt, match crt with EmptyString => I | String _ _ => I end;
     schemaclient.AppendCertsFromPEM := λ pool pem, pool ++ [pem];
     schemaclient.NewRequest_error := λ _ _, None;
     schemaclient.Unmarshal_ID := json.Unmarshal_ID;
     schemaclient.Decode_SchemaResponse := json.Decode_SchemaResponse |}.

(** ** Concrete inputs

    Clients, registries and clusters on which the statements below are
    evaluated. *)

Module sample.
Import schemaclient.

(** A client without credentials, as <<NewClient(url, AuthConfig{Type:
    NONE}, 5s, false)>> builds it. *)
Definition client : SchemaRegistryClient :=
  {| baseURL := "http://registry:8081";
     client_http :=
       {| Timeout := 5 * Second;
          TLSClientConfig :=
            {| InsecureSkipVerify := false; Certificates := []; RootCAs := None |} |};
     auth := controller.authNone |}.

(** A registry that answers by a fixed handler, nothing sent yet. *)
Definition serving (handler : Request → result Response) : Net :=
  {| roundTrip := λ _ _ req, handler req; sent := [] |}.

Definition respond (status : Z) (body : string) : result Response :=
  Ok {| StatusCode := status; resp_Body := body |}.

Definition isMethod (m : Method) (req : Request) : bool :=
  match m, req_Method req with
  | MethodGet, MethodGet | MethodPost, MethodPost
  | MethodPut, MethodPut | MethodDelete, MethodDelete => true
  | _, _ => false
  end.

(** JSON text is assembled from pieces: [q s] is [s] between double quotes,
    [esc s] is [s] between escaped double quotes. *)
Definition q (s : string) : string := Quote s.
Definition backslash : string := String "092"%char EmptyString.
Definition esc (s : string) : string :=
  backslash +:+ dquote +:+ s +:+ backslash +:+ dquote.

Definition testSubject : string := "users-value".

(** The Avro schema of the scenario. *)
Definition testSchemaJSON : string :=
  "{" +:+ q "type" +:+ ":" +:+ q "record" +:+ "," +:+ q "name" +:+ ":" +:+ q "User"
      +:+ "," +:+ q "fields" +:+ ":[{" +:+ q "name" +:+ ":" +:+ q "id" +:+ ","
      +:+ q "type" +:+ ":" +:+ q "string" +:+ "}]}".

Definition testSchemaEscaped : string :=
  "{" +:+ esc "type" +:+ ":" +:+ esc "record" +:+ "," +:+ esc "name" +:+ ":" +:+ esc "User"
      +:+ "," +:+ esc "fields" +:+ ":[{" +:+ esc "name" +:+ ":" +:+ esc "id" +:+ ","
      +:+ esc "type" +:+ ":" +:+ esc "string" +:+ "}]}".

Definition registerReq : RegisterSchemaRequest :=
  {| req_Schema := testSchemaJSON; req_SchemaType := "AVRO"; req_References := [] |}.

(** The body with the identifier 42 and the body of the latest version. *)
Definition bodyID42 : string := "{" +:+ q "id" +:+ ":42}".
Definition bodyLatest : string :=
  "{" +:+ q "id" +:+ ":42," +:+ q "version" +:+ ":3," +:+ q "schema" +:+ ":"
      +:+ q testSchemaEscaped +:+ "}".

(** The registry of the scenario: the identifier on registration, the
    latest version on the follow-up read, 404 for anything else. *)
Definition scenarioRegistry : Net :=
  serving (λ req,
    if isMethod MethodPost req
       && String.eqb (req_URL req) "http://registry:8081/subjects/users-value/versions"
    then respond 200 bodyID42
    else if isMethod MethodGet req
       && String.eqb (req_URL req)
            "http://registry:8081/subjects/users-value/versions/latest"
    then respond 200 bodyLatest
    else respond 404 "Not Found").

(** A registry that registers but cannot report versions. *)
Definition versionlessRegistry : Net :=
  serving (λ req,
    if isMethod MethodPost req then respond 200 bodyID42
    else respond 500 "Internal Server Error").

(** A registry behind a failing gateway, and one that cannot be reached. *)
Definition unavailableRegistry : Net := serving (λ _, respond 503 "registry is down").
Definition unreachableRegistry : Net :=
  serving (λ _, Err (opError "dial tcp: connection refused")).

(** A registry holding one subject: the first DELETE removes it, every
    later one finds nothing. *)
Definition oneSubjectRegistry : Net :=
  {| roundTrip := λ history _ req,
       if existsb (isMethod MethodDelete) history then respond 404 "Subject not found"
       else respond 200 "[1]";
     sent := [] |}.

End sample.

Module fixture.
Import metav1 v1alpha1 corev1 apiserver runtime.

Definition meta (ns name : string) (deletion : option Time) (finalizers : list string)
    : ObjectMeta :=
  {| Name := name; Namespace := ns; Generation := 1;
     DeletionTimestamp := deletion; Finalizers := finalizers |}.

(** The registry object kafka/my-schema-registry, with a given <<auth>>. *)
Definition registryWith (auth : option AuthConfig) : SchemaRegistry :=
  {| sr_Meta := meta "kafka" "my-schema-registry" None [];
     sr_Spec := {| URL := "http://registry:8081"; Auth := auth;
                   spec_InsecureSkipVerify := false; spec_Timeout := 5 |};
     sr_Status := {| ConnectionStatus := Go.empty; LastChecked := None;
                     sr_ObservedGeneration := 0; sr_Conditions := [] |} |}.

Definition registry : SchemaRegistry := registryWith None.

Definition basicAuth (secretRef : string) : AuthConfig :=
  {| Type_ := AuthTypeBasic; BasicAuth := Some {| basic_SecretRef := secretRef |};
     BearerAuth := None; MTLS := None |}.

Definition bearerAuth (secretRef : string) : AuthConfig :=
  {| Type_ := AuthTypeBearer; BasicAuth := None;
     BearerAuth := Some {| bearer_SecretRef := secretRef |}; MTLS := None |}.

Definition mtlsAuth (certSecretRef caSecretRef : string) : AuthConfig :=
  {| Type_ := AuthTypeMTLS; BasicAuth := None; BearerAuth := None;
     MTLS := Some {| CertSecretRef := certSecretRef; CASecretRef := caSecretRef |} |}.

Definition secretOf (fields : list (string * string)) : Secret :=
  {| Data := list_to_map fields |}.

(** A Schema object for the subject users-value. *)
Definition schemaIn (ns name : string) (ref : SchemaRegistryRef)
    (deletion : option Time) (finalizers : list string) : Schema :=
  {| schema_Meta := meta ns name deletion finalizers;
     schema_Spec := {| Subject := sample.testSubject; SchemaType := SchemaTypeAvro;
                       spec_Schema := sample.testSchemaJSON; References := [];
                       RegistryRef := ref; CompatibilityLevel := Go.empty |};
     schema_Status := {| SchemaID := None; Version := None; RegisteredAt := None;
                         ObservedGeneration := 0; Conditions := [] |} |}.

Definition sameNamespaceRef : SchemaRegistryRef :=
  {| rref_Name := "my-schema-registry"; rref_Namespace := Go.empty |}.
Definition kafkaRef : SchemaRegistryRef :=
  {| rref_Name := "my-schema-registry"; rref_Namespace := "kafka" |}.

(** A cluster holding the given objects, whose API server rejects nothing. *)
Definition clusterOf (ss : list Schema) (rs : list SchemaRegistry)
    (secs : list (string * string * Secret)) : Cluster :=
  {| schemas := list_to_map ((λ s, (ObjectKeyFromObject (schema_Meta s), s)) <$> ss);
     registries := list_to_map ((λ r, (ObjectKeyFromObject (sr_Meta r), r)) <$> rs);
     secrets := list_to_map secs;
     rejected := λ _ _ _, None |}.

Definition worldOf (c : Cluster) (n : schemaclient.Net) : World :=
  {| cluster := c; net := n; clock := 1700000000; log := [] |}.

End fixture.

(** Further inputs: a client with credentials, Schemas and registries for
    the success path, and an API server that rejects writes. *)

Module cases.
Import metav1 v1alpha1 corev1 apiserver runtime.

(** A client with Basic credentials. *)
Definition basicClient : schemaclient.SchemaRegistryClient :=
  {| schemaclient.baseURL := "http://registry:8081";
     schemaclient.client_http := schemaclient.client_http sample.client;
     schemaclient.auth :=
       {| schemaclient.auth_Type := "BASIC"; schemaclient.Username := "alice";
          schemaclient.Password := "secret"; schemaclient.BearerToken := Go.empty;
          schemaclient.ClientCert := schemaclient.noCertificate;
          schemaclient.CACert := None |} |}.

(** The Schema kafka/user-schema with a declared compatibility level. *)
Definition leveledSchema (finalizers : list string) : Schema :=
  {| schema_Meta := fixture.meta "kafka" "user-schema" None finalizers;
     schema_Spec := {| Subject := sample.testSubject; SchemaType := SchemaTypeAvro;
                       spec_Schema := sample.testSchemaJSON; References := [];
                       RegistryRef := fixture.sameNamespaceRef;
                       CompatibilityLevel := "BACKWARD" |};
     schema_Status := {| SchemaID := None; Version := None; RegisteredAt := None;
                         ObservedGeneration := 0; Conditions := [] |} |}.

(** A registry that answers every request with 204 and no body. *)
Definition noContentRegistry : schemaclient.Net := sample.serving (λ _, sample.respond 204 Go.empty).

(** A registry that answers every request with 200 and an empty list. *)
Definition healthyRegistry : schemaclient.Net := sample.serving (λ _, sample.respond 200 "[]").

(** The registration that [sample.client] sends for the Schema of the
    fixture. *)
Definition registration : schemaclient.Request :=
  {| schemaclient.req_Method := schemaclient.MethodPost;
     schemaclient.req_URL := "http://registry:8081/subjects/users-value/versions";
     schemaclient.req_Header := {["Content-Type" := schemaclient.contentType]};
     schemaclient.req_Body := schemaclient.registerBody sample.registerReq |}.

(** The probe that [sample.client] sends. *)
Definition probe : schemaclient.Request :=
  {| schemaclient.req_Method := schemaclient.MethodGet;
     schemaclient.req_URL := "http://registry:8081/subjects";
     schemaclient.req_Header := ∅;
     schemaclient.req_Body := schemaclient.noBody |}.

(** A second Schema of the namespace kafka. *)
Definition otherSchema : Schema :=
  fixture.schemaIn "kafka" "order-schema" fixture.sameNamespaceRef None [].

(** The DELETE of the subject users-value as [basicClient] sends it. *)
Definition basicDelete : schemaclient.Request :=
  {| schemaclient.req_Method := schemaclient.MethodDelete;
     schemaclient.req_URL := "http://registry:8081/subjects/users-value";
     schemaclient.req_Header :=
       {["Authorization" := schemaclient.headerBasic "alice" "secret"]};
     schemaclient.req_Body := schemaclient.noBody |}.

(** The secret kafka/creds of those credentials. *)
Definition credentials : string * string * Secret :=
  ("kafka", "creds", fixture.secretOf [("username", "alice"); ("password", "secret")]).

(** The error of an API server that forbids a write. *)
Definition forbidden : error := StatusError StatusReasonForbidden "schemas is forbidden".

(** The cluster [c] behind an API server that rejects every update of an
    object and accepts everything else. *)
Definition noUpdates (c : Cluster) : Cluster :=
  {| schemas := schemas c; registries := registries c; secrets := secrets c;
     rejected := λ verb _ _, match verb with VerbUpdate => Some forbidden | _ => None end |}.

End cases.

(** * Properties *)

(** ** Strings: what an error message contains *)

Section ContainsFacts.

Lemma prefix_app (a b : string) : String.prefix a (a +:+ b) = true.
Proof.
  induction a as [|x a IH]; simpl.
  - destruct b; reflexivity.
  - destruct (ascii_dec x x) as [_|Hne]; [exact IH | congruence].
Qed.

Lemma Contains_here (s sub : string) :
  String.prefix sub s = true → Contains s sub = true.
Proof. intros H. destruct s; simpl in *; rewrite H; reflexivity. Qed.

Lemma Contains_app_l (p s sub : string) :
  Contains s sub = true → Contains (p +:+ s) sub = true.
Proof.
  intros H. induction p as [|x p IH]; simpl.
  - exact H.
  - rewrite IH. apply orb_true_r.
Qed.

Lemma Contains_middle (p sub q : string) : Contains (p +:+ sub +:+ q) sub = true.
Proof. apply Contains_app_l, Contains_here, prefix_app. Qed.

Lemma append_empty_r (s : string) : s +:+ EmptyString = s.
Proof.
  induction s as [|x s IH]; [reflexivity|].
  change (String x (s +:+ EmptyString) = String x s). now rewrite IH.
Qed.

Lemma Contains_suffix (p sub : string) : Contains (p +:+ sub) sub = true.
Proof.
  pose proof (Contains_middle p sub EmptyString) as H.
  rewrite append_empty_r in H. exact H.
Qed.

End ContainsFacts.

(** ** The protocol client *)

Section ClientFacts.
Context `{!schemaclient.GoLibs}.
Import schemaclient.

(** Each operation sends the one request it has built and then only looks at
    the answer. *)
Lemma HealthCheck_run c n req :
  healthCheckRequest c = Ok req →
  HealthCheck c n =
    (match answer n c req with
     | Err err => Some (Errorf_w "health check failed: " err)
     | Ok resp =>
       if StatusCode resp =? StatusOK then None
       else Some (errorString
                    ("health check failed with status: " +:+ itoa (StatusCode resp)))
     end,
     {| roundTrip := roundTrip n; sent := sent n ++ [req] |}).
Proof.
  unfold healthCheckRequest, HealthCheck, answer.
  destruct (NewRequestWithContext _ _ _) as [r|e]; [|discriminate].
  intros [= <-]. unfold bind, Do, ret.
  destruct (roundTrip n _ _ _) as [resp|err]; [|reflexivity].
  destruct (StatusCode resp =? StatusOK); reflexivity.
Qed.

Lemma getLatestVersionForSubject_run c subject n req :
  latestVersionRequest c subject = Ok req →
  getLatestVersionForSubject c subject n =
    (match answer n c req with
     | Err err => Err (Errorf_w "failed to get latest version: " err)
     | Ok resp =>
       if StatusCode resp =? StatusOK then
         match Decode_SchemaResponse (resp_Body resp) with
         | Err err => Err (Errorf_w "failed to decode latest version response: " err)
         | Ok result => Ok (resp_Version result)
         end
       else Err (errorString
                   ("get latest version failed with status: " +:+ itoa (StatusCode resp)))
     end,
     {| roundTrip := roundTrip n; sent := sent n ++ [req] |}).
Proof.
  unfold latestVersionRequest, getLatestVersionForSubject, answer.
  destruct (NewRequestWithContext _ _ _) as [r|e]; [|discriminate].
  intros [= <-]. unfold bind, Do, ret.
  destruct (roundTrip n _ _ _) as [resp|err]; [|reflexivity].
  destruct (StatusCode resp =? StatusOK); simpl; [|reflexivity].
  destruct (Decode_SchemaResponse _); reflexivity.
Qed.

Lemma DeleteSubject_run c subject n req :
  deleteRequest c subject = Ok req →
  DeleteSubject c subject n =
    (match answer n c req with
     | Err err => Some (Errorf_w "failed to delete subject: " err)
     | Ok resp =>
       if StatusCode resp =? StatusNotFound then None
       else if StatusCode resp =? StatusOK then None
       else Some (errorString
                    ("delete subject failed with status " +:+ itoa (StatusCode resp)
                       +:+ ": " +:+ resp_Body resp))
     end,
     {| roundTrip := roundTrip n; sent := sent n ++ [req] |}).
Proof.
  unfold deleteRequest, DeleteSubject, answer.
  destruct (NewRequestWithContext _ _ _) as [r|e]; [|discriminate].
  intros [= <-]. unfold bind, Do, ret.
  destruct (roundTrip n _ _ _) as [resp|err]; [|reflexivity].
  destruct (StatusCode resp =? StatusNotFound); [reflexivity|].
  destruct (StatusCode resp =? StatusOK); reflexivity.
Qed.

Lemma SetCompatibility_run c subject level n req :
  compatibilityRequest c subject level = Ok req →
  SetCompatibility c subject level n =
    (match answer n c req with
     | Err err => Some (Errorf_w "failed to set compatibility: " err)
     | Ok resp =>
       if StatusCode resp =? StatusOK then None
       else Some (errorString
                    ("set compatibility failed with status " +:+ itoa (StatusCode resp)
                       +:+ ": " +:+ resp_Body resp))
     end,
     {| roundTrip := roundTrip n; sent := sent n ++ [req] |}).
Proof.
  unfold compatibilityRequest, SetCompatibility, answer.
  destruct (NewRequestWithContext _ _ _) as [r|e]; [|discriminate].
  intros [= <-]. unfold bind, Do, ret.
  destruct (roundTrip n _ _ _) as [resp|err]; [|reflexivity].
  destruct (StatusCode resp =? StatusOK); reflexivity.
Qed.

(** [RegisterSchema] up to the point where the identifier is decoded. *)
Lemma RegisterSchema_run c subject request n req :
  registerRequest c subject request = Ok req →
  RegisterSchema c subject request n =
    let n1 := {| roundTrip := roundTrip n; sent := sent n ++ [req] |} in
    match answer n c req with
    | Err err => (Err (Errorf_w "failed to register schema: " err), n1)
    | Ok resp =>
      if StatusCode resp =? StatusOK then
        match Unmarshal_ID (resp_Body resp) with
        | Err err => (Err (Errorf_w "failed to decode register response: " err), n1)
        | Ok id =>
          let '(v, n2) := getLatestVersionForSubject c subject n1 in
          (Ok {| resp_ID := id;
                 resp_Version := match v with Ok version => version | Err _ => 0 end;
                 resp_Schema := Go.empty |}, n2)
        end
      else (Err (errorString
                   ("schema registration failed with status " +:+ itoa (StatusCode resp)
                      +:+ ": " +:+ resp_Body resp)), n1)
    end.
Proof.
  unfold registerRequest, RegisterSchema, answer.
  destruct (NewRequestWithContext _ _ _) as [r|e]; [|discriminate].
  intros [= <-]. unfold bind at 1. unfold Do, ret. cbv zeta.
  destruct (roundTrip n _ _ _) as [resp|err]; [|reflexivity].
  destruct (StatusCode resp =? StatusOK); simpl; [|reflexivity].
  destruct (Unmarshal_ID _) as [id|err]; [|reflexivity].
  unfold bind.
  destruct (getLatestVersionForSubject c subject _) as [[version|err] n2]; reflexivity.
Qed.

End ClientFacts.

Section ClientProperties.
Import schemaclient.

(** C9.  [DeleteSubject] is idempotent: when the registry answers the
    DELETE with 404 (the subject was never created or is already gone) the
    call returns no error; an answer of 200 is a success too, and every other
    status is returned as an error. *)
Theorem C9_DeleteSubject_404_is_success
    (L : GoLibs) (c : SchemaRegistryClient) (subject : string) (n : Net)
    (req : Request) (resp : Response) :
  deleteRequest c subject = Ok req →
  answer n c req = Ok resp →
  (StatusCode resp = StatusNotFound → fst (DeleteSubject c subject n) = None) ∧
  (StatusCode resp = StatusOK → fst (DeleteSubject c subject n) = None) ∧
  (StatusCode resp ≠ StatusNotFound → StatusCode resp ≠ StatusOK →
     ∃ err, fst (DeleteSubject c subject n) = Some err).
Proof.
  intros Hreq Hans. rewrite (DeleteSubject_run _ _ _ _ Hreq), Hans. simpl.
  repeat split.
  - intros ->. reflexivity.
  - intros ->. reflexivity.
  - intros H404 H200.
    apply Z.eqb_neq in H404. apply Z.eqb_neq in H200. rewrite H404, H200. eauto.
Qed.

(** The subject of [sample.oneSubjectRegistry] is deleted twice: the second
    call is answered with 404 and succeeds like the first. *)
Lemma C9_witness :
  let run1 := @DeleteSubject modelLibs sample.client sample.testSubject
                sample.oneSubjectRegistry in
  let run2 := @DeleteSubject modelLibs sample.client sample.testSubject (snd run1) in
  fst run1 = None ∧
  (∃ req, @deleteRequest modelLibs sample.client sample.testSubject = Ok req ∧
          answer (snd run1) sample.client req = sample.respond 404 "Subject not found") ∧
  fst run2 = None.
Proof.
  intros run1 run2. split; [reflexivity|]. split.
  - eexists. split; reflexivity.
  - edestruct (C9_DeleteSubject_404_is_success modelLibs sample.client
                 sample.testSubject (snd run1)) as [H404 _].
    + reflexivity.
    + vm_compute. reflexivity.
    + apply H404. reflexivity.
Defined.

(** C4, as the code has it.  For every answer with a status other than 200,
    [RegisterSchema] and [SetCompatibility], and [DeleteSubject] unless the
    status is 404, return an error whose message contains the status code
    and the response body.  [HealthCheck] and the latest-version read return
    an error whose message is a fixed text followed by the status code: it
    contains the status code and does not depend on the body. *)
Theorem C4_non_200_error_messages
    (L : GoLibs) (c : SchemaRegistryClient) (subject level : string)
    (request : RegisterSchemaRequest) (n : Net) (req : Request) (resp : Response) :
  answer n c req = Ok resp →
  StatusCode resp ≠ StatusOK →
  (registerRequest c subject request = Ok req →
     ∃ err, fst (RegisterSchema c subject request n) = Err err ∧
            Contains (Error err) (itoa (StatusCode resp)) = true ∧
            Contains (Error err) (resp_Body resp) = true) ∧
  (compatibilityRequest c subject level = Ok req →
     ∃ err, fst (SetCompatibility c subject level n) = Some err ∧
            Contains (Error err) (itoa (StatusCode resp)) = true ∧
            Contains (Error err) (resp_Body resp) = true) ∧
  (deleteRequest c subject = Ok req → StatusCode resp ≠ StatusNotFound →
     ∃ err, fst (DeleteSubject c subject n) = Some err ∧
            Contains (Error err) (itoa (StatusCode resp)) = true ∧
            Contains (Error err) (resp_Body resp) = true) ∧
  (healthCheckRequest c = Ok req →
     ∃ err, fst (HealthCheck c n) = Some err ∧
            Error err = "health check failed with status: " +:+ itoa (StatusCode resp) ∧
            Contains (Error err) (itoa (StatusCode resp)) = true) ∧
  (latestVersionRequest c subject = Ok req →
     ∃ err, fst (getLatestVersionForSubject c subject n) = Err err ∧
            Error err = "get latest version failed with status: "
                          +:+ itoa (StatusCode resp) ∧
            Contains (Error err) (itoa (StatusCode resp)) = true).
Proof.
  intros Hans H200. apply Z.eqb_neq in H200.
  repeat apply conj.
  - intros Hreq. rewrite (RegisterSchema_run _ _ _ _ _ Hreq), Hans. cbv zeta.
    rewrite H200. eexists. split; [reflexivity|]. simpl Error. split.
    + apply Contains_middle.
    + apply Contains_app_l, Contains_app_l, Contains_suffix.
  - intros Hreq. rewrite (SetCompatibility_run _ _ _ _ _ Hreq), Hans, H200.
    eexists. split; [reflexivity|]. simpl Error. split.
    + apply Contains_middle.
    + apply Contains_app_l, Contains_app_l, Contains_suffix.
  - intros Hreq H404. apply Z.eqb_neq in H404.
    rewrite (DeleteSubject_run _ _ _ _ Hreq), Hans, H404, H200.
    eexists. split; [reflexivity|]. simpl Error. split.
    + apply Contains_middle.
    + apply Contains_app_l, Contains_app_l, Contains_suffix.
  - intros Hreq. rewrite (HealthCheck_run _ _ _ Hreq), Hans, H200.
    eexists. split; [reflexivity|]. simpl Error. split; [reflexivity|].
    apply Contains_suffix.
  - intros Hreq. rewrite (getLatestVersionForSubject_run _ _ _ _ Hreq), Hans, H200.
    eexists. split; [reflexivity|]. simpl Error. split; [reflexivity|].
    apply Contains_suffix.
Qed.

(** A registry answering 503 with a body: the error of [SetCompatibility]
    carries both. *)
Lemma C4_witness :
  ∃ (req : Request) (err : error),
    answer sample.unavailableRegistry sample.client req
      = sample.respond 503 "registry is down" ∧
    fst (@SetCompatibility modelLibs sample.client sample.testSubject "INVALID"
           sample.unavailableRegistry) = Some err ∧
    Contains (Error err) "503" = true ∧
    Contains (Error err) "registry is down" = true.
Proof.
  destruct (@compatibilityRequest modelLibs sample.client sample.testSubject "INVALID")
    as [req|e] eqn:Hreq; [|discriminate Hreq].
  exists req.
  assert (Hans : answer sample.unavailableRegistry sample.client req
                 = sample.respond 503 "registry is down") by reflexivity.
  destruct (C4_non_200_error_messages modelLibs sample.client sample.testSubject
              "INVALID" sample.registerReq sample.unavailableRegistry
              req _ Hans ltac:(vm_compute; lia))
    as (_ & Hcompat & _).
  destruct (Hcompat Hreq) as (err & Herr & Hstatus & Hbody).
  exists err. repeat split; assumption.
Defined.

(** C4 fails as stated: a health check answered with 503 and the body
    <<registry is down>> returns an error that names the status but holds
    nothing of the body. *)
Lemma C4_counterexample :
  ∃ req,
    @healthCheckRequest modelLibs sample.client = Ok req ∧
    answer sample.unavailableRegistry sample.client req
      = sample.respond 503 "registry is down" ∧
    fst (@HealthCheck modelLibs sample.client sample.unavailableRegistry)
      = Some (errorString "health check failed with status: 503") ∧
    Contains "health check failed with status: 503" "registry is down" = false.
Proof. eexists. repeat split; reflexivity. Qed.

(** C5.  When the registration is answered with 200 and a body from which
    the identifier decodes, [RegisterSchema] goes on to read the latest
    version of the subject: that read is the next request sent.  If the read
    yields a version the result carries the identifier and that version; if
    the read fails in any way the result is still a success, with the
    identifier and version 0.  In the scenario of the specification (the
    registry answers the registration with the identifier 42 and the read
    with identifier 42 and version 3) the result is identifier 42,
    version 3. *)
Theorem C5_RegisterSchema_version_is_best_effort :
  (∀ (L : GoLibs) (c : SchemaRegistryClient) (subject : string)
     (request : RegisterSchemaRequest) (n : Net) (req : Request) (resp : Response)
     (id : Z),
     registerRequest c subject request = Ok req →
     answer n c req = Ok resp →
     StatusCode resp = StatusOK →
     Unmarshal_ID (resp_Body resp) = Ok id →
     let followUp := getLatestVersionForSubject c subject (snd (Do (client_http c) req n)) in
     snd (RegisterSchema c subject request n) = snd followUp ∧
     (∀ req2, latestVersionRequest c subject = Ok req2 →
        sent (snd (RegisterSchema c subject request n)) = sent n ++ [req; req2]) ∧
     (∀ version, fst followUp = Ok version →
        fst (RegisterSchema c subject request n)
          = Ok {| resp_ID := id; resp_Version := version; resp_Schema := Go.empty |}) ∧
     (∀ err, fst followUp = Err err →
        fst (RegisterSchema c subject request n)
          = Ok {| resp_ID := id; resp_Version := 0; resp_Schema := Go.empty |})) ∧
  (∃ req1 req2,
     @registerRequest modelLibs sample.client sample.testSubject sample.registerReq
       = Ok req1 ∧
     @latestVersionRequest modelLibs sample.client sample.testSubject = Ok req2 ∧
     answer sample.scenarioRegistry sample.client req1
       = sample.respond 200 sample.bodyID42 ∧
     answer (snd (Do (client_http sample.client) req1 sample.scenarioRegistry))
       sample.client req2 = sample.respond 200 sample.bodyLatest ∧
     fst (@RegisterSchema modelLibs sample.client sample.testSubject sample.registerReq
            sample.scenarioRegistry)
       = Ok {| resp_ID := 42; resp_Version := 3; resp_Schema := Go.empty |}).
Proof.
  split.
  - intros L c subject request n req resp id Hreq Hans H200 Hid followUp.
    rewrite (RegisterSchema_run _ _ _ _ _ Hreq), Hans. cbv zeta.
    apply Z.eqb_eq in H200. rewrite H200, Hid.
    subst followUp. unfold Do. cbn [snd].
    destruct (getLatestVersionForSubject c subject _) as [v n2] eqn:Hfollow.
    cbn [fst snd]. repeat split.
    + intros req2 Hreq2.
      rewrite (getLatestVersionForSubject_run _ _ _ _ Hreq2) in Hfollow.
      injection Hfollow as _ <-. cbn [sent]. rewrite <- app_assoc. reflexivity.
    + intros version ->. reflexivity.
    + intros err ->. reflexivity.
  - do 2 eexists. repeat split; reflexivity.
Qed.

(** On [sample.versionlessRegistry] the registration is accepted and the
    follow-up read is answered with 500: the result has the identifier and
    version 0. *)
Lemma C5_witness :
  ∃ req,
    @registerRequest modelLibs sample.client sample.testSubject sample.registerReq
      = Ok req ∧
    answer sample.versionlessRegistry sample.client req
      = sample.respond 200 sample.bodyID42 ∧
    fst (@RegisterSchema modelLibs sample.client sample.testSubject sample.registerReq
           sample.versionlessRegistry)
      = Ok {| resp_ID := 42; resp_Version := 0; resp_Schema := Go.empty |}.
Proof.
  eexists. split; [reflexivity|]. split; [reflexivity|].
  edestruct (proj1 C5_RegisterSchema_version_is_best_effort modelLibs sample.client
               sample.testSubject sample.registerReq sample.versionlessRegistry)
    as (_ & _ & _ & Hfail); [reflexivity | reflexivity | reflexivity | reflexivity |].
  eapply Hfail. vm_compute. reflexivity.
Defined.

End ClientProperties.

(** ** The credential resolver *)

Section CredentialProperties.
Import metav1 v1alpha1 corev1 apiserver runtime controller.

Lemma Get_missing {A} (kind : Kind) (store : gmap (string * string) A)
    (key : string * string) (c : Cluster) :
  store !! key = None → is_Err (Get kind store key c).
Proof. intros H. unfold Get. destruct (rejected c _ _ _); [exact I|]. now rewrite H. Qed.

(** C2, as the code has it.  [loadAuthConfig] returns an error when the
    configuration of the selected strategy is absent or its secret cannot be
    fetched (it is missing, or the request is rejected), and for MutualTLS
    also when <<tls.crt>> and <<tls.key>> do not parse as a key pair, which
    includes either key being absent.  For Basic and Bearer an absent key is
    not an error: the field is then the empty string.  Without an <<auth>>
    block, or with type NONE, the bundle is empty and there is no error.  On
    success the bundle holds the type and exactly the fields of the selected
    strategy: user name and password for Basic, the token for Bearer, the
    client certificate and, when a CA secret is named, the pool built from
    its <<ca.crt>> for MutualTLS. *)
Theorem C2_loadAuthConfig_contract (L : schemaclient.GoLibs) (c : Cluster)
    (sr : SchemaRegistry) :
  let ns := Namespace (sr_Meta sr) in
  let bundle t user pass token cert ca :=
    {| schemaclient.auth_Type := t; schemaclient.Username := user;
       schemaclient.Password := pass; schemaclient.BearerToken := token;
       schemaclient.ClientCert := cert; schemaclient.CACert := ca |} in
  let failed := ∃ err, snd (loadAuthConfig c sr) = Some err in
  (Auth (sr_Spec sr) = None → loadAuthConfig c sr = (authNone, None)) ∧
  (∀ a, Auth (sr_Spec sr) = Some a → Type_ a = AuthTypeNone →
     loadAuthConfig c sr = (authNone, None)) ∧
  (∀ a, Auth (sr_Spec sr) = Some a → Type_ a = AuthTypeBasic →
     (BasicAuth a = None → failed) ∧
     (∀ b, BasicAuth a = Some b →
        (is_Err (Get_Secret (ns, basic_SecretRef b) c) → failed) ∧
        (∀ secret, Get_Secret (ns, basic_SecretRef b) c = Ok secret →
           loadAuthConfig c sr =
             (bundle "BASIC" (default Go.empty (Data secret !! "username"))
                (default Go.empty (Data secret !! "password"))
                Go.empty schemaclient.noCertificate None, None)))) ∧
  (∀ a, Auth (sr_Spec sr) = Some a → Type_ a = AuthTypeBearer →
     (BearerAuth a = None → failed) ∧
     (∀ b, BearerAuth a = Some b →
        (is_Err (Get_Secret (ns, bearer_SecretRef b) c) → failed) ∧
        (∀ secret, Get_Secret (ns, bearer_SecretRef b) c = Ok secret →
           loadAuthConfig c sr =
             (bundle "BEARER" Go.empty Go.empty
                (default Go.empty (Data secret !! "token"))
                schemaclient.noCertificate None, None)))) ∧
  (∀ a, Auth (sr_Spec sr) = Some a → Type_ a = AuthTypeMTLS →
     (MTLS a = None → failed) ∧
     (∀ m, MTLS a = Some m →
        (is_Err (Get_Secret (ns, CertSecretRef m) c) → failed) ∧
        (∀ secret, Get_Secret (ns, CertSecretRef m) c = Ok secret →
           let pair := schemaclient.X509KeyPair (Data_index secret "tls.crt")
                         (Data_index secret "tls.key") in
           (Data secret !! "tls.crt" = None → failed) ∧
           (Data secret !! "tls.key" = None → failed) ∧
           (is_Err pair → failed) ∧
           (∀ cert, pair = Ok cert →
              (CASecretRef m = Go.empty →
                 loadAuthConfig c sr =
                   (bundle "MTLS" Go.empty Go.empty Go.empty cert None, None)) ∧
              (CASecretRef m ≠ Go.empty →
                 (is_Err (Get_Secret (ns, CASecretRef m) c) → failed) ∧
                 (∀ ca, Get_Secret (ns, CASecretRef m) c = Ok ca →
                    loadAuthConfig c sr =
                      (bundle "MTLS" Go.empty Go.empty Go.empty cert
                         (Some (schemaclient.AppendCertsFromPEM []
                                  (Data_index ca "ca.crt"))), None))))))).
Proof.
  intros ns bundle failed. subst ns bundle failed. unfold loadAuthConfig.
  repeat apply conj.
  - intros ->. reflexivity.
  - intros a -> ->. reflexivity.
  - intros a -> ->. cbn. split.
    + intros ->. eauto.
    + intros b ->. split.
      * destruct (Get_Secret _ c); [intros []|]. cbn. eauto.
      * intros secret ->. reflexivity.
  - intros a -> ->. cbn. split.
    + intros ->. eauto.
    + intros b ->. split.
      * destruct (Get_Secret _ c); [intros []|]. cbn. eauto.
      * intros secret ->. reflexivity.
  - intros a -> ->. cbn. split.
    + intros ->. eauto.
    + intros m ->. split.
      * destruct (Get_Secret _ c); [intros []|]. cbn. eauto.
      * intros secret ->. cbv zeta.
        destruct (schemaclient.X509KeyPair (Data_index secret "tls.crt")
                    (Data_index secret "tls.key")) as [cert|err] eqn:Hpair.
        2: { cbn. repeat apply conj; [eauto | eauto | eauto | intros ? [=]]. }
        repeat apply conj.
        -- intros Hcrt. exfalso.
           assert (Hno : is_Err (schemaclient.X509KeyPair (Data_index secret "tls.crt")
                                   (Data_index secret "tls.key"))).
           { unfold Data_index at 1. rewrite Hcrt.
             apply schemaclient.X509KeyPair_no_cert. }
           rewrite Hpair in Hno. exact Hno.
        -- intros Hkey. exfalso.
           assert (Hno : is_Err (schemaclient.X509KeyPair (Data_index secret "tls.crt")
                                   (Data_index secret "tls.key"))).
           { unfold Data_index at 2. rewrite Hkey.
             apply schemaclient.X509KeyPair_no_key. }
           rewrite Hpair in Hno. exact Hno.
        -- intros [].
        -- intros cert' [= <-]. split.
           ++ intros ->. reflexivity.
           ++ intros Hca. apply String.eqb_neq in Hca. rewrite Hca. cbn. split.
              ** destruct (Get_Secret _ c); [intros []|]. cbn. eauto.
              ** intros ca ->. reflexivity.
Qed.

(** The contract on three registries of namespace kafka: Basic naming a
    secret that does not exist, MutualTLS whose secret lacks <<tls.key>>,
    and Bearer whose secret holds a token. *)
Lemma C2_witness :
  let empty := fixture.clusterOf [] [] [] in
  let certOnly :=
    fixture.clusterOf [] []
      [("kafka", "client-tls", fixture.secretOf [("tls.crt", "-----BEGIN CERTIFICATE-----")])] in
  let withToken :=
    fixture.clusterOf [] [] [("kafka", "token", fixture.secretOf [("token", "s3cr3t")])] in
  (∃ err, snd (@loadAuthConfig modelLibs empty
                 (fixture.registryWith (Some (fixture.basicAuth "creds")))) = Some err) ∧
  (∃ err, snd (@loadAuthConfig modelLibs certOnly
                 (fixture.registryWith (Some (fixture.mtlsAuth "client-tls" Go.empty))))
          = Some err) ∧
  @loadAuthConfig modelLibs withToken
     (fixture.registryWith (Some (fixture.bearerAuth "token")))
    = ({| schemaclient.auth_Type := "BEARER"; schemaclient.Username := Go.empty;
          schemaclient.Password := Go.empty; schemaclient.BearerToken := "s3cr3t";
          schemaclient.ClientCert := schemaclient.noCertificate;
          schemaclient.CACert := None |}, None).
Proof.
  intros empty certOnly withToken. repeat apply conj.
  - destruct (C2_loadAuthConfig_contract modelLibs empty
                (fixture.registryWith (Some (fixture.basicAuth "creds"))))
      as (_ & _ & Hbasic & _).
    destruct (Hbasic _ eq_refl eq_refl) as [_ Hsecret].
    destruct (Hsecret _ eq_refl) as [Hmissing _].
    apply Hmissing. exact I.
  - destruct (C2_loadAuthConfig_contract modelLibs certOnly
                (fixture.registryWith (Some (fixture.mtlsAuth "client-tls" Go.empty))))
      as (_ & _ & _ & _ & Hmtls).
    destruct (Hmtls _ eq_refl eq_refl) as [_ Hsecret].
    destruct (Hsecret _ eq_refl) as [_ Hfound].
    destruct (Hfound _ eq_refl) as (_ & Hkey & _).
    apply Hkey. reflexivity.
  - destruct (C2_loadAuthConfig_contract modelLibs withToken
                (fixture.registryWith (Some (fixture.bearerAuth "token"))))
      as (_ & _ & _ & Hbearer & _).
    destruct (Hbearer _ eq_refl eq_refl) as [_ Hsecret].
    destruct (Hsecret _ eq_refl) as [_ Hfound].
    exact (Hfound _ eq_refl).
Defined.

(** C2 fails as stated: the secret of a Basic registry has a user name and
    no <<password>> key, and the resolver returns a bundle with the empty
    password and no error. *)
Lemma C2_counterexample :
  let secret := fixture.secretOf [("username", "alice")] in
  let c := fixture.clusterOf [] [] [("kafka", "creds", secret)] in
  let sr := fixture.registryWith (Some (fixture.basicAuth "creds")) in
  Get_Secret ("kafka", "creds") c = Ok secret ∧
  Data secret !! "password" = None ∧
  @loadAuthConfig modelLibs c sr
    = ({| schemaclient.auth_Type := "BASIC"; schemaclient.Username := "alice";
          schemaclient.Password := Go.empty; schemaclient.BearerToken := Go.empty;
          schemaclient.ClientCert := schemaclient.noCertificate;
          schemaclient.CACert := None |}, None).
Proof. repeat split; vm_compute; reflexivity. Qed.

End CredentialProperties.

(** ** The dependency watch router *)

Section RouterProperties.
Import metav1 v1alpha1 corev1 apiserver runtime controller.
Import controller.SchemaReconciler.

Lemma requestsFor_elem (name : string) (items : list Schema) (key : string * string) :
  key ∈ requestsFor name items ↔
  ∃ schema, schema ∈ items ∧
            rref_Name (RegistryRef (schema_Spec schema)) = name ∧
            key = (Namespace (schema_Meta schema), Name (schema_Meta schema)).
Proof.
  induction items as [|s items IH]; simpl.
  - split; [intros H; inversion H | intros (? & H & _); inversion H].
  - destruct (String.eqb _ name) eqn:E.
    + apply String.eqb_eq in E. rewrite elem_of_cons, IH. split.
      * intros [-> | (x & Hx & Hn & Hk)].
        -- exists s. split; [left|]; auto.
        -- exists x. split; [right|]; auto.
      * intros (x & Hx & Hn & Hk). apply elem_of_cons in Hx as [-> | Hx].
        -- left. exact Hk.
        -- right. eauto.
    + apply String.eqb_neq in E. rewrite IH. split.
      * intros (x & Hx & Hn & Hk). exists x. split; [right|]; auto.
      * intros (x & Hx & Hn & Hk). apply elem_of_cons in Hx as [-> | Hx].
        -- contradiction.
        -- eauto.
Qed.

(** What the router enqueues for a changed registry, when the listing is not
    rejected: the Schemas stored in the namespace of the registry whose
    reference carries the name of the registry.  The namespace of the
    reference is not looked at. *)
Lemma findSchemasForRegistry_elem (registry : SchemaRegistry) (c : Cluster)
    (key : string * string) :
  rejected c VerbList KindSchema (Namespace (sr_Meta registry), Go.empty) = None →
  Namespace (sr_Meta registry) ≠ Go.empty →
  key ∈ findSchemasForRegistry registry c ↔
  ∃ k schema, schemas c !! k = Some schema ∧
              Namespace (schema_Meta schema) = Namespace (sr_Meta registry) ∧
              rref_Name (RegistryRef (schema_Spec schema)) = Name (sr_Meta registry) ∧
              key = (Namespace (schema_Meta schema), Name (schema_Meta schema)).
Proof.
  intros Hlist Hns. unfold findSchemasForRegistry, List_Schemas. rewrite Hlist.
  rewrite requestsFor_elem. apply String.eqb_neq in Hns. rewrite Hns. simpl.
  split.
  - intros (schema & Hin & Hname & Hkey).
    apply list_elem_of_In, filter_In in Hin as [Hin Hsame].
    apply list_elem_of_In, list_elem_of_fmap in Hin as ([k s] & -> & Hin).
    apply elem_of_map_to_list in Hin. apply String.eqb_eq in Hsame.
    exists k, s. auto.
  - intros (k & schema & Hk & Hsame & Hname & Hkey).
    exists schema. split; [|auto].
    apply list_elem_of_In, filter_In. split.
    + apply list_elem_of_In, list_elem_of_fmap. exists (k, schema). split; [reflexivity|].
      now apply elem_of_map_to_list.
    + now apply String.eqb_eq.
Qed.

(** C7.  A Schema in namespace apps refers to the registry
    kafka/my-schema-registry through <<registryRef.namespace>>, and
    [buildClient] resolves that reference to the registry.  When the registry
    changes, the router lists the Schemas of namespace kafka only: it
    enqueues the Schema of that namespace and leaves the Schema of namespace
    apps out. *)
Theorem C7_cross_namespace_schema_not_enqueued :
  let own := fixture.schemaIn "kafka" "user-schema" fixture.sameNamespaceRef None [] in
  let other := fixture.schemaIn "apps" "order-schema" fixture.kafkaRef None [] in
  let c := fixture.clusterOf [own; other] [fixture.registry] [] in
  schemas c !! ("apps", "order-schema") = Some other ∧
  RegistryRef (schema_Spec other)
    = {| rref_Name := Name (sr_Meta fixture.registry);
         rref_Namespace := Namespace (sr_Meta fixture.registry) |} ∧
  @buildClient modelLibs other c = Ok sample.client ∧
  @buildClient modelLibs own c = Ok sample.client ∧
  findSchemasForRegistry fixture.registry c = [("kafka", "user-schema")].
Proof. repeat split; vm_compute; reflexivity. Qed.

End RouterProperties.

(** ** The Schema lifecycle reconciler *)

Section SchemaReconcilerFacts.
Context `{!schemaclient.GoLibs}.
Import metav1 v1alpha1 corev1 apiserver runtime controller.
Import controller.SchemaReconciler.

Lemma Get_stored {A} (kind : Kind) (store : gmap (string * string) A)
    (key : string * string) (c : Cluster) (obj : A) :
  store !! key = Some obj → rejected c VerbGet kind key = None →
  Get kind store key c = Ok obj.
Proof. intros Hs Hr. unfold Get. now rewrite Hr, Hs. Qed.

Lemma ContainsFinalizer_Remove (fs : list string) (f : string) :
  controllerutil.ContainsFinalizer (controllerutil.RemoveFinalizer fs f) f = false.
Proof.
  unfold controllerutil.ContainsFinalizer, controllerutil.RemoveFinalizer.
  induction fs as [|x fs IH]; simpl; [reflexivity|].
  destruct (String.eqb x f) eqn:E; simpl; [exact IH|].
  rewrite String.eqb_sym, E. exact IH.
Qed.

Lemma ContainsFinalizer_Add (fs : list string) (f : string) :
  controllerutil.ContainsFinalizer (controllerutil.AddFinalizer fs f) f = true.
Proof.
  unfold controllerutil.AddFinalizer.
  destruct (controllerutil.ContainsFinalizer fs f) eqn:E; [exact E|].
  unfold controllerutil.ContainsFinalizer. rewrite existsb_app. simpl.
  rewrite String.eqb_refl. now rewrite orb_true_r.
Qed.

(** [buildClient] reads the registries and the secrets, and of the Schema
    its namespace and its registry reference. *)
Lemma buildClient_frame (schema schema' : Schema) (c c' : Cluster) :
  registries c' = registries c → secrets c' = secrets c → rejected c' = rejected c →
  schema_Spec schema' = schema_Spec schema →
  Namespace (schema_Meta schema') = Namespace (schema_Meta schema) →
  buildClient schema' c' = buildClient schema c.
Proof.
  intros Hr Hs Hj Hspec Hns.
  unfold buildClient, loadAuthConfig, Get_SchemaRegistry, Get_Secret, Get.
  rewrite Hr, Hs, Hj, Hspec, Hns. reflexivity.
Qed.

Lemma deleteFromRegistry_skip (schema : Schema) (w : World) (e : error) :
  buildClient schema (cluster w) = Err e →
  deleteFromRegistry schema w =
    (None, snd (logf (logInfo "Could not build client during deletion, skipping registry cleanup"
                        [("error", Error e)]) w)).
Proof. intros Hb. unfold deleteFromRegistry, bind, read. rewrite Hb. reflexivity. Qed.

Lemma deleteFromRegistry_call (schema : Schema) (w : World)
    (srClient : schemaclient.SchemaRegistryClient) :
  buildClient schema (cluster w) = Ok srClient →
  deleteFromRegistry schema w =
    remote (schemaclient.DeleteSubject srClient (Subject (schema_Spec schema))) w.
Proof. intros Hb. unfold deleteFromRegistry, bind, read. rewrite Hb. reflexivity. Qed.

Lemma Update_Schema_removes (schema : Schema) (c : Cluster) :
  let key := ObjectKeyFromObject (schema_Meta schema) in
  schemas c !! key = Some schema →
  rejected c VerbUpdate KindSchema key = None →
  ∃ c', Update_Schema
          (set_schema_Finalizers
             (controllerutil.RemoveFinalizer (Finalizers (schema_Meta schema))
                schemaFinalizer) schema) c = (None, c') ∧
        Removed schema c c'.
Proof.
  intros key Hs Hr. unfold Update_Schema.
  change (ObjectKeyFromObject (schema_Meta (set_schema_Finalizers _ schema))) with key.
  rewrite Hr, Hs. cbn [schema_Meta set_schema_Finalizers set_Finalizers Finalizers
                       DeletionTimestamp schema_Spec].
  destruct (DeletionTimestamp (schema_Meta schema)) as [t|];
    [destruct (controllerutil.RemoveFinalizer _ _) as [|f fs] eqn:E|];
    eexists; (split; [reflexivity|]); unfold Removed; fold key; cbn [schemas set_schemas
      registries secrets]; repeat apply conj; try reflexivity.
  - left. apply lookup_delete_eq.
  - intros k Hk. now apply lookup_delete_ne.
  - right. eexists. split; [apply lookup_insert_eq|].
    cbn [schema_Meta schema_Spec schema_Status Finalizers set_Finalizers]. rewrite <- E.
    repeat split. apply ContainsFinalizer_Remove.
  - intros k Hk. now apply lookup_insert_ne.
  - right. eexists. split; [apply lookup_insert_eq|].
    cbn [schema_Meta schema_Spec schema_Status Finalizers set_Finalizers].
    repeat split. apply ContainsFinalizer_Remove.
  - intros k Hk. now apply lookup_insert_ne.
Qed.

Lemma buildClient_registry_gone (schema : Schema) (c : Cluster) :
  registries c !! owningRegistry schema = None → is_Err (buildClient schema c).
Proof.
  intros Hgone. unfold buildClient.
  pose proof (Get_missing KindSchemaRegistry _ _ c Hgone) as Hget.
  unfold owningRegistry in Hget. unfold Get_SchemaRegistry.
  destruct (Get _ _ _ c); [destruct Hget | exact I].
Qed.

(** The deletion path of [Reconcile], step by step. *)
Lemma Reconcile_deletion (w : World) (schema : Schema) :
  let key := ObjectKeyFromObject (schema_Meta schema) in
  Deleting schema (cluster w) →
  rejected (cluster w) VerbGet KindSchema key = None →
  Reconcile key w =
    let w1 := snd (logf (logInfo "Deleting schema subject from registry"
                           [("subject", Subject (schema_Spec schema))]) w) in
    let '(d, w2) := deleteFromRegistry schema w1 in
    match d with
    | Some err =>
      ((noRequeue, Some err),
       snd (logf (logError err "Failed to delete schema subject from registry" []) w2))
    | None =>
      let '(u, w3) :=
        api (Update_Schema
               (set_schema_Finalizers
                  (controllerutil.RemoveFinalizer (Finalizers (schema_Meta schema))
                     schemaFinalizer) schema)) w2 in
      ((noRequeue, u), w3)
    end.
Proof.
  intros key (Hs & Hdel & Hfin) Hget. subst key. unfold Reconcile, bind at 1, read.
  unfold Get_Schema. rewrite (Get_stored _ _ _ _ _ Hs Hget), Hdel, Hfin. cbn [negb].
  unfold bind, logf at 1. cbn [snd].
  destruct (deleteFromRegistry schema _) as [[err|] w2]; [reflexivity|].
  destruct (api _ w2) as [[err|] w3]; reflexivity.
Qed.

(** When the cleanup is skipped the finalizer is cleared. *)
Lemma deletion_skipped (w : World) (schema : Schema) (e : error) :
  let key := ObjectKeyFromObject (schema_Meta schema) in
  Deleting schema (cluster w) →
  rejected (cluster w) VerbGet KindSchema key = None →
  rejected (cluster w) VerbUpdate KindSchema key = None →
  buildClient schema (cluster w) = Err e →
  ∃ w', Reconcile key w = ((noRequeue, None), w') ∧
        Removed schema (cluster w) (cluster w') ∧
        net w' = net w ∧
        log w' = log w ++
          [logInfo "Deleting schema subject from registry"
             [("subject", Subject (schema_Spec schema))];
           logInfo "Could not build client during deletion, skipping registry cleanup"
             [("error", Error e)]].
Proof.
  intros key Hdel Hget Hupd Hbuild. subst key.
  rewrite (Reconcile_deletion w schema Hdel Hget). cbv zeta.
  rewrite (deleteFromRegistry_skip schema _ e) by exact Hbuild.
  destruct Hdel as (Hs & _ & _).
  destruct (Update_Schema_removes schema (cluster w) Hs Hupd) as (c' & Hu & Hrem).
  unfold api, logf. cbn [snd cluster]. rewrite Hu.
  eexists. split; [reflexivity|]. cbn [cluster net log].
  repeat split; try apply Hrem. now rewrite <- app_assoc.
Qed.

(** When [DeleteSubject] is called, its outcome decides. *)
Lemma deletion_attempted (w : World) (schema : Schema)
    (srClient : schemaclient.SchemaRegistryClient) :
  let key := ObjectKeyFromObject (schema_Meta schema) in
  Deleting schema (cluster w) →
  rejected (cluster w) VerbGet KindSchema key = None →
  rejected (cluster w) VerbUpdate KindSchema key = None →
  buildClient schema (cluster w) = Ok srClient →
  match fst (schemaclient.DeleteSubject srClient (Subject (schema_Spec schema)) (net w)) with
  | None =>
    ∃ w', Reconcile key w = ((noRequeue, None), w') ∧
          Removed schema (cluster w) (cluster w')
  | Some err =>
    ∃ w', Reconcile key w = ((noRequeue, Some err), w') ∧ cluster w' = cluster w
  end.
Proof.
  intros key Hdel Hget Hupd Hbuild. subst key.
  rewrite (Reconcile_deletion w schema Hdel Hget). cbv zeta.
  rewrite (deleteFromRegistry_call schema _ srClient) by exact Hbuild.
  unfold remote, logf. cbn [snd net cluster clock log].
  destruct (schemaclient.DeleteSubject srClient _ (net w)) as [[err|] n']; cbn [fst].
  - eexists. split; reflexivity.
  - destruct Hdel as (Hs & _ & _).
    destruct (Update_Schema_removes schema (cluster w) Hs Hupd) as (c' & Hu & Hrem).
    unfold api. cbn [cluster]. rewrite Hu. eexists. split; [reflexivity|]. exact Hrem.
Qed.

End SchemaReconcilerFacts.

Section DeletionProperties.
Import metav1 v1alpha1 corev1 apiserver runtime controller.
Import controller.SchemaReconciler.

(** C8.  A Schema under deletion still carries the finalizer, and its owning
    registry object is gone (or, more generally, no client can be built for
    it).  If the API server accepts the reconciler's read and update of the
    Schema, the reconcile sends nothing to the registry, logs that the
    cleanup is skipped, clears the finalizer and returns without error and
    without requeue. *)
Theorem C8_deletion_without_registry_clears_finalizer
    (L : schemaclient.GoLibs) (w : World) (schema : Schema) :
  let key := ObjectKeyFromObject (schema_Meta schema) in
  Deleting schema (cluster w) →
  rejected (cluster w) VerbGet KindSchema key = None →
  rejected (cluster w) VerbUpdate KindSchema key = None →
  registries (cluster w) !! owningRegistry schema = None
    ∨ is_Err (buildClient schema (cluster w)) →
  ∃ w' e,
    buildClient schema (cluster w) = Err e ∧
    Reconcile key w = ((noRequeue, None), w') ∧
    Removed schema (cluster w) (cluster w') ∧
    net w' = net w ∧
    log w' = log w ++
      [logInfo "Deleting schema subject from registry"
         [("subject", Subject (schema_Spec schema))];
       logInfo "Could not build client during deletion, skipping registry cleanup"
         [("error", Error e)]].
Proof.
  intros key Hdel Hget Hupd Hgone.
  assert (Hfail : is_Err (buildClient schema (cluster w))).
  { destruct Hgone as [Hgone|Hfail]; [|exact Hfail].
    now apply buildClient_registry_gone. }
  destruct (buildClient schema (cluster w)) as [?|e] eqn:Hbuild; [destruct Hfail|].
  destruct (deletion_skipped w schema e Hdel Hget Hupd Hbuild) as (w' & Hrun & Hrest).
  exists w', e. split; [reflexivity|]. split; [exact Hrun | exact Hrest].
Qed.

(** The Schema kafka/user-schema is under deletion and its registry object
    does not exist: the object is purged, nothing is sent. *)
Lemma C8_witness :
  let schema :=
    fixture.schemaIn "kafka" "user-schema" fixture.sameNamespaceRef (Some 1700000000)
      [schemaFinalizer] in
  let w := fixture.worldOf (fixture.clusterOf [schema] [] []) sample.scenarioRegistry in
  ∃ w',
    @Reconcile modelLibs ("kafka", "user-schema") w = ((noRequeue, None), w') ∧
    schemas (cluster w') !! ("kafka", "user-schema") = None ∧
    schemaclient.sent (net w') = [].
Proof.
  intros schema w.
  destruct (C8_deletion_without_registry_clears_finalizer modelLibs w schema)
    as (w' & e & _ & Hrun & Hrem & Hnet & _).
  - repeat split; reflexivity.
  - reflexivity.
  - reflexivity.
  - left. reflexivity.
  - exists w'. split; [exact Hrun|].
    pose proof (f_equal snd Hrun) as Hw. cbn [snd] in Hw. rewrite <- Hw.
    split; vm_compute; reflexivity.
Defined.

(** C1, as the code has it.  A Schema under deletion still carries the
    finalizer and the API server accepts the reconciler's read and update of
    it.  When no client can be built for the owning registry (the registry
    object cannot be fetched, or its credentials cannot be resolved), or when
    [DeleteSubject] returns no error, the reconcile clears the finalizer and
    returns without error.  When [DeleteSubject] returns an error, the
    reconcile returns that error and leaves the stored objects as they are,
    finalizer included. *)
Theorem C1_deletion_outcomes
    (L : schemaclient.GoLibs) (w : World) (schema : Schema) :
  let key := ObjectKeyFromObject (schema_Meta schema) in
  let subject := Subject (schema_Spec schema) in
  Deleting schema (cluster w) →
  rejected (cluster w) VerbGet KindSchema key = None →
  rejected (cluster w) VerbUpdate KindSchema key = None →
  (is_Err (buildClient schema (cluster w)) →
     ∃ w', Reconcile key w = ((noRequeue, None), w') ∧
           Removed schema (cluster w) (cluster w')) ∧
  (∀ srClient, buildClient schema (cluster w) = Ok srClient →
     fst (schemaclient.DeleteSubject srClient subject (net w)) = None →
     ∃ w', Reconcile key w = ((noRequeue, None), w') ∧
           Removed schema (cluster w) (cluster w')) ∧
  (∀ srClient err, buildClient schema (cluster w) = Ok srClient →
     fst (schemaclient.DeleteSubject srClient subject (net w)) = Some err →
     ∃ w', Reconcile key w = ((noRequeue, Some err), w') ∧
           cluster w' = cluster w ∧
           schemas (cluster w') !! key = Some schema).
Proof.
  intros key subject Hdel Hget Hupd. repeat apply conj.
  - intros Hfail.
    destruct (buildClient schema (cluster w)) as [?|e] eqn:Hbuild; [destruct Hfail|].
    destruct (deletion_skipped w schema e Hdel Hget Hupd Hbuild) as (w' & Hrun & Hrem & _).
    eauto.
  - intros srClient Hbuild Hok.
    pose proof (deletion_attempted w schema srClient Hdel Hget Hupd Hbuild) as Hrun.
    fold subject in Hrun. rewrite Hok in Hrun. exact Hrun.
  - intros srClient err Hbuild Herr.
    pose proof (deletion_attempted w schema srClient Hdel Hget Hupd Hbuild) as Hrun.
    fold subject in Hrun. rewrite Herr in Hrun. destruct Hrun as (w' & Hrun & Hsame).
    exists w'. repeat split; [exact Hrun | exact Hsame |].
    rewrite Hsame. apply Hdel.
Qed.

(** The Schema kafka/user-schema is under deletion.  Against a registry
    that holds the subject and deletes it the finalizer is cleared; against a
    registry that cannot be reached the error of [DeleteSubject] is
    returned and the cluster is as before. *)
Lemma C1_witness :
  let schema :=
    fixture.schemaIn "kafka" "user-schema" fixture.sameNamespaceRef (Some 1700000000)
      [schemaFinalizer] in
  let c := fixture.clusterOf [schema] [fixture.registry] [] in
  (∃ w', @Reconcile modelLibs ("kafka", "user-schema")
           (fixture.worldOf c sample.oneSubjectRegistry) = ((noRequeue, None), w') ∧
         Removed schema c (cluster w')) ∧
  (∃ err w', @Reconcile modelLibs ("kafka", "user-schema")
               (fixture.worldOf c sample.unreachableRegistry)
             = ((noRequeue, Some err), w') ∧
             cluster w' = c).
Proof.
  intros schema c. split.
  - destruct (C1_deletion_outcomes modelLibs
                (fixture.worldOf c sample.oneSubjectRegistry) schema)
      as (_ & Hdone & _).
    + repeat split; reflexivity.
    + reflexivity.
    + reflexivity.
    + exact (Hdone sample.client eq_refl eq_refl).
  - destruct (C1_deletion_outcomes modelLibs
                (fixture.worldOf c sample.unreachableRegistry) schema)
      as (_ & _ & Hfailed).
    + repeat split; reflexivity.
    + reflexivity.
    + reflexivity.
    + destruct (Hfailed sample.client _ eq_refl eq_refl) as (w' & Hrun & Hsame & _).
      eauto.
Defined.

(** C1 fails as stated: the registry of a Schema under deletion cannot be
    reached, and the reconcile returns the error of [DeleteSubject]; the
    stored Schema still carries the finalizer. *)
Lemma C1_counterexample :
  let schema :=
    fixture.schemaIn "kafka" "user-schema" fixture.sameNamespaceRef (Some 1700000000)
      [schemaFinalizer] in
  let w :=
    fixture.worldOf (fixture.clusterOf [schema] [fixture.registry] [])
      sample.unreachableRegistry in
  let run := @Reconcile modelLibs ("kafka", "user-schema") w in
  fst run
    = (noRequeue,
       Some (wrapError "failed to delete subject: dial tcp: connection refused"
               (opError "dial tcp: connection refused"))) ∧
  schemas (cluster (snd run)) !! ("kafka", "user-schema") = Some schema ∧
  controllerutil.ContainsFinalizer (Finalizers (schema_Meta schema)) schemaFinalizer
    = true.
Proof. repeat split; vm_compute; reflexivity. Qed.

End DeletionProperties.

(** ** Conditions *)

Section ConditionFacts.
Import metav1.

Lemma SetStatusCondition_find (now : Time) (conditions : list Condition)
    (new : Condition) :
  ∃ c, FindStatusCondition (SetStatusCondition now conditions new) (cond_Type new)
         = Some c ∧
       cond_Status c = cond_Status new ∧ Reason c = Reason new ∧
       Message c = Message new ∧
       cond_ObservedGeneration c = cond_ObservedGeneration new.
Proof.
  induction conditions as [|x conditions IH]; simpl.
  - rewrite String.eqb_refl. eexists. split; [reflexivity|]. repeat split.
  - destruct (String.eqb (cond_Type x) (cond_Type new)) eqn:E; simpl.
    + rewrite E. eexists. split; [reflexivity|]. repeat split.
    + rewrite E. exact IH.
Qed.

Lemma SetStatusCondition_other (now : Time) (conditions : list Condition)
    (new : Condition) (t : string) :
  t ≠ cond_Type new →
  FindStatusCondition (SetStatusCondition now conditions new) t
    = FindStatusCondition conditions t.
Proof.
  intros Ht. induction conditions as [|x conditions IH]; simpl.
  - destruct (String.eqb (cond_Type new) t) eqn:E; [|reflexivity].
    apply String.eqb_eq in E. congruence.
  - destruct (String.eqb (cond_Type x) (cond_Type new)) eqn:E; simpl.
    + destruct (String.eqb (cond_Type x) t) eqn:E'; [|reflexivity].
      apply String.eqb_eq in E, E'. congruence.
    + rewrite IH. reflexivity.
Qed.

End ConditionFacts.

(** ** Registration *)

Section RegistrationFacts.
Context `{!schemaclient.GoLibs}.
Import metav1 v1alpha1 corev1 apiserver runtime controller.
Import controller.SchemaReconciler.

(** Attaching the finalizer. *)
Lemma Reconcile_attach (w : World) (schema : Schema) :
  let key := ObjectKeyFromObject (schema_Meta schema) in
  schemas (cluster w) !! key = Some schema →
  IsZeroPtr (DeletionTimestamp (schema_Meta schema)) = true →
  rejected (cluster w) VerbGet KindSchema key = None →
  rejected (cluster w) VerbUpdate KindSchema key = None →
  Reconcile key w =
    if controllerutil.ContainsFinalizer (Finalizers (schema_Meta schema)) schemaFinalizer
    then reconcileRegistration key schema w
    else reconcileRegistration key (withFinalizer schema)
           (storing key (withFinalizer schema) w).
Proof.
  intros key Hs Hlive Hget Hupd. subst key. unfold Reconcile, bind at 1, read.
  unfold Get_Schema. rewrite (Get_stored _ _ _ _ _ Hs Hget), Hlive. cbn [negb].
  destruct (controllerutil.ContainsFinalizer _ _) eqn:Hfin; cbn [negb]; [reflexivity|].
  fold (withFinalizer schema). unfold bind at 1, api.
  assert (Hu : Update_Schema (withFinalizer schema) (cluster w)
               = (None, cluster (storing (ObjectKeyFromObject (schema_Meta schema))
                                   (withFinalizer schema) w))).
  { unfold Update_Schema, storing, withFinalizer, controllerutil.AddFinalizer.
    rewrite Hfin. unfold ObjectKeyFromObject in *.
    cbn [schema_Meta set_schema_Finalizers set_Finalizers Finalizers DeletionTimestamp
         schema_Spec Name Namespace cluster].
    rewrite Hupd, Hs.
    destruct (DeletionTimestamp (schema_Meta schema)); [|reflexivity].
    destruct (Finalizers (schema_Meta schema) ++ [schemaFinalizer]) eqn:E; [|reflexivity].
    symmetry in E. now apply app_cons_not_nil in E. }
  rewrite Hu. unfold bind at 1, read, Get_Schema.
  rewrite (Get_stored _ _ _ _ (withFinalizer schema)).
  - reflexivity.
  - apply lookup_insert_eq.
  - exact Hget.
Qed.

Lemma setConditionFailed_run (schema stored : Schema) (reason message : string)
    (w : World) :
  let key := ObjectKeyFromObject (schema_Meta schema) in
  schemas (cluster w) !! key = Some stored →
  ObjectKeyFromObject (schema_Meta stored) = key →
  rejected (cluster w) VerbGet KindSchema key = None →
  rejected (cluster w) VerbUpdateStatus KindSchema key = None →
  setConditionFailed schema reason message w
    = (None, storing key (markFailed (clock w) reason message stored) w).
Proof.
  intros key Hs Hkey Hget Hupd. subst key. unfold setConditionFailed, bind, read, Now.
  unfold Get_Schema. rewrite (Get_stored _ _ _ _ _ Hs Hget).
  fold (markFailed (clock w) reason message stored).
  unfold api, UpdateStatus_Schema.
  change (ObjectKeyFromObject (schema_Meta (markFailed (clock w) reason message stored)))
    with (ObjectKeyFromObject (schema_Meta stored)).
  rewrite Hkey, Hupd, Hs. reflexivity.
Qed.

Lemma reconcileRegistration_failure (schema : Schema) (w : World)
    (reason : string) (e : error) :
  let key := ObjectKeyFromObject (schema_Meta schema) in
  schemas (cluster w) !! key = Some schema →
  rejected (cluster w) VerbGet KindSchema key = None →
  rejected (cluster w) VerbUpdateStatus KindSchema key = None →
  RegistrationFails schema (cluster w) (net w) reason e →
  ∃ w', reconcileRegistration key schema w = ((requeueAfter Minute, None), w') ∧
        cluster w' = cluster (storing key (markFailed (clock w) reason (Error e) schema) w).
Proof.
  intros key Hs Hget Hupd Hfail. subst key.
  unfold reconcileRegistration, bind at 1, read.
  destruct Hfail as [[Hbuild ->] | (srClient & Hbuild & Hreg & ->)]; rewrite Hbuild.
  - unfold bind at 1, logf at 1. unfold bind.
    rewrite (setConditionFailed_run schema schema); cbn [cluster clock]; auto.
    eexists. split; reflexivity.
  - unfold bind at 1, logf at 1. unfold bind at 1, remote. cbn [net].
    fold (registerReqOf schema).
    destruct (schemaclient.RegisterSchema srClient _ _ (net w)) as [r n'].
    cbn [fst] in Hreg. subst r.
    unfold bind at 1, logf at 1. unfold bind.
    rewrite (setConditionFailed_run schema schema); cbn [cluster clock]; auto.
    eexists. split; reflexivity.
Qed.

Lemma reconcileRegistration_success (schema : Schema) (w : World)
    (srClient : schemaclient.SchemaRegistryClient) (resp : schemaclient.SchemaResponse) :
  let key := ObjectKeyFromObject (schema_Meta schema) in
  schemas (cluster w) !! key = Some schema →
  rejected (cluster w) VerbGet KindSchema key = None →
  rejected (cluster w) VerbUpdateStatus KindSchema key = None →
  buildClient schema (cluster w) = Ok srClient →
  fst (schemaclient.RegisterSchema srClient (Subject (schema_Spec schema))
         (registerReqOf schema) (net w)) = Ok resp →
  ∃ w', reconcileRegistration key schema w = ((noRequeue, None), w') ∧
        cluster w' = cluster (storing key (markRegistered (clock w) resp schema) w).
Proof.
  intros key Hs Hget Hupd Hbuild Hreg. subst key.
  unfold reconcileRegistration, bind at 1, read. rewrite Hbuild.
  unfold bind at 1, logf at 1. unfold bind at 1, remote. cbn [net].
  fold (registerReqOf schema).
  destruct (schemaclient.RegisterSchema srClient _ _ (net w)) as [r n'].
  cbn [fst] in Hreg. subst r.
  unfold bind at 1.
  match goal with
  | |- context [(if ?b then ?m else ret tt) ?w0] =>
    destruct ((if b then m else ret tt) w0) as [[] w1] eqn:Hcompat;
    assert (Hc : cluster w1 = cluster w)
  end.
  { destruct (negb _); [|now inversion Hcompat].
    unfold bind, remote in Hcompat. cbn [net cluster clock log] in Hcompat.
    destruct (schemaclient.SetCompatibility _ _ _ _) as [[err|] n''];
      inversion Hcompat; reflexivity. }
  assert (Hk : clock w1 = clock w).
  { destruct (negb _); [|now inversion Hcompat].
    unfold bind, remote in Hcompat. cbn [net cluster clock log] in Hcompat.
    destruct (schemaclient.SetCompatibility _ _ _ _) as [[err|] n''];
      inversion Hcompat; reflexivity. }
  unfold bind at 1, read, Get_Schema. rewrite Hc.
  rewrite (Get_stored _ _ _ _ _ Hs Hget).
  unfold bind, Now, api. rewrite Hk, Hc.
  fold (markRegistered (clock w) resp schema).
  unfold UpdateStatus_Schema.
  change (ObjectKeyFromObject (schema_Meta (markRegistered (clock w) resp schema)))
    with (ObjectKeyFromObject (schema_Meta schema)).
  rewrite Hupd, Hs. unfold logf.
  eexists. split; reflexivity.
Qed.

End RegistrationFacts.

Section RegistrationProperties.
Import metav1 v1alpha1 corev1 apiserver runtime controller.
Import controller.SchemaReconciler.

Lemma RegistrationFails_attached `{!schemaclient.GoLibs} (schema : Schema) (w : World)
    (reason : string) (e : error) :
  RegistrationFails schema (cluster w) (net w) reason e →
  let w1 := storing (ObjectKeyFromObject (schema_Meta schema)) (withFinalizer schema) w in
  RegistrationFails (withFinalizer schema) (cluster w1) (net w1) reason e.
Proof.
  intros Hfail w1.
  assert (Hb : buildClient (withFinalizer schema) (cluster w1)
               = buildClient schema (cluster w)) by (apply buildClient_frame; reflexivity).
  unfold RegistrationFails. rewrite Hb. exact Hfail.
Qed.

(** C6.  A Schema that is not under deletion is reconciled while the API
    server accepts the reconciler's requests on it, and its registration
    fails: no client can be built (reason ClientBuildFailed) or
    [RegisterSchema] returns an error (reason RegistrationFailed).  Then the
    reconcile returns without error and asks to be run again after one
    minute; the stored Schema carries the finalizer, has its spec and its
    status fields schemaID, version, registeredAt and observedGeneration
    unchanged, and its condition list is the old one with the Ready condition
    set to False with that reason and the message of the error; conditions
    of other types are as before. *)
Theorem C6_registration_failure_sets_only_the_condition
    (L : schemaclient.GoLibs) (w : World) (schema : Schema)
    (reason : string) (e : error) :
  let key := ObjectKeyFromObject (schema_Meta schema) in
  schemas (cluster w) !! key = Some schema →
  IsZeroPtr (DeletionTimestamp (schema_Meta schema)) = true →
  (∀ verb, rejected (cluster w) verb KindSchema key = None) →
  RegistrationFails schema (cluster w) (net w) reason e →
  ∃ w' stored ready,
    Reconcile key w = ((requeueAfter Minute, None), w') ∧
    schemas (cluster w') !! key = Some stored ∧
    controllerutil.ContainsFinalizer (Finalizers (schema_Meta stored)) schemaFinalizer
      = true ∧
    schema_Spec stored = schema_Spec schema ∧
    SchemaID (schema_Status stored) = SchemaID (schema_Status schema) ∧
    Version (schema_Status stored) = Version (schema_Status schema) ∧
    RegisteredAt (schema_Status stored) = RegisteredAt (schema_Status schema) ∧
    ObservedGeneration (schema_Status stored)
      = ObservedGeneration (schema_Status schema) ∧
    Conditions (schema_Status stored)
      = SetStatusCondition (clock w) (Conditions (schema_Status schema))
          (readyCondition ConditionFalse reason (Error e)
             (Generation (schema_Meta schema))) ∧
    FindStatusCondition (Conditions (schema_Status stored)) "Ready" = Some ready ∧
    cond_Status ready = ConditionFalse ∧
    Reason ready = reason ∧
    Message ready = Error e ∧
    (∀ t, t ≠ "Ready" →
       FindStatusCondition (Conditions (schema_Status stored)) t
         = FindStatusCondition (Conditions (schema_Status schema)) t).
Proof.
  intros key Hs Hlive Hacc Hfail.
  pose proof (SetStatusCondition_find (clock w) (Conditions (schema_Status schema))
                (readyCondition ConditionFalse reason (Error e)
                   (Generation (schema_Meta schema))))
    as (ready & Hfind & Hst & Hre & Hme & _).
  pose proof (SetStatusCondition_other (clock w) (Conditions (schema_Status schema))
                (readyCondition ConditionFalse reason (Error e)
                   (Generation (schema_Meta schema)))) as Hother.
  subst key.
  rewrite (Reconcile_attach w schema Hs Hlive (Hacc VerbGet) (Hacc VerbUpdate)).
  destruct (controllerutil.ContainsFinalizer _ _) eqn:Hfin.
  - destruct (reconcileRegistration_failure schema w reason e Hs (Hacc VerbGet)
                (Hacc VerbUpdateStatus) Hfail) as (w' & Hrun & Hc).
    exists w', (markFailed (clock w) reason (Error e) schema), ready.
    split; [exact Hrun|]. rewrite Hc. cbn [cluster storing schemas set_schemas].
    split; [apply lookup_insert_eq|]. split; [exact Hfin|].
    repeat split; auto.
  - pose proof (RegistrationFails_attached schema w reason e Hfail) as Hfail'.
    cbv zeta in Hfail'.
    destruct (reconcileRegistration_failure (withFinalizer schema)
                (storing (ObjectKeyFromObject (schema_Meta schema)) (withFinalizer schema) w)
                reason e) as (w' & Hrun & Hc).
    + apply lookup_insert_eq.
    + exact (Hacc VerbGet).
    + exact (Hacc VerbUpdateStatus).
    + exact Hfail'.
    + exists w', (markFailed (clock w) reason (Error e) (withFinalizer schema)), ready.
      split; [exact Hrun|]. rewrite Hc. cbn [cluster storing schemas set_schemas].
      split; [apply lookup_insert_eq|].
      split; [apply ContainsFinalizer_Add|].
      repeat split; auto.
Qed.

(** The Schema kafka/user-schema, new and without finalizer, is reconciled
    against a registry that answers 503. *)
Lemma C6_witness :
  let schema := fixture.schemaIn "kafka" "user-schema" fixture.sameNamespaceRef None [] in
  let w :=
    fixture.worldOf (fixture.clusterOf [schema] [fixture.registry] [])
      sample.unavailableRegistry in
  ∃ w' stored,
    @Reconcile modelLibs ("kafka", "user-schema") w = ((requeueAfter Minute, None), w') ∧
    schemas (cluster w') !! ("kafka", "user-schema") = Some stored ∧
    Finalizers (schema_Meta stored) = [schemaFinalizer] ∧
    schema_Status stored =
      {| SchemaID := None; Version := None; RegisteredAt := None;
         ObservedGeneration := 0;
         Conditions :=
           [{| cond_Type := "Ready"; cond_Status := ConditionFalse;
               cond_ObservedGeneration := 1; LastTransitionTime := 1700000000;
               Reason := "RegistrationFailed";
               Message :=
                 "schema registration failed with status 503: registry is down" |}] |}.
Proof.
  intros schema w.
  destruct (C6_registration_failure_sets_only_the_condition modelLibs w schema
              "RegistrationFailed"
              (errorString "schema registration failed with status 503: registry is down"))
    as (w' & stored & ready & Hrun & Hstored & _).
  - reflexivity.
  - reflexivity.
  - intros verb. reflexivity.
  - right. exists sample.client. repeat split; reflexivity.
  - exists w', stored. split; [exact Hrun|].
    pose proof (f_equal snd Hrun) as Hw. cbn [snd] in Hw. subst w'.
    split; [exact Hstored|].
    vm_compute in Hstored. injection Hstored as <-.
    split; reflexivity.
Defined.

(** C10.  A Schema that is not under deletion is reconciled while the API
    server accepts the reconciler's requests on it; a client is built, the
    registry answers the registration with 200 and an identifier, and the
    follow-up read of the latest version fails.  Then the reconcile returns
    without error and commits a status whose version is present and is 0,
    whose schemaID is the identifier, and whose Ready condition is True with
    reason Registered and a message that reports version 0. *)
Theorem C10_failed_follow_up_surfaces_as_version_zero
    (L : schemaclient.GoLibs) (w : World) (schema : Schema)
    (srClient : schemaclient.SchemaRegistryClient) (req : schemaclient.Request)
    (resp : schemaclient.Response) (id : Z) (e : error) :
  let key := ObjectKeyFromObject (schema_Meta schema) in
  let subject := Subject (schema_Spec schema) in
  schemas (cluster w) !! key = Some schema →
  IsZeroPtr (DeletionTimestamp (schema_Meta schema)) = true →
  (∀ verb, rejected (cluster w) verb KindSchema key = None) →
  buildClient schema (cluster w) = Ok srClient →
  schemaclient.registerRequest srClient subject (registerReqOf schema) = Ok req →
  schemaclient.answer (net w) srClient req = Ok resp →
  schemaclient.StatusCode resp = schemaclient.StatusOK →
  schemaclient.Unmarshal_ID (schemaclient.resp_Body resp) = Ok id →
  fst (schemaclient.getLatestVersionForSubject srClient subject
         (snd (schemaclient.Do (schemaclient.client_http srClient) req (net w)))) = Err e →
  ∃ w' stored ready,
    Reconcile key w = ((noRequeue, None), w') ∧
    schemas (cluster w') !! key = Some stored ∧
    Version (schema_Status stored) = Some 0 ∧
    SchemaID (schema_Status stored) = Some id ∧
    RegisteredAt (schema_Status stored) = Some (clock w) ∧
    ObservedGeneration (schema_Status stored) = Generation (schema_Meta schema) ∧
    FindStatusCondition (Conditions (schema_Status stored)) "Ready" = Some ready ∧
    cond_Status ready = ConditionTrue ∧
    Reason ready = "Registered" ∧
    Message ready = "Schema registered with ID " +:+ itoa id +:+ ", version 0".
Proof.
  intros key subject Hs Hlive Hacc Hbuild Hreq Hans H200 Hid Hfollow.
  set (resp0 := {| schemaclient.resp_ID := id; schemaclient.resp_Version := 0;
                   schemaclient.resp_Schema := Go.empty |}).
  assert (Hreg : fst (schemaclient.RegisterSchema srClient subject (registerReqOf schema)
                        (net w)) = Ok resp0).
  { rewrite (RegisterSchema_run _ _ _ _ _ Hreq), Hans. cbv zeta.
    apply Z.eqb_eq in H200. rewrite H200, Hid.
    unfold schemaclient.Do in Hfollow. cbn [snd] in Hfollow.
    destruct (schemaclient.getLatestVersionForSubject srClient subject _) as [v n2].
    cbn [fst] in Hfollow. subst v. reflexivity. }
  pose proof (SetStatusCondition_find (clock w) (Conditions (schema_Status schema))
                (readyCondition ConditionTrue "Registered"
                   ("Schema registered with ID " +:+ itoa id +:+ ", version " +:+ itoa 0)
                   (Generation (schema_Meta schema))))
    as (ready & Hfind & Hst & Hre & Hme & _).
  subst key.
  rewrite (Reconcile_attach w schema Hs Hlive (Hacc VerbGet) (Hacc VerbUpdate)).
  destruct (controllerutil.ContainsFinalizer _ _) eqn:Hfin.
  - destruct (reconcileRegistration_success schema w srClient resp0 Hs (Hacc VerbGet)
                (Hacc VerbUpdateStatus) Hbuild Hreg) as (w' & Hrun & Hc).
    exists w', (markRegistered (clock w) resp0 schema), ready.
    split; [exact Hrun|]. rewrite Hc. cbn [cluster storing schemas set_schemas].
    split; [apply lookup_insert_eq|]. repeat split; auto.
  - destruct (reconcileRegistration_success (withFinalizer schema)
                (storing (ObjectKeyFromObject (schema_Meta schema)) (withFinalizer schema) w)
                srClient resp0) as (w' & Hrun & Hc).
    + apply lookup_insert_eq.
    + exact (Hacc VerbGet).
    + exact (Hacc VerbUpdateStatus).
    + rewrite <- Hbuild. apply buildClient_frame; reflexivity.
    + exact Hreg.
    + exists w', (markRegistered (clock w) resp0 (withFinalizer schema)), ready.
      split; [exact Hrun|]. rewrite Hc. cbn [cluster storing schemas set_schemas].
      split; [apply lookup_insert_eq|]. repeat split; auto.
Qed.

(** The Schema kafka/user-schema is reconciled against a registry that
    registers and cannot report versions. *)
Lemma C10_witness :
  let schema := fixture.schemaIn "kafka" "user-schema" fixture.sameNamespaceRef None [] in
  let w :=
    fixture.worldOf (fixture.clusterOf [schema] [fixture.registry] [])
      sample.versionlessRegistry in
  ∃ w' stored,
    @Reconcile modelLibs ("kafka", "user-schema") w = ((noRequeue, None), w') ∧
    schemas (cluster w') !! ("kafka", "user-schema") = Some stored ∧
    schema_Status stored =
      {| SchemaID := Some 42; Version := Some 0; RegisteredAt := Some 1700000000;
         ObservedGeneration := 1;
         Conditions :=
           [{| cond_Type := "Ready"; cond_Status := ConditionTrue;
               cond_ObservedGeneration := 1; LastTransitionTime := 1700000000;
               Reason := "Registered";
               Message := "Schema registered with ID 42, version 0" |}] |}.
Proof.
  intros schema w.
  edestruct (C10_failed_follow_up_surfaces_as_version_zero modelLibs w schema
               sample.client)
    as (w' & stored & ready & Hrun & Hstored & _).
  - reflexivity.
  - reflexivity.
  - intros verb. reflexivity.
  - reflexivity.
  - reflexivity.
  - reflexivity.
  - reflexivity.
  - reflexivity.
  - vm_compute. reflexivity.
  - exists w', stored. split; [exact Hrun|].
    pose proof (f_equal snd Hrun) as Hw. cbn [snd] in Hw. subst w'.
    split; [exact Hstored|].
    vm_compute in Hstored. injection Hstored as <-. reflexivity.
Defined.

End RegistrationProperties.

(** ** The connectivity reconciler *)

Section ConnectivityProperties.
Import metav1 v1alpha1 corev1 apiserver runtime controller.
Import controller.SchemaRegistryReconciler.

(** Building a client cannot fail. *)
Lemma NewClient_total (baseURL : string) (auth : schemaclient.AuthConfig)
    (timeout : Duration) (insecureSkipVerify : bool) :
  ∃ srClient, schemaclient.NewClient baseURL auth timeout insecureSkipVerify = Ok srClient.
Proof. unfold schemaclient.NewClient. eauto. Qed.

(** C3, as the code has it.  A stored registry object is reconciled while
    the API server accepts the reconciler's requests on it.  When its
    credentials resolve, a client is built (that step has no failing path)
    and the health check runs; whatever its outcome, the reconcile writes
    lastChecked, observedGeneration and a Ready condition (True/Connected,
    or False/ConnectionFailed with the message of the health-check error),
    returns no error and asks to be run again after five minutes.  When the
    credentials do not resolve, the reconcile sends nothing to the registry,
    writes the Ready condition False/AuthLoadFailed and the connection status
    Unreachable, leaves lastChecked and observedGeneration as they are,
    returns no error and asks for no requeue. *)
Theorem C3_connectivity_reconcile_outcomes
    (L : schemaclient.GoLibs) (w : World) (sr : SchemaRegistry) :
  let key := ObjectKeyFromObject (sr_Meta sr) in
  registries (cluster w) !! key = Some sr →
  (∀ verb, rejected (cluster w) verb KindSchemaRegistry key = None) →
  (∀ authConfig, loadAuthConfig (cluster w) sr = (authConfig, None) →
     ∃ srClient w' stored ready,
       clientFor sr authConfig = Ok srClient ∧
       Reconcile key w = ((requeueAfter (5 * Minute), None), w') ∧
       registries (cluster w') !! key = Some stored ∧
       LastChecked (sr_Status stored) = Some (clock w) ∧
       sr_ObservedGeneration (sr_Status stored) = Generation (sr_Meta sr) ∧
       FindStatusCondition (sr_Conditions (sr_Status stored)) "Ready" = Some ready ∧
       match fst (schemaclient.HealthCheck srClient (net w)) with
       | None =>
         ConnectionStatus (sr_Status stored) = "Connected" ∧
         cond_Status ready = ConditionTrue ∧ Reason ready = "Connected"
       | Some healthErr =>
         ConnectionStatus (sr_Status stored) = "Unreachable" ∧
         cond_Status ready = ConditionFalse ∧ Reason ready = "ConnectionFailed" ∧
         Message ready = Error healthErr
       end) ∧
  (∀ authConfig err, loadAuthConfig (cluster w) sr = (authConfig, Some err) →
     ∃ w' stored ready,
       Reconcile key w = ((noRequeue, None), w') ∧
       net w' = net w ∧
       registries (cluster w') !! key = Some stored ∧
       LastChecked (sr_Status stored) = LastChecked (sr_Status sr) ∧
       sr_ObservedGeneration (sr_Status stored) = sr_ObservedGeneration (sr_Status sr) ∧
       ConnectionStatus (sr_Status stored) = "Unreachable" ∧
       FindStatusCondition (sr_Conditions (sr_Status stored)) "Ready" = Some ready ∧
       cond_Status ready = ConditionFalse ∧ Reason ready = "AuthLoadFailed" ∧
       Message ready = Error err).
Proof.
  intros key Hs Hacc. subst key. split.
  - intros authConfig Hauth.
    destruct (NewClient_total (URL (sr_Spec sr)) authConfig (clientTimeout sr)
                (spec_InsecureSkipVerify (sr_Spec sr))) as (srClient & Hclient).
    exists srClient.
    unfold Reconcile, bind at 1, read, Get_SchemaRegistry.
    rewrite (Get_stored _ _ _ _ _ Hs (Hacc VerbGet)).
    unfold bind at 1. rewrite Hauth, Hclient.
    unfold bind at 1, remote.
    destruct (schemaclient.HealthCheck srClient (net w)) as [healthErr n'].
    cbn [fst]. unfold bind at 1. cbn [cluster].
    rewrite (Get_stored _ _ _ _ _ Hs (Hacc VerbGet)).
    unfold bind at 1, Now. unfold bind at 1. cbn [clock].
    destruct healthErr as [healthErr|].
    + pose proof (SetStatusCondition_find (clock w) (sr_Conditions (sr_Status sr))
                    (readyCondition ConditionFalse "ConnectionFailed" (Error healthErr)
                       (Generation (sr_Meta sr))))
        as (ready & Hfind & Hst & Hre & Hme & _).
      unfold bind, logf, ret, api, UpdateStatus_SchemaRegistry.
      cbn [cluster set_sr_Status sr_Meta]. rewrite (Hacc VerbUpdateStatus), Hs.
      do 3 eexists. split; [exact Hclient|]. split; [reflexivity|].
      cbn [cluster registries set_registries].
      split; [apply lookup_insert_eq|]. cbn [sr_Status LastChecked sr_ObservedGeneration
        sr_Conditions ConnectionStatus]. repeat split; eauto.
    + pose proof (SetStatusCondition_find (clock w) (sr_Conditions (sr_Status sr))
                    (readyCondition ConditionTrue "Connected"
                       "Successfully connected to Schema Registry"
                       (Generation (sr_Meta sr))))
        as (ready & Hfind & Hst & Hre & Hme & _).
      unfold bind, logf, ret, api, UpdateStatus_SchemaRegistry.
      cbn [cluster set_sr_Status sr_Meta]. rewrite (Hacc VerbUpdateStatus), Hs.
      do 3 eexists. split; [exact Hclient|]. split; [reflexivity|].
      cbn [cluster registries set_registries].
      split; [apply lookup_insert_eq|]. cbn [sr_Status LastChecked sr_ObservedGeneration
        sr_Conditions ConnectionStatus]. repeat split; eauto.
  - intros authConfig err Hauth.
    pose proof (SetStatusCondition_find (clock w) (sr_Conditions (sr_Status sr))
                  (readyCondition ConditionFalse "AuthLoadFailed" (Error err)
                     (Generation (sr_Meta sr))))
      as (ready & Hfind & Hst & Hre & Hme & _).
    unfold Reconcile, bind at 1, read, Get_SchemaRegistry.
    rewrite (Get_stored _ _ _ _ _ Hs (Hacc VerbGet)).
    unfold bind at 1. rewrite Hauth.
    unfold bind at 1, logf. unfold bind at 1, setConditionFailed.
    unfold bind at 1, read, Get_SchemaRegistry. cbn [cluster].
    rewrite (Get_stored _ _ _ _ _ Hs (Hacc VerbGet)).
    unfold bind, Now, api, UpdateStatus_SchemaRegistry, ret.
    cbn [cluster set_sr_Status sr_Meta clock]. rewrite (Hacc VerbUpdateStatus), Hs.
    do 3 eexists. split; [reflexivity|].
    cbn [cluster registries set_registries net].
    split; [reflexivity|].
    split; [apply lookup_insert_eq|]. cbn [sr_Status LastChecked sr_ObservedGeneration
      sr_Conditions ConnectionStatus]. repeat split; eauto.
Qed.

(** The registry kafka/my-schema-registry without credentials, probed
    while the remote side answers 503; and the same registry with Basic
    credentials whose secret does not exist. *)
Lemma C3_witness :
  let probed :=
    fixture.worldOf (fixture.clusterOf [] [fixture.registry] [])
      sample.unavailableRegistry in
  let sr := fixture.registryWith (Some (fixture.basicAuth "creds")) in
  let unresolved := fixture.worldOf (fixture.clusterOf [] [sr] []) sample.scenarioRegistry in
  (∃ w' stored,
     @Reconcile modelLibs ("kafka", "my-schema-registry") probed
       = ((requeueAfter (5 * Minute), None), w') ∧
     registries (cluster w') !! ("kafka", "my-schema-registry") = Some stored ∧
     LastChecked (sr_Status stored) = Some 1700000000 ∧
     sr_ObservedGeneration (sr_Status stored) = 1 ∧
     ConnectionStatus (sr_Status stored) = "Unreachable") ∧
  (∃ w' stored,
     @Reconcile modelLibs ("kafka", "my-schema-registry") unresolved
       = ((noRequeue, None), w') ∧
     registries (cluster w') !! ("kafka", "my-schema-registry") = Some stored ∧
     LastChecked (sr_Status stored) = None ∧
     ConnectionStatus (sr_Status stored) = "Unreachable").
Proof.
  intros probed sr unresolved. split.
  - destruct (C3_connectivity_reconcile_outcomes modelLibs probed fixture.registry)
      as [Hprobe _]; [reflexivity | intros verb; reflexivity |].
    destruct (Hprobe _ eq_refl)
      as (srClient & w' & stored & ready & Hclient & Hrun & Hstored & Hlast & Hgen & _ & Hhealth).
    injection Hclient as <-.
    exists w', stored. repeat split; try assumption.
    apply Hhealth.
  - destruct (C3_connectivity_reconcile_outcomes modelLibs unresolved sr)
      as [_ Hfail]; [reflexivity | intros verb; reflexivity |].
    edestruct Hfail
      as (w' & stored & ready & Hrun & _ & Hstored & Hlast & _ & Hconn & _);
      [vm_compute; reflexivity|].
    exists w', stored. repeat split; assumption.
Defined.

(** C3 fails as stated: the secret named by a Basic registry does not
    exist.  The reconcile returns without error and without a requeue
    interval, and the stored status has no lastChecked and an
    observedGeneration behind the generation of the object. *)
Lemma C3_counterexample :
  let sr := fixture.registryWith (Some (fixture.basicAuth "creds")) in
  let w := fixture.worldOf (fixture.clusterOf [] [sr] []) sample.scenarioRegistry in
  let run := @Reconcile modelLibs ("kafka", "my-schema-registry") w in
  fst run = ({| Requeue := false; RequeueAfter := 0 |}, None) ∧
  RequeueAfter (fst (fst run)) ≠ 5 * Minute ∧
  ∃ stored,
    registries (cluster (snd run)) !! ("kafka", "my-schema-registry") = Some stored ∧
    LastChecked (sr_Status stored) = None ∧
    sr_ObservedGeneration (sr_Status stored) = 0 ∧
    Generation (sr_Meta stored) = 1 ∧
    Reason <$> FindStatusCondition (sr_Conditions (sr_Status stored)) "Ready"
      = Some "AuthLoadFailed".
Proof.
  intros sr w run. split; [vm_compute; reflexivity|]. split; [vm_compute; discriminate|].
  eexists. split; [vm_compute; reflexivity|]. repeat split.
Qed.

End ConnectivityProperties.

(** ** The protocol client: what goes over the wire *)

Section WireFacts.
Context `{!schemaclient.GoLibs}.
Import schemaclient.

Lemma sentBy_extends {A} (op : State Net A) (n : Net) (l : list Request) :
  sent (snd (op n)) = sent n ++ l → sentBy op n = l.
Proof. intros E. unfold sentBy. rewrite E. apply drop_app_length. Qed.

Lemma sentBy_nothing {A} (op : State Net A) (n : Net) :
  snd (op n) = n → sentBy op n = [].
Proof. intros E. unfold sentBy. rewrite E. apply drop_all. Qed.

(** The requests each operation sends: the one it builds, and nothing when
    the request cannot be built. *)
Lemma HealthCheck_sentBy c n :
  sentBy (HealthCheck c) n
    = match healthCheckRequest c with Ok req => [req] | Err _ => [] end.
Proof.
  destruct (healthCheckRequest c) as [req|e] eqn:E.
  - apply sentBy_extends. now rewrite (HealthCheck_run _ _ _ E).
  - apply sentBy_nothing. unfold healthCheckRequest in E. unfold HealthCheck.
    destruct (NewRequestWithContext _ _ _); [discriminate|reflexivity].
Qed.

Lemma getLatestVersionForSubject_sentBy c subject n :
  sentBy (getLatestVersionForSubject c subject) n
    = match latestVersionRequest c subject with Ok req => [req] | Err _ => [] end.
Proof.
  destruct (latestVersionRequest c subject) as [req|e] eqn:E.
  - apply sentBy_extends. now rewrite (getLatestVersionForSubject_run _ _ _ _ E).
  - apply sentBy_nothing. unfold latestVersionRequest in E.
    unfold getLatestVersionForSubject.
    destruct (NewRequestWithContext _ _ _); [discriminate|reflexivity].
Qed.

Lemma DeleteSubject_sentBy c subject n :
  sentBy (DeleteSubject c subject) n
    = match deleteRequest c subject with Ok req => [req] | Err _ => [] end.
Proof.
  destruct (deleteRequest c subject) as [req|e] eqn:E.
  - apply sentBy_extends. now rewrite (DeleteSubject_run _ _ _ _ E).
  - apply sentBy_nothing. unfold deleteRequest in E. unfold DeleteSubject.
    destruct (NewRequestWithContext _ _ _); [discriminate|reflexivity].
Qed.

Lemma SetCompatibility_sentBy c subject level n :
  sentBy (SetCompatibility c subject level) n
    = match compatibilityRequest c subject level with Ok req => [req] | Err _ => [] end.
Proof.
  destruct (compatibilityRequest c subject level) as [req|e] eqn:E.
  - apply sentBy_extends. now rewrite (SetCompatibility_run _ _ _ _ _ E).
  - apply sentBy_nothing. unfold compatibilityRequest in E. unfold SetCompatibility.
    destruct (NewRequestWithContext _ _ _); [discriminate|reflexivity].
Qed.

(** [RegisterSchema] sends the registration and, only after a 200 answer
    from which the identifier decodes, the read of the latest version. *)
Lemma RegisterSchema_sentBy c subject request n :
  sentBy (RegisterSchema c subject request) n
    = match registerRequest c subject request with
      | Err _ => []
      | Ok req =>
        req ::
        match answer n c req with
        | Ok resp =>
          if StatusCode resp =? StatusOK then
            match Unmarshal_ID (resp_Body resp), latestVersionRequest c subject with
            | Ok _, Ok req2 => [req2]
            | _, _ => []
            end
          else []
        | Err _ => []
        end
      end.
Proof.
  destruct (registerRequest c subject request) as [req|e] eqn:E.
  - apply sentBy_extends. rewrite (RegisterSchema_run _ _ _ _ _ E). cbv zeta.
    destruct (answer n c req) as [resp|err]; [|reflexivity].
    destruct (StatusCode resp =? StatusOK); [|reflexivity].
    destruct (Unmarshal_ID _) as [id|err]; [|reflexivity].
    destruct (latestVersionRequest c subject) as [req2|e2] eqn:E2.
    + rewrite (getLatestVersionForSubject_run _ _ _ _ E2). cbn [snd sent].
      now rewrite <- app_assoc.
    + unfold latestVersionRequest in E2. unfold getLatestVersionForSubject.
      destruct (NewRequestWithContext _ _ _); [discriminate|reflexivity].
  - apply sentBy_nothing. unfold registerRequest in E. unfold RegisterSchema.
    destruct (NewRequestWithContext _ _ _); [discriminate|reflexivity].
Qed.

End WireFacts.

Section WireProperties.
Import schemaclient.

Lemma built_request (L : GoLibs) (m : Method) (url : string) (body : Payload)
    (req : Request) :
  NewRequestWithContext m url body = Ok req →
  req_Method req = m ∧ req_URL req = url ∧ req_Body req = body ∧ req_Header req = ∅.
Proof.
  unfold NewRequestWithContext. destruct (NewRequest_error m url); [discriminate|].
  intros [= <-]. repeat split.
Qed.

Lemma addAuth_fields (c : SchemaRegistryClient) (req : Request) :
  req_Method (addAuth c req) = req_Method req ∧
  req_URL (addAuth c req) = req_URL req ∧
  req_Body (addAuth c req) = req_Body req ∧
  (∀ key, key ≠ "Authorization" →
     req_Header (addAuth c req) !! key = req_Header req !! key).
Proof.
  unfold addAuth.
  destruct (String.eqb _ "BASIC"); [|destruct (String.eqb _ "BEARER")];
    cbn [Header_Set req_Method req_URL req_Body req_Header]; repeat split;
    intros key Hk; now rewrite ?lookup_insert_ne.
Qed.

Lemma addAuth_Authorization (c : SchemaRegistryClient) (req : Request) :
  req_Header req !! "Authorization" = None →
  req_Header (addAuth c req) !! "Authorization"
    = if String.eqb (auth_Type (auth c)) "BASIC"
      then Some (headerBasic (Username (auth c)) (Password (auth c)))
      else if String.eqb (auth_Type (auth c)) "BEARER"
      then Some (headerText ("Bearer " +:+ BearerToken (auth c)))
      else None.
Proof.
  intros Hnone. unfold addAuth.
  destruct (String.eqb _ "BASIC"); [|destruct (String.eqb _ "BEARER")];
    cbn [Header_Set req_Header]; rewrite ?lookup_insert_eq; auto.
Qed.

(** X1.  The requests of the wire protocol.  Whatever the registry answers,
    [HealthCheck] sends at most one request, a GET of <<base/subjects>>;
    [DeleteSubject] at most one, a DELETE of <<base/subjects/subject>>;
    [SetCompatibility] at most one, a PUT of <<base/config/subject>> whose
    body is the level; [RegisterSchema] at most two: first a POST of
    <<base/subjects/subject/versions>> whose body is the request, then
    possibly a GET of <<base/subjects/subject/versions/latest>>.  The POST
    and the PUT carry the content type of the registry, the GET and the
    DELETE carry no body and no content type. *)
Theorem X1_wire_protocol
    (L : GoLibs) (c : SchemaRegistryClient) (subject level : string)
    (request : RegisterSchemaRequest) (n : Net) :
  let plain m url req :=
    req_Method req = m ∧ req_URL req = url ∧ req_Body req = noBody ∧
    req_Header req !! "Content-Type" = None in
  let typed m url body req :=
    req_Method req = m ∧ req_URL req = url ∧ req_Body req = body ∧
    req_Header req !! "Content-Type"
      = Some (headerText "application/vnd.schemaregistry.v1+json") in
  (sentBy (HealthCheck c) n = [] ∨
   ∃ req, sentBy (HealthCheck c) n = [req] ∧
          plain MethodGet (baseURL c +:+ "/subjects") req) ∧
  (sentBy (DeleteSubject c subject) n = [] ∨
   ∃ req, sentBy (DeleteSubject c subject) n = [req] ∧
          plain MethodDelete (baseURL c +:+ "/subjects/" +:+ subject) req) ∧
  (sentBy (SetCompatibility c subject level) n = [] ∨
   ∃ req, sentBy (SetCompatibility c subject level) n = [req] ∧
          typed MethodPut (baseURL c +:+ "/config/" +:+ subject)
            (compatibilityBody level) req) ∧
  (sentBy (RegisterSchema c subject request) n = [] ∨
   ∃ req rest,
     sentBy (RegisterSchema c subject request) n = req :: rest ∧
     typed MethodPost (baseURL c +:+ "/subjects/" +:+ subject +:+ "/versions")
       (registerBody request) req ∧
     (rest = [] ∨
      ∃ req2, rest = [req2] ∧
              plain MethodGet
                (baseURL c +:+ "/subjects/" +:+ subject +:+ "/versions/latest") req2)).
Proof.
  intros plain typed.
  assert (Hplain : ∀ m url req,
             NewRequestWithContext m url noBody = Ok req → plain m url (addAuth c req)).
  { intros m url req Hb. apply built_request in Hb as (Hm & Hu & Hbody & Hh).
    destruct (addAuth_fields c req) as (Am & Au & Ab & Ah).
    unfold plain. rewrite Am, Au, Ab, Ah, Hh by discriminate. auto. }
  assert (Htyped : ∀ m url body req,
             NewRequestWithContext m url body = Ok req →
             typed m url body (Header_Set "Content-Type" contentType (addAuth c req))).
  { intros m url body req Hb. apply built_request in Hb as (Hm & Hu & Hbody & Hh).
    destruct (addAuth_fields c req) as (Am & Au & Ab & Ah).
    unfold typed. cbn [Header_Set req_Method req_URL req_Body req_Header].
    rewrite Am, Au, Ab, lookup_insert_eq. auto. }
  repeat apply conj.
  - rewrite HealthCheck_sentBy. unfold healthCheckRequest.
    destruct (NewRequestWithContext _ _ _) eqn:E; [right|left]; eauto.
  - rewrite DeleteSubject_sentBy. unfold deleteRequest.
    destruct (NewRequestWithContext _ _ _) eqn:E; [right|left]; eauto.
  - rewrite SetCompatibility_sentBy. unfold compatibilityRequest.
    destruct (NewRequestWithContext _ _ _) eqn:E; [right|left]; eauto.
  - rewrite RegisterSchema_sentBy. unfold registerRequest.
    destruct (NewRequestWithContext _ _ _) eqn:E; [right|left; reflexivity].
    do 2 eexists. split; [reflexivity|]. split; [eauto|].
    destruct (answer n c _) as [resp|]; [|now left].
    destruct (StatusCode resp =? StatusOK); [|now left].
    destruct (Unmarshal_ID _); [|now left].
    unfold latestVersionRequest.
    destruct (NewRequestWithContext MethodGet _ _) eqn:E2; [right|now left]. eauto.
Qed.

(** Every request sent by an operation was built by
    [NewRequestWithContext] and then given the credentials and, for a POST
    or PUT, the content type. *)
Lemma sent_is_built (L : GoLibs) (c : SchemaRegistryClient) (subject level : string)
    (request : RegisterSchemaRequest) (n : Net) (req : Request) :
  req ∈ sentBy (HealthCheck c) n ++ sentBy (RegisterSchema c subject request) n
        ++ sentBy (DeleteSubject c subject) n
        ++ sentBy (SetCompatibility c subject level) n →
  ∃ m url body r,
    NewRequestWithContext m url body = Ok r ∧
    (req = addAuth c r ∨ req = Header_Set "Content-Type" contentType (addAuth c r)).
Proof.
  rewrite HealthCheck_sentBy, RegisterSchema_sentBy, DeleteSubject_sentBy,
    SetCompatibility_sentBy.
  unfold healthCheckRequest, registerRequest, deleteRequest, compatibilityRequest,
    latestVersionRequest.
  rewrite !elem_of_app. intros [Hin | [Hin | [Hin | Hin]]].
  - destruct (NewRequestWithContext _ _ _) eqn:E; [|inversion Hin].
    apply list_elem_of_singleton in Hin as ->. eauto 10.
  - destruct (NewRequestWithContext MethodPost _ _) eqn:E; [|inversion Hin].
    apply elem_of_cons in Hin as [-> | Hin]; [eauto 10|].
    destruct (answer n c _) as [resp|]; [|inversion Hin].
    destruct (StatusCode resp =? StatusOK); [|inversion Hin].
    destruct (Unmarshal_ID _); [|inversion Hin].
    destruct (NewRequestWithContext MethodGet _ _) eqn:E2; [|inversion Hin].
    apply list_elem_of_singleton in Hin as ->. eauto 10.
  - destruct (NewRequestWithContext _ _ _) eqn:E; [|inversion Hin].
    apply list_elem_of_singleton in Hin as ->. eauto 10.
  - destruct (NewRequestWithContext _ _ _) eqn:E; [|inversion Hin].
    apply list_elem_of_singleton in Hin as ->. eauto 10.
Qed.

Lemma built_Authorization (L : GoLibs) (c : SchemaRegistryClient) (m : Method)
    (url : string) (body : Payload) (r req : Request) :
  NewRequestWithContext m url body = Ok r →
  req = addAuth c r ∨ req = Header_Set "Content-Type" contentType (addAuth c r) →
  req_Header req !! "Authorization"
    = if String.eqb (auth_Type (auth c)) "BASIC"
      then Some (headerBasic (Username (auth c)) (Password (auth c)))
      else if String.eqb (auth_Type (auth c)) "BEARER"
      then Some (headerText ("Bearer " +:+ BearerToken (auth c)))
      else None.
Proof.
  intros Hb Hreq. apply built_request in Hb as (_ & _ & _ & Hh).
  destruct Hreq as [-> | ->].
  - apply addAuth_Authorization. now rewrite Hh.
  - cbn [Header_Set req_Header]. rewrite lookup_insert_ne by discriminate.
    apply addAuth_Authorization. now rewrite Hh.
Qed.

(** X2.  Credentials on the wire.  Every request that an operation of a
    client sends, the follow-up read of [RegisterSchema] included, carries
    the Authorization header of the client's auth type: the user name and
    password for BASIC, the word Bearer and the token for BEARER, and no
    Authorization header for any other type (NONE, MTLS). *)
Theorem X2_authorization_on_every_request
    (L : GoLibs) (c : SchemaRegistryClient) (subject level : string)
    (request : RegisterSchemaRequest) (n : Net) (req : Request) :
  req ∈ sentBy (HealthCheck c) n ++ sentBy (RegisterSchema c subject request) n
        ++ sentBy (DeleteSubject c subject) n
        ++ sentBy (SetCompatibility c subject level) n →
  req_Header req !! "Authorization"
    = if String.eqb (auth_Type (auth c)) "BASIC"
      then Some (headerBasic (Username (auth c)) (Password (auth c)))
      else if String.eqb (auth_Type (auth c)) "BEARER"
      then Some (headerText ("Bearer " +:+ BearerToken (auth c)))
      else None.
Proof.
  intros Hin. apply sent_is_built in Hin as (m & url & body & r & Hb & Hreq).
  exact (built_Authorization L c m url body r req Hb Hreq).
Qed.

(** A client with Basic credentials deletes a subject. *)
Lemma X2_witness :
  ∃ req,
    req ∈ sentBy (@HealthCheck modelLibs cases.basicClient) cases.healthyRegistry
          ++ sentBy (@RegisterSchema modelLibs cases.basicClient sample.testSubject
                       sample.registerReq) cases.healthyRegistry
          ++ sentBy (@DeleteSubject modelLibs cases.basicClient sample.testSubject)
               cases.healthyRegistry
          ++ sentBy (@SetCompatibility modelLibs cases.basicClient sample.testSubject
                       "BACKWARD") cases.healthyRegistry ∧
    req_Method req = MethodDelete ∧
    req_Header req !! "Authorization" = Some (headerBasic "alice" "secret").
Proof.
  exists cases.basicDelete.
  match goal with |- ?P ∧ _ => assert (Hin : P) end.
  { apply elem_of_app. right. apply elem_of_app. right. apply elem_of_app. left.
    vm_compute. apply list_elem_of_here. }
  split; [exact Hin|]. split; [reflexivity|].
  exact (X2_authorization_on_every_request modelLibs cases.basicClient sample.testSubject
           "BACKWARD" sample.registerReq cases.healthyRegistry _ Hin).
Defined.

(** X3.  From the Secret to the wire.  A client is built from the
    credentials that [loadAuthConfig] resolves for a registry object.  Every
    request it sends carries, for Basic, the Authorization header made of
    the <<username>> and <<password>> of the secret named by the spec; for
    Bearer, the word Bearer and the <<token>> of the named secret; and for
    any other type, MutualTLS included, no Authorization header. *)
Theorem X3_credentials_reach_the_wire
    (L : GoLibs) (c : apiserver.Cluster) (sr : v1alpha1.SchemaRegistry)
    (a : v1alpha1.AuthConfig) (authConfig : AuthConfig) (srClient : SchemaRegistryClient)
    (subject level : string) (request : RegisterSchemaRequest) (n : Net) (req : Request) :
  let ns := metav1.Namespace (v1alpha1.sr_Meta sr) in
  v1alpha1.Auth (v1alpha1.sr_Spec sr) = Some a →
  controller.loadAuthConfig c sr = (authConfig, None) →
  clientFor sr authConfig = Ok srClient →
  req ∈ sentBy (HealthCheck srClient) n ++ sentBy (RegisterSchema srClient subject request) n
        ++ sentBy (DeleteSubject srClient subject) n
        ++ sentBy (SetCompatibility srClient subject level) n →
  (v1alpha1.Type_ a = v1alpha1.AuthTypeBasic →
   ∃ b secret,
     v1alpha1.BasicAuth a = Some b ∧
     apiserver.Get_Secret (ns, v1alpha1.basic_SecretRef b) c = Ok secret ∧
     req_Header req !! "Authorization"
       = Some (headerBasic (corev1.Data_index secret "username")
                 (corev1.Data_index secret "password"))) ∧
  (v1alpha1.Type_ a = v1alpha1.AuthTypeBearer →
   ∃ b secret,
     v1alpha1.BearerAuth a = Some b ∧
     apiserver.Get_Secret (ns, v1alpha1.bearer_SecretRef b) c = Ok secret ∧
     req_Header req !! "Authorization"
       = Some (headerText ("Bearer " +:+ corev1.Data_index secret "token"))) ∧
  (v1alpha1.Type_ a ≠ v1alpha1.AuthTypeBasic →
   v1alpha1.Type_ a ≠ v1alpha1.AuthTypeBearer →
   req_Header req !! "Authorization" = None).
Proof.
  intros ns Ha Hauth Hclient Hin. subst ns.
  apply sent_is_built in Hin as (m & url & body & r & Hb & Hreq).
  pose proof (built_Authorization L srClient m url body r req Hb Hreq) as Hh.
  unfold clientFor, NewClient in Hclient. injection Hclient as <-. cbn [auth] in Hh.
  unfold controller.loadAuthConfig in Hauth. rewrite Ha in Hauth.
  repeat apply conj.
  - intros Ht. rewrite Ht in Hauth. cbn [String.eqb] in Hauth.
    change (String.eqb v1alpha1.AuthTypeBasic v1alpha1.AuthTypeBasic) with true in Hauth.
    cbv iota in Hauth.
    destruct (v1alpha1.BasicAuth a) as [b|]; [|discriminate].
    destruct (apiserver.Get_Secret _ c) as [secret|] eqn:Hget; [|discriminate].
    injection Hauth as <-. exists b, secret. split; [reflexivity|].
    split; [exact Hget|]. exact Hh.
  - intros Ht. rewrite Ht in Hauth.
    change (String.eqb v1alpha1.AuthTypeBearer v1alpha1.AuthTypeBasic) with false in Hauth.
    change (String.eqb v1alpha1.AuthTypeBearer v1alpha1.AuthTypeBearer) with true in Hauth.
    cbv iota in Hauth.
    destruct (v1alpha1.BearerAuth a) as [b|]; [|discriminate].
    destruct (apiserver.Get_Secret _ c) as [secret|] eqn:Hget; [|discriminate].
    injection Hauth as <-. exists b, secret. split; [reflexivity|].
    split; [exact Hget|]. exact Hh.
  - intros Hnb Hnr. apply String.eqb_neq in Hnb, Hnr. rewrite Hnb, Hnr in Hauth.
    assert (Ht : auth_Type authConfig = v1alpha1.Type_ a).
    { destruct (String.eqb _ v1alpha1.AuthTypeMTLS); [|now injection Hauth as <-].
      destruct (v1alpha1.MTLS a) as [mt|]; [|discriminate].
      destruct (apiserver.Get_Secret _ c) as [secret|]; [|discriminate].
      destruct (X509KeyPair _ _) as [cert|]; [|discriminate].
      destruct (negb _); [|now injection Hauth as <-].
      destruct (apiserver.Get_Secret _ c) as [ca|]; [|discriminate].
      now injection Hauth as <-. }
    rewrite Ht in Hh. unfold v1alpha1.AuthTypeBasic, v1alpha1.AuthTypeBearer in Hnb, Hnr.
    rewrite Hnb, Hnr in Hh. exact Hh.
Qed.

(** The registry object names the secret kafka/creds for Basic; the client
    built for it deletes a subject. *)
Lemma X3_witness :
  let c := fixture.clusterOf [] [] [cases.credentials] in
  let sr := fixture.registryWith (Some (fixture.basicAuth "creds")) in
  @controller.loadAuthConfig modelLibs c sr = (auth cases.basicClient, None) ∧
  clientFor sr (auth cases.basicClient) = Ok cases.basicClient ∧
  req_Header cases.basicDelete !! "Authorization" = Some (headerBasic "alice" "secret").
Proof.
  intros c sr.
  assert (Hauth : @controller.loadAuthConfig modelLibs c sr = (auth cases.basicClient, None))
    by (vm_compute; reflexivity).
  assert (Hclient : clientFor sr (auth cases.basicClient) = Ok cases.basicClient)
    by reflexivity.
  assert (Hin : cases.basicDelete
                  ∈ sentBy (@HealthCheck modelLibs cases.basicClient) cases.healthyRegistry
                    ++ sentBy (@RegisterSchema modelLibs cases.basicClient
                                 sample.testSubject sample.registerReq)
                         cases.healthyRegistry
                    ++ sentBy (@DeleteSubject modelLibs cases.basicClient
                                 sample.testSubject) cases.healthyRegistry
                    ++ sentBy (@SetCompatibility modelLibs cases.basicClient
                                 sample.testSubject "BACKWARD") cases.healthyRegistry).
  { apply elem_of_app. right. apply elem_of_app. right. apply elem_of_app. left.
    vm_compute. apply list_elem_of_here. }
  split; [exact Hauth|]. split; [exact Hclient|].
  destruct (X3_credentials_reach_the_wire modelLibs c sr (fixture.basicAuth "creds")
              (auth cases.basicClient) cases.basicClient sample.testSubject "BACKWARD"
              sample.registerReq cases.healthyRegistry cases.basicDelete
              eq_refl Hauth Hclient Hin) as (Hbasic & _).
  destruct (Hbasic eq_refl) as (b & secret & Hb & Hget & Hh).
  injection Hb as <-. vm_compute in Hget. injection Hget as <-. exact Hh.
Defined.

End WireProperties.

(** ** What [RegisterSchema] returns *)

Section RegisterProperties.
Import schemaclient.

(** X4.  What a result of [RegisterSchema] means.  A success is returned
    only when the registration was answered with status 200 and a body from
    which the identifier decodes; the result carries that identifier and
    never a schema text.  When an error is returned, the read of the latest
    version was not attempted: at most the registration itself, a POST, was
    sent. *)
Theorem X4_RegisterSchema_results
    (L : GoLibs) (c : SchemaRegistryClient) (subject : string)
    (request : RegisterSchemaRequest) (n : Net) :
  (∀ resp, fst (RegisterSchema c subject request n) = Ok resp →
     resp_Schema resp = Go.empty ∧
     ∃ req r, registerRequest c subject request = Ok req ∧
              answer n c req = Ok r ∧ StatusCode r = StatusOK ∧
              Unmarshal_ID (resp_Body r) = Ok (resp_ID resp)) ∧
  (∀ err, fst (RegisterSchema c subject request n) = Err err →
     sentBy (RegisterSchema c subject request) n = [] ∨
     ∃ req, sentBy (RegisterSchema c subject request) n = [req] ∧
            req_Method req = MethodPost).
Proof.
  rewrite RegisterSchema_sentBy.
  destruct (registerRequest c subject request) as [req|e] eqn:Hreq.
  - rewrite (RegisterSchema_run _ _ _ _ _ Hreq). cbv zeta.
    assert (Hpost : req_Method req = MethodPost).
    { unfold registerRequest in Hreq.
      destruct (NewRequestWithContext _ _ _) as [r|] eqn:Hb; [|discriminate].
      injection Hreq as <-. apply built_request in Hb as (Hm & _).
      cbn [Header_Set req_Method]. now rewrite (proj1 (addAuth_fields c r)). }
    destruct (answer n c req) as [r|err0] eqn:Hans.
    + destruct (StatusCode r =? StatusOK) eqn:H200.
      * destruct (Unmarshal_ID (resp_Body r)) as [id|err0] eqn:Hid.
        -- destruct (getLatestVersionForSubject c subject _) as [v n2]. cbn [fst].
           split; [|intros err [=]].
           intros resp [= <-]. split; [reflexivity|].
           exists req, r. apply Z.eqb_eq in H200. auto.
        -- cbn [fst]. split; [intros resp [=]|]. intros err _. right. eauto.
      * cbn [fst]. split; [intros resp [=]|]. intros err _. right. eauto.
    + cbn [fst]. split; [intros resp [=]|]. intros err _. right. eauto.
  - split.
    + intros resp. unfold registerRequest in Hreq. unfold RegisterSchema.
      destruct (NewRequestWithContext _ _ _); [discriminate|]. intros [=].
    + intros err _. now left.
Qed.

(** A registration answered with 503: the error comes back after one
    request; on the registry of the scenario the success carries the
    identifier of the answer. *)
Lemma X4_witness :
  (∃ req, sentBy (@RegisterSchema modelLibs sample.client sample.testSubject
                    sample.registerReq) sample.unavailableRegistry = [req] ∧
          req_Method req = MethodPost) ∧
  (∃ req r, @registerRequest modelLibs sample.client sample.testSubject
              sample.registerReq = Ok req ∧
            answer sample.scenarioRegistry sample.client req = Ok r ∧
            @Unmarshal_ID modelLibs (resp_Body r) = Ok 42).
Proof.
  destruct (X4_RegisterSchema_results modelLibs sample.client sample.testSubject
              sample.registerReq sample.unavailableRegistry) as [_ Hfail].
  destruct (X4_RegisterSchema_results modelLibs sample.client sample.testSubject
              sample.registerReq sample.scenarioRegistry) as [Hok _].
  split.
  - edestruct Hfail as [Hnone | Hone]; [vm_compute; reflexivity | | exact Hone].
    vm_compute in Hnone. discriminate Hnone.
  - edestruct Hok as (_ & req & r & Hreq & Hans & _ & Hid); [vm_compute; reflexivity|].
    exists req, r. auto.
Defined.

End RegisterProperties.

(** ** The client timeout and the watches *)

Section TimeoutProperties.
Import metav1 v1alpha1 apiserver runtime controller.

(** X5.  The timeout of the client.  The timeout a reconciler hands to
    [NewClient] is never zero: a spec timeout of 0 gives 30 seconds, and so
    does a spec timeout whose product with one second wraps to 0 in 64 bits.
    A spec timeout between 1 and 9223372036 seconds is taken as it is. *)
Theorem X5_clientTimeout_never_zero (sr : SchemaRegistry) :
  clientTimeout sr ≠ 0 ∧
  (mul64 (spec_Timeout (sr_Spec sr)) Second = 0 → clientTimeout sr = 30 * Second) ∧
  (spec_Timeout (sr_Spec sr) = 0 → clientTimeout sr = 30 * Second) ∧
  (1 <= spec_Timeout (sr_Spec sr) <= 9223372036 →
     clientTimeout sr = spec_Timeout (sr_Spec sr) * Second).
Proof.
  unfold clientTimeout. repeat apply conj.
  - destruct (mul64 _ _ =? 0) eqn:E; [discriminate|]. now apply Z.eqb_neq in E.
  - intros ->. reflexivity.
  - intros ->. reflexivity.
  - intros Hrange.
    assert (Hmul : mul64 (spec_Timeout (sr_Spec sr)) Second
                   = spec_Timeout (sr_Spec sr) * Second).
    { unfold mul64, wrap64, Second. rewrite Z.mod_small; lia. }
    rewrite Hmul. destruct (_ =? 0) eqn:E; [|reflexivity].
    apply Z.eqb_eq in E. unfold Second in E. lia.
Qed.

(** A timeout of five seconds is kept; a timeout of 2^55 seconds wraps to
    zero and becomes thirty seconds. *)
Lemma X5_witness :
  let wrapping :=
    {| sr_Meta := sr_Meta fixture.registry;
       sr_Spec := {| URL := "http://registry:8081"; Auth := None;
                     spec_InsecureSkipVerify := false; spec_Timeout := 2 ^ 55 |};
       sr_Status := sr_Status fixture.registry |} in
  clientTimeout fixture.registry = 5 * Second ∧
  clientTimeout wrapping = 30 * Second.
Proof.
  intros wrapping.
  destruct (X5_clientTimeout_never_zero fixture.registry) as (_ & _ & _ & Hkeep).
  destruct (X5_clientTimeout_never_zero wrapping) as (_ & Hwrap & _).
  split.
  - apply Hkeep. vm_compute. split; discriminate.
  - apply Hwrap. vm_compute. reflexivity.
Defined.

End TimeoutProperties.

Section WatchProperties.
Import metav1 v1alpha1 corev1 apiserver runtime controller.

(** X6.  What a change of a registry enqueues.  When the listing is
    rejected nothing is enqueued.  Otherwise the requests are those of the
    Schemas stored in the namespace of the registry whose reference has the
    name of the registry, whatever the namespace of the reference says: a
    Schema of that namespace is enqueued even when its reference points to
    another namespace. *)
Theorem X6_findSchemasForRegistry_enqueues (registry : SchemaRegistry) (c : Cluster) :
  let ns := Namespace (sr_Meta registry) in
  (∀ err, rejected c VerbList KindSchema (ns, Go.empty) = Some err →
     SchemaReconciler.findSchemasForRegistry registry c = []) ∧
  (rejected c VerbList KindSchema (ns, Go.empty) = None → ns ≠ Go.empty →
     ∀ key, key ∈ SchemaReconciler.findSchemasForRegistry registry c ↔
       ∃ k schema, schemas c !! k = Some schema ∧
                   Namespace (schema_Meta schema) = ns ∧
                   rref_Name (RegistryRef (schema_Spec schema)) = Name (sr_Meta registry) ∧
                   key = (Namespace (schema_Meta schema), Name (schema_Meta schema))).
Proof.
  intros ns. split.
  - intros err Hrej. unfold SchemaReconciler.findSchemasForRegistry, List_Schemas.
    fold ns. now rewrite Hrej.
  - intros Hlist Hns key. now apply findSchemasForRegistry_elem.
Qed.

(** A Schema of namespace kafka whose reference names the registry under
    another namespace is enqueued when kafka/my-schema-registry changes. *)
Lemma X6_witness :
  let stray :=
    fixture.schemaIn "kafka" "stray-schema"
      {| rref_Name := "my-schema-registry"; rref_Namespace := "other" |} None [] in
  ("kafka", "stray-schema")
    ∈ SchemaReconciler.findSchemasForRegistry fixture.registry
        (fixture.clusterOf [stray] [fixture.registry] []).
Proof.
  intros stray.
  apply (proj2 (X6_findSchemasForRegistry_enqueues fixture.registry
                  (fixture.clusterOf [stray] [fixture.registry] []))).
  - reflexivity.
  - discriminate.
  - exists ("kafka", "stray-schema"), stray. repeat split; reflexivity.
Defined.

Lemma sr_requestsFor_elem (name : string) (items : list SchemaRegistry)
    (key : string * string) :
  key ∈ SchemaRegistryReconciler.requestsFor name items ↔
  ∃ sr, sr ∈ items ∧
        SchemaRegistryReconciler.schemaRegistryReferencesSecret sr name = true ∧
        key = (Namespace (sr_Meta sr), Name (sr_Meta sr)).
Proof.
  induction items as [|s items IH]; simpl.
  - split; [intros Hin; inversion Hin | intros (? & Hin & _); inversion Hin].
  - destruct (SchemaRegistryReconciler.schemaRegistryReferencesSecret s name) eqn:E.
    + rewrite elem_of_cons, IH. split.
      * intros [-> | (x & Hx & Hn & Hk)].
        -- exists s. split; [left|]; auto.
        -- exists x. split; [right|]; auto.
      * intros (x & Hx & Hn & Hk). apply elem_of_cons in Hx as [-> | Hx].
        -- left. exact Hk.
        -- right. eauto.
    + rewrite IH. split.
      * intros (x & Hx & Hn & Hk). exists x. split; [right|]; auto.
      * intros (x & Hx & Hn & Hk). apply elem_of_cons in Hx as [-> | Hx].
        -- congruence.
        -- eauto.
Qed.

(** X7.  What a change of a Secret enqueues.  When the listing is rejected
    nothing is enqueued.  Otherwise the requests are those of the registries
    stored in the namespace of the Secret whose selected auth strategy names
    the Secret: the secret of Basic, the secret of Bearer, or one of the two
    secrets of MutualTLS.  A secret named by the block of a strategy that is
    not the selected one does not count, nor does any secret when there is no
    auth block. *)
Theorem X7_findSchemaRegistriesForSecret_enqueues
    (secretNamespace secretName : string) (c : Cluster) :
  (∀ err, rejected c VerbList KindSchemaRegistry (secretNamespace, Go.empty) = Some err →
     SchemaRegistryReconciler.findSchemaRegistriesForSecret secretNamespace secretName c
       = []) ∧
  (rejected c VerbList KindSchemaRegistry (secretNamespace, Go.empty) = None →
   secretNamespace ≠ Go.empty →
   ∀ key,
     key ∈ SchemaRegistryReconciler.findSchemaRegistriesForSecret
             secretNamespace secretName c ↔
     ∃ k sr a,
       registries c !! k = Some sr ∧
       Namespace (sr_Meta sr) = secretNamespace ∧
       key = (Namespace (sr_Meta sr), Name (sr_Meta sr)) ∧
       Auth (sr_Spec sr) = Some a ∧
       ((Type_ a = AuthTypeBasic ∧
         ∃ b, BasicAuth a = Some b ∧ basic_SecretRef b = secretName) ∨
        (Type_ a = AuthTypeBearer ∧
         ∃ b, BearerAuth a = Some b ∧ bearer_SecretRef b = secretName) ∨
        (Type_ a = AuthTypeMTLS ∧
         ∃ m, MTLS a = Some m ∧
              (CertSecretRef m = secretName ∨ CASecretRef m = secretName)))).
Proof.
  assert (Href : ∀ sr,
    SchemaRegistryReconciler.schemaRegistryReferencesSecret sr secretName = true ↔
    ∃ a, Auth (sr_Spec sr) = Some a ∧
      ((Type_ a = AuthTypeBasic ∧
        ∃ b, BasicAuth a = Some b ∧ basic_SecretRef b = secretName) ∨
       (Type_ a = AuthTypeBearer ∧
        ∃ b, BearerAuth a = Some b ∧ bearer_SecretRef b = secretName) ∨
       (Type_ a = AuthTypeMTLS ∧
        ∃ m, MTLS a = Some m ∧
             (CertSecretRef m = secretName ∨ CASecretRef m = secretName)))).
  { intros sr. unfold SchemaRegistryReconciler.schemaRegistryReferencesSecret.
    destruct (Auth (sr_Spec sr)) as [a|]; [|split; [discriminate | intros (? & [=] & _)]].
    destruct (String.eqb (Type_ a) AuthTypeBasic) eqn:E1;
      [|destruct (String.eqb (Type_ a) AuthTypeBearer) eqn:E2;
        [|destruct (String.eqb (Type_ a) AuthTypeMTLS) eqn:E3]].
    - apply String.eqb_eq in E1. split.
      + destruct (BasicAuth a) as [b|] eqn:Hb; [|discriminate].
        intros Heq. apply String.eqb_eq in Heq. exists a. split; [reflexivity|].
        left. eauto.
      + intros (a' & [= <-] & [(_ & b & -> & <-) | [(Ht & _) | (Ht & _)]]).
        * apply String.eqb_refl.
        * rewrite E1 in Ht. discriminate.
        * rewrite E1 in Ht. discriminate.
    - apply String.eqb_eq in E2. apply String.eqb_neq in E1. split.
      + destruct (BearerAuth a) as [b|] eqn:Hb; [|discriminate].
        intros Heq. apply String.eqb_eq in Heq. exists a. split; [reflexivity|].
        right. left. eauto.
      + intros (a' & [= <-] & [(Ht & _) | [(_ & b & -> & <-) | (Ht & _)]]).
        * contradiction.
        * apply String.eqb_refl.
        * rewrite E2 in Ht. discriminate.
    - apply String.eqb_eq in E3. apply String.eqb_neq in E1, E2. split.
      + destruct (MTLS a) as [m|] eqn:Hm; [|discriminate].
        intros Heq. apply orb_true_iff in Heq. exists a. split; [reflexivity|].
        right. right. split; [exact E3|]. exists m. split; [exact Hm|].
        destruct Heq as [Heq|Heq]; apply String.eqb_eq in Heq; auto.
      + intros (a' & [= <-] & [(Ht & _) | [(Ht & _) | (_ & m & -> & Hor)]]).
        * contradiction.
        * contradiction.
        * apply orb_true_iff. destruct Hor as [<- | <-];
            [left | right]; apply String.eqb_refl.
    - apply String.eqb_neq in E1, E2, E3. split; [discriminate|].
      intros (a' & [= <-] & [(Ht & _) | [(Ht & _) | (Ht & _)]]); contradiction. }
  split.
  - intros err Hrej.
    unfold SchemaRegistryReconciler.findSchemaRegistriesForSecret, List_SchemaRegistries.
    now rewrite Hrej.
  - intros Hlist Hns key.
    unfold SchemaRegistryReconciler.findSchemaRegistriesForSecret, List_SchemaRegistries.
    rewrite Hlist, sr_requestsFor_elem. apply String.eqb_neq in Hns. rewrite Hns. simpl.
    split.
    + intros (sr & Hin & Href' & Hkey).
      apply list_elem_of_In, filter_In in Hin as [Hin Hsame].
      apply list_elem_of_In, list_elem_of_fmap in Hin as ([k s] & -> & Hin).
      apply elem_of_map_to_list in Hin. apply String.eqb_eq in Hsame.
      apply Href in Href' as (a & Ha & Hcases).
      exists k, s, a. auto.
    + intros (k & sr & a & Hk & Hsame & Hkey & Ha & Hcases).
      exists sr. split; [|split; [|exact Hkey]].
      * apply list_elem_of_In, filter_In. split.
        -- apply list_elem_of_In, list_elem_of_fmap. exists (k, sr).
           split; [reflexivity|]. now apply elem_of_map_to_list.
        -- now apply String.eqb_eq.
      * apply Href. eauto.
Qed.

(** The registry kafka/my-schema-registry uses Basic credentials from the
    secret creds: a change of kafka/creds enqueues it. *)
Lemma X7_witness :
  let sr := fixture.registryWith (Some (fixture.basicAuth "creds")) in
  ("kafka", "my-schema-registry")
    ∈ SchemaRegistryReconciler.findSchemaRegistriesForSecret "kafka" "creds"
        (fixture.clusterOf [] [sr] []).
Proof.
  intros sr.
  apply (proj2 (X7_findSchemaRegistriesForSecret_enqueues "kafka" "creds"
                  (fixture.clusterOf [] [sr] []))).
  - reflexivity.
  - discriminate.
  - exists ("kafka", "my-schema-registry"), sr, (fixture.basicAuth "creds").
    repeat split. left. split; [reflexivity|]. eexists. split; reflexivity.
Defined.

End WatchProperties.

Section SecretProperties.
Import metav1 v1alpha1 corev1 apiserver runtime controller.

Lemma Get_Secret_same (c c' : Cluster) (key : string * string) :
  rejected c' = rejected c → secrets c' !! key = secrets c !! key →
  Get_Secret key c' = Get_Secret key c.
Proof. intros Hr Hs. unfold Get_Secret, Get. now rewrite Hr, Hs. Qed.

(** X8.  The resolver reads only the secrets the watch knows about.  Two
    clusters reject the same requests and hold the same secrets, except
    possibly the secret [name] in the namespace of the registry.  If
    [schemaRegistryReferencesSecret] says that the registry does not
    reference [name], [loadAuthConfig] returns the same bundle and the same
    error in both: a secret whose change does not enqueue the registry has
    no influence on its credentials. *)
Theorem X8_unreferenced_secret_is_not_read
    (L : schemaclient.GoLibs) (c c' : Cluster) (sr : SchemaRegistry) (name : string) :
  rejected c' = rejected c →
  (∀ key, key ≠ (Namespace (sr_Meta sr), name) → secrets c' !! key = secrets c !! key) →
  SchemaRegistryReconciler.schemaRegistryReferencesSecret sr name = false →
  loadAuthConfig c' sr = loadAuthConfig c sr.
Proof.
  intros Hrej Hsec Href.
  assert (Hget : ∀ ref, String.eqb ref name = false →
            Get_Secret (Namespace (sr_Meta sr), ref) c'
              = Get_Secret (Namespace (sr_Meta sr), ref) c).
  { intros ref Hne. apply Get_Secret_same; [exact Hrej|]. apply Hsec.
    apply String.eqb_neq in Hne. intros [=]. contradiction. }
  unfold SchemaRegistryReconciler.schemaRegistryReferencesSecret in Href.
  unfold loadAuthConfig.
  destruct (Auth (sr_Spec sr)) as [a|]; [|reflexivity].
  destruct (String.eqb (Type_ a) AuthTypeBasic);
    [|destruct (String.eqb (Type_ a) AuthTypeBearer);
      [|destruct (String.eqb (Type_ a) AuthTypeMTLS); [|reflexivity]]].
  - destruct (BasicAuth a) as [b|]; [|reflexivity]. now rewrite (Hget _ Href).
  - destruct (BearerAuth a) as [b|]; [|reflexivity]. now rewrite (Hget _ Href).
  - destruct (MTLS a) as [m|]; [|reflexivity].
    apply orb_false_iff in Href as [Hcert Hca].
    now rewrite (Hget _ Hcert), (Hget _ Hca).
Qed.

(** The registry takes its credentials from the secret creds; adding a
    secret other to its namespace leaves the bundle as it is. *)
Lemma X8_witness :
  let sr := fixture.registryWith (Some (fixture.basicAuth "creds")) in
  let creds := fixture.secretOf [("username", "alice"); ("password", "secret")] in
  let c := fixture.clusterOf [] [sr] [("kafka", "creds", creds)] in
  let c' :=
    fixture.clusterOf [] [sr]
      [("kafka", "creds", creds); ("kafka", "other", fixture.secretOf [])] in
  @loadAuthConfig modelLibs c' sr = @loadAuthConfig modelLibs c sr ∧
  snd (@loadAuthConfig modelLibs c sr) = None.
Proof.
  intros sr creds c c'. split; [|reflexivity].
  apply (X8_unreferenced_secret_is_not_read modelLibs c c' sr "other").
  - reflexivity.
  - intros key Hkey. unfold c', c, fixture.clusterOf. cbn [secrets list_to_map foldr].
    cbn [uncurry]. rewrite (insert_insert_ne (M := gmap (string * string))) by discriminate.
    rewrite lookup_insert_ne; [reflexivity|]. intros <-. now apply Hkey.
  - reflexivity.
Defined.

End SecretProperties.

(** ** The success path of the registration *)

Section SuccessFacts.
Context `{!schemaclient.GoLibs}.
Import metav1 v1alpha1 corev1 apiserver runtime controller.
Import controller.SchemaReconciler.

(** The registration path of [Reconcile] when the registration succeeds and
    the API server accepts the status. *)
Lemma reconcileRegistration_registered (schema : Schema) (w : World)
    (srClient : schemaclient.SchemaRegistryClient) (resp : schemaclient.SchemaResponse)
    (n1 : schemaclient.Net) :
  let key := ObjectKeyFromObject (schema_Meta schema) in
  let subject := Subject (schema_Spec schema) in
  schemas (cluster w) !! key = Some schema →
  rejected (cluster w) VerbGet KindSchema key = None →
  rejected (cluster w) VerbUpdateStatus KindSchema key = None →
  buildClient schema (cluster w) = Ok srClient →
  schemaclient.RegisterSchema srClient subject (registerReqOf schema) (net w)
    = (Ok resp, n1) →
  reconcileRegistration key schema w =
    ((noRequeue, None),
     {| cluster := cluster (storing key (markRegistered (clock w) resp schema) w);
        net := snd (compatibilityStep srClient schema n1);
        clock := clock w;
        log :=
          (match fst (compatibilityStep srClient schema n1) with
           | Some err =>
             (log w ++ [logInfo "Registering schema"
                          [("subject", subject); ("type", SchemaType (schema_Spec schema))]])
               ++ [logError err "Failed to set compatibility level"
                     [("subject", subject);
                      ("level", CompatibilityLevel (schema_Spec schema))]]
           | None =>
             log w ++ [logInfo "Registering schema"
                         [("subject", subject); ("type", SchemaType (schema_Spec schema))]]
           end)
          ++ [logInfo "Schema successfully registered"
                [("subject", subject);
                 ("schemaID", itoa (schemaclient.resp_ID resp));
                 ("version", itoa (schemaclient.resp_Version resp))]] |}).
Proof.
  intros key subject Hs Hget Hupd Hbuild Hreg. subst key subject.
  unfold reconcileRegistration, bind at 1, read. rewrite Hbuild.
  unfold bind at 1, logf at 1. unfold bind at 1, remote. cbn [net].
  fold (registerReqOf schema). rewrite Hreg.
  unfold bind at 1. unfold compatibilityStep.
  destruct (negb _).
  - unfold bind at 1, remote. cbn [net cluster clock log].
    destruct (schemaclient.SetCompatibility srClient _ _ n1) as [[err|] n2];
      cbn [fst snd]; [unfold logf at 1 | unfold ret at 1]; cbv beta iota zeta;
      unfold bind at 1, Get_Schema; cbv beta iota zeta; cbn [cluster];
      rewrite (Get_stored _ _ _ _ _ Hs Hget);
      unfold bind, Now, api; cbn [cluster clock];
      fold (markRegistered (clock w) resp schema);
      unfold UpdateStatus_Schema;
      change (ObjectKeyFromObject (schema_Meta (markRegistered (clock w) resp schema)))
        with (ObjectKeyFromObject (schema_Meta schema));
      rewrite Hupd, Hs; reflexivity.
  - unfold ret at 1. cbv beta iota zeta. cbn [fst snd].
    unfold bind at 1, Get_Schema; cbv beta iota zeta; cbn [cluster];
      rewrite (Get_stored _ _ _ _ _ Hs Hget);
      unfold bind, Now, api; cbn [cluster clock];
      fold (markRegistered (clock w) resp schema);
      unfold UpdateStatus_Schema;
      change (ObjectKeyFromObject (schema_Meta (markRegistered (clock w) resp schema)))
        with (ObjectKeyFromObject (schema_Meta schema));
      rewrite Hupd, Hs; reflexivity.
Qed.

(** The whole of [Reconcile] in that case: the finalizer is attached first
    when it is missing. *)
Lemma Reconcile_registered (schema : Schema) (w : World)
    (srClient : schemaclient.SchemaRegistryClient) (resp : schemaclient.SchemaResponse)
    (n1 : schemaclient.Net) :
  let key := ObjectKeyFromObject (schema_Meta schema) in
  schemas (cluster w) !! key = Some schema →
  IsZeroPtr (DeletionTimestamp (schema_Meta schema)) = true →
  (∀ verb, rejected (cluster w) verb KindSchema key = None) →
  buildClient schema (cluster w) = Ok srClient →
  schemaclient.RegisterSchema srClient (Subject (schema_Spec schema))
    (registerReqOf schema) (net w) = (Ok resp, n1) →
  ∃ w' attached,
    Reconcile key w = ((noRequeue, None), w') ∧
    (attached = schema ∨ attached = withFinalizer schema) ∧
    controllerutil.ContainsFinalizer (Finalizers (schema_Meta attached)) schemaFinalizer
      = true ∧
    schemas (cluster w') !! key = Some (markRegistered (clock w) resp attached) ∧
    net w' = snd (compatibilityStep srClient schema n1) ∧
    (∀ err, fst (compatibilityStep srClient schema n1) = Some err →
       logError err "Failed to set compatibility level"
         [("subject", Subject (schema_Spec schema));
          ("level", CompatibilityLevel (schema_Spec schema))] ∈ log w').
Proof.
  intros key Hs Hlive Hacc Hbuild Hreg. subst key.
  rewrite (Reconcile_attach w schema Hs Hlive (Hacc VerbGet) (Hacc VerbUpdate)).
  destruct (controllerutil.ContainsFinalizer _ _) eqn:Hfin.
  - rewrite (reconcileRegistration_registered schema w srClient resp n1 Hs
               (Hacc VerbGet) (Hacc VerbUpdateStatus) Hbuild Hreg).
    do 2 eexists. split; [reflexivity|]. split; [left; reflexivity|].
    split; [exact Hfin|]. cbn [cluster net log storing schemas set_schemas].
    split; [apply lookup_insert_eq|]. split; [reflexivity|].
    intros err ->. rewrite !elem_of_app, !list_elem_of_singleton. auto.
  - pose proof (reconcileRegistration_registered (withFinalizer schema)
                  (storing (ObjectKeyFromObject (schema_Meta schema)) (withFinalizer schema) w)
                  srClient resp n1) as Hrun.
    cbv zeta in Hrun.
    change (ObjectKeyFromObject (schema_Meta (withFinalizer schema)))
      with (ObjectKeyFromObject (schema_Meta schema)) in Hrun.
    rewrite Hrun.
    + do 2 eexists. split; [reflexivity|]. split; [right; reflexivity|].
      split; [apply ContainsFinalizer_Add|].
      cbn [cluster net log storing schemas set_schemas].
      split; [apply lookup_insert_eq|]. split; [reflexivity|].
      intros err Herr.
      change (compatibilityStep srClient (withFinalizer schema))
        with (compatibilityStep srClient schema).
      rewrite Herr. rewrite !elem_of_app, !list_elem_of_singleton. auto.
    + apply lookup_insert_eq.
    + exact (Hacc VerbGet).
    + exact (Hacc VerbUpdateStatus).
    + rewrite <- Hbuild. apply buildClient_frame; reflexivity.
    + exact Hreg.
Qed.

End SuccessFacts.

Section SuccessProperties.
Import metav1 v1alpha1 corev1 apiserver runtime controller.
Import controller.SchemaReconciler.

(** X9.  A successful registration.  A Schema that is not under deletion is
    reconciled while the API server accepts the reconciler's requests on it,
    a client is built and [RegisterSchema] returns a response.  Then the
    reconcile returns without error and without requeue, and the stored
    Schema carries the finalizer, has its spec unchanged, has schemaID and
    version of the response and registeredAt of the clock, has
    observedGeneration equal to its generation, and has the Ready condition
    True with reason Registered, observed at that generation; conditions of
    other types are as before. *)
Theorem X9_successful_registration
    (L : schemaclient.GoLibs) (w : World) (schema : Schema)
    (srClient : schemaclient.SchemaRegistryClient) (resp : schemaclient.SchemaResponse) :
  let key := ObjectKeyFromObject (schema_Meta schema) in
  schemas (cluster w) !! key = Some schema →
  IsZeroPtr (DeletionTimestamp (schema_Meta schema)) = true →
  (∀ verb, rejected (cluster w) verb KindSchema key = None) →
  buildClient schema (cluster w) = Ok srClient →
  fst (schemaclient.RegisterSchema srClient (Subject (schema_Spec schema))
         (registerReqOf schema) (net w)) = Ok resp →
  ∃ w' stored ready,
    Reconcile key w = ((noRequeue, None), w') ∧
    schemas (cluster w') !! key = Some stored ∧
    controllerutil.ContainsFinalizer (Finalizers (schema_Meta stored)) schemaFinalizer
      = true ∧
    schema_Spec stored = schema_Spec schema ∧
    SchemaID (schema_Status stored) = Some (schemaclient.resp_ID resp) ∧
    Version (schema_Status stored) = Some (schemaclient.resp_Version resp) ∧
    RegisteredAt (schema_Status stored) = Some (clock w) ∧
    ObservedGeneration (schema_Status stored) = Generation (schema_Meta stored) ∧
    Generation (schema_Meta stored) = Generation (schema_Meta schema) ∧
    FindStatusCondition (Conditions (schema_Status stored)) "Ready" = Some ready ∧
    cond_Status ready = ConditionTrue ∧
    Reason ready = "Registered" ∧
    Message ready
      = "Schema registered with ID " +:+ itoa (schemaclient.resp_ID resp)
          +:+ ", version " +:+ itoa (schemaclient.resp_Version resp) ∧
    cond_ObservedGeneration ready = Generation (schema_Meta schema) ∧
    (∀ t, t ≠ "Ready" →
       FindStatusCondition (Conditions (schema_Status stored)) t
         = FindStatusCondition (Conditions (schema_Status schema)) t).
Proof.
  intros key Hs Hlive Hacc Hbuild Hreg.
  destruct (schemaclient.RegisterSchema srClient _ _ (net w)) as [r n1] eqn:Hrun.
  cbn [fst] in Hreg. subst r.
  destruct (Reconcile_registered schema w srClient resp n1 Hs Hlive Hacc Hbuild Hrun)
    as (w' & attached & Hrec & Hatt & Hfin & Hstored & _).
  pose proof (SetStatusCondition_find (clock w) (Conditions (schema_Status schema))
                (readyCondition ConditionTrue "Registered"
                   ("Schema registered with ID " +:+ itoa (schemaclient.resp_ID resp)
                      +:+ ", version " +:+ itoa (schemaclient.resp_Version resp))
                   (Generation (schema_Meta schema))))
    as (ready & Hfind & Hst & Hre & Hme & Hgen).
  pose proof (SetStatusCondition_other (clock w) (Conditions (schema_Status schema))
                (readyCondition ConditionTrue "Registered"
                   ("Schema registered with ID " +:+ itoa (schemaclient.resp_ID resp)
                      +:+ ", version " +:+ itoa (schemaclient.resp_Version resp))
                   (Generation (schema_Meta schema)))) as Hother.
  exists w', (markRegistered (clock w) resp attached), ready.
  split; [exact Hrec|]. split; [exact Hstored|]. split; [exact Hfin|].
  destruct Hatt as [-> | ->]; repeat split; auto.
Qed.

(** The Schema kafka/user-schema, new and without finalizer, is reconciled
    against the registry of the scenario. *)
Lemma X9_witness :
  let schema := fixture.schemaIn "kafka" "user-schema" fixture.sameNamespaceRef None [] in
  let w :=
    fixture.worldOf (fixture.clusterOf [schema] [fixture.registry] [])
      sample.scenarioRegistry in
  ∃ w' stored,
    @Reconcile modelLibs ("kafka", "user-schema") w = ((noRequeue, None), w') ∧
    schemas (cluster w') !! ("kafka", "user-schema") = Some stored ∧
    Finalizers (schema_Meta stored) = [schemaFinalizer] ∧
    schema_Status stored =
      {| SchemaID := Some 42; Version := Some 3; RegisteredAt := Some 1700000000;
         ObservedGeneration := 1;
         Conditions :=
           [{| cond_Type := "Ready"; cond_Status := ConditionTrue;
               cond_ObservedGeneration := 1; LastTransitionTime := 1700000000;
               Reason := "Registered";
               Message := "Schema registered with ID 42, version 3" |}] |}.
Proof.
  intros schema w.
  edestruct (X9_successful_registration modelLibs w schema sample.client)
    as (w' & stored & ready & Hrun & Hstored & _).
  - reflexivity.
  - reflexivity.
  - intros verb. reflexivity.
  - reflexivity.
  - vm_compute. reflexivity.
  - exists w', stored. split; [exact Hrun|].
    pose proof (f_equal snd Hrun) as Hw. cbn [snd] in Hw. subst w'.
    split; [exact Hstored|].
    vm_compute in Hstored. injection Hstored as <-. split; reflexivity.
Defined.

(** X10.  Setting the compatibility level is best effort.  In a successful
    registration as above, the PUT of the compatibility level is sent right
    after the registration when the spec declares a level, and nothing is
    sent when it declares none.  When the PUT fails, the failure is logged
    and changes nothing else: the reconcile still returns without error and
    the stored Ready condition is still True with reason Registered. *)
Theorem X10_compatibility_is_best_effort
    (L : schemaclient.GoLibs) (w : World) (schema : Schema)
    (srClient : schemaclient.SchemaRegistryClient) (resp : schemaclient.SchemaResponse)
    (n1 : schemaclient.Net) :
  let key := ObjectKeyFromObject (schema_Meta schema) in
  let subject := Subject (schema_Spec schema) in
  let level := CompatibilityLevel (schema_Spec schema) in
  schemas (cluster w) !! key = Some schema →
  IsZeroPtr (DeletionTimestamp (schema_Meta schema)) = true →
  (∀ verb, rejected (cluster w) verb KindSchema key = None) →
  buildClient schema (cluster w) = Ok srClient →
  schemaclient.RegisterSchema srClient subject (registerReqOf schema) (net w)
    = (Ok resp, n1) →
  ∃ w' stored ready,
    Reconcile key w = ((noRequeue, None), w') ∧
    schemas (cluster w') !! key = Some stored ∧
    FindStatusCondition (Conditions (schema_Status stored)) "Ready" = Some ready ∧
    cond_Status ready = ConditionTrue ∧ Reason ready = "Registered" ∧
    (level = Go.empty → net w' = n1) ∧
    (level ≠ Go.empty →
       net w' = snd (schemaclient.SetCompatibility srClient subject level n1) ∧
       ∀ err, fst (schemaclient.SetCompatibility srClient subject level n1) = Some err →
              logError err "Failed to set compatibility level"
                [("subject", subject); ("level", level)] ∈ log w').
Proof.
  intros key subject level Hs Hlive Hacc Hbuild Hrun.
  destruct (Reconcile_registered schema w srClient resp n1 Hs Hlive Hacc Hbuild Hrun)
    as (w' & attached & Hrec & Hatt & _ & Hstored & Hnet & Hlog).
  pose proof (SetStatusCondition_find (clock w) (Conditions (schema_Status schema))
                (readyCondition ConditionTrue "Registered"
                   ("Schema registered with ID " +:+ itoa (schemaclient.resp_ID resp)
                      +:+ ", version " +:+ itoa (schemaclient.resp_Version resp))
                   (Generation (schema_Meta schema))))
    as (ready & Hfind & Hst & Hre & _).
  exists w', (markRegistered (clock w) resp attached), ready.
  split; [exact Hrec|]. split; [exact Hstored|].
  split; [destruct Hatt as [-> | ->]; exact Hfind|].
  split; [exact Hst|]. split; [exact Hre|].
  unfold compatibilityStep in Hnet, Hlog. fold level subject in Hnet, Hlog.
  split.
  - intros Hnone. rewrite Hnone in Hnet. exact Hnet.
  - intros Hsome. apply String.eqb_neq in Hsome. rewrite Hsome in Hnet, Hlog.
    split; [exact Hnet | exact Hlog].
Qed.

(** The Schema declares the level BACKWARD and the registry of the scenario
    answers the PUT with 404: the failure is logged and the Schema is
    Ready. *)
Lemma X10_witness :
  let schema := cases.leveledSchema [schemaFinalizer] in
  let w :=
    fixture.worldOf (fixture.clusterOf [schema] [fixture.registry] [])
      sample.scenarioRegistry in
  ∃ w' stored,
    @Reconcile modelLibs ("kafka", "user-schema") w = ((noRequeue, None), w') ∧
    schemas (cluster w') !! ("kafka", "user-schema") = Some stored ∧
    (cond_Status <$> FindStatusCondition (Conditions (schema_Status stored)) "Ready")
      = Some ConditionTrue ∧
    logError (errorString "set compatibility failed with status 404: Not Found")
      "Failed to set compatibility level"
      [("subject", "users-value"); ("level", "BACKWARD")] ∈ log w'.
Proof.
  intros schema w.
  edestruct (X10_compatibility_is_best_effort modelLibs w schema sample.client)
    as (w' & stored & ready & Hrun & Hstored & Hfind & Hst & _ & _ & Hput).
  - reflexivity.
  - reflexivity.
  - intros verb. reflexivity.
  - reflexivity.
  - vm_compute. reflexivity.
  - exists w', stored. split; [exact Hrun|]. split; [exact Hstored|].
    split; [rewrite Hfind; cbn; now rewrite Hst|].
    destruct Hput as [_ Hlog]; [discriminate|].
    apply Hlog. vm_compute. reflexivity.
Defined.

End SuccessProperties.

(** ** Invariants of a reconcile *)

Section InvariantRules.
Import metav1 v1alpha1 corev1 apiserver runtime controller.

Lemma keeps_ret {A} (I : World → Prop) (a : A) : keeps I (ret a).
Proof. intros w Hw. exact Hw. Qed.

Lemma keeps_bind {A B} (I : World → Prop) (m : State World A) (k : A → State World B) :
  keeps I m → (∀ a, keeps I (k a)) → keeps I (x <- m ;; k x).
Proof.
  intros Hm Hk w Hw. unfold bind. specialize (Hm w Hw).
  destruct (m w) as [a w1]. apply Hk. exact Hm.
Qed.

(** After a read the rest runs in the world that was read. *)
Lemma keeps_read {A B} (I : World → Prop) (f : Cluster → A) (k : A → State World B) :
  (∀ w, I w → keeps I (k (f (cluster w)))) → keeps I (x <- read f ;; k x).
Proof. intros Hk w Hw. unfold bind, read. apply (Hk w Hw w Hw). Qed.

Lemma keeps_Now {B} (I : World → Prop) (k : Time → State World B) :
  (∀ now, keeps I (k now)) → keeps I (x <- Now ;; k x).
Proof. intros Hk w Hw. unfold bind, Now. apply (Hk (clock w) w Hw). Qed.

End InvariantRules.

Section SchemaInvariant.
Context `{!schemaclient.GoLibs}.
Import metav1 v1alpha1 corev1 apiserver runtime controller.
Import controller.SchemaReconciler.

(** An invariant [I] of the world, a property [P] of the fetched object and
    a property [C] of the client built for it, kept by the individual
    effects of the reconciler. *)
Variables (key : string * string) (I : World → Prop) (P : Schema → Prop)
  (C : Schema → schemaclient.SchemaRegistryClient → Prop).
Hypothesis I_log : ∀ e, keeps I (logf e).
Hypothesis P_key : ∀ obj, P obj → ObjectKeyFromObject (schema_Meta obj) = key.
Hypothesis P_get : ∀ w obj, I w → Get_Schema key (cluster w) = Ok obj → P obj.
Hypothesis P_same :
  ∀ a b, P a → P b →
         DeletionTimestamp (schema_Meta a) = DeletionTimestamp (schema_Meta b).
Hypothesis P_client :
  ∀ w obj c, I w → P obj → buildClient obj (cluster w) = Ok c → C obj c.
Hypothesis I_update :
  ∀ obj fs, P obj → keeps I (api (Update_Schema (set_schema_Finalizers fs obj))).
Hypothesis I_status :
  ∀ obj st, P obj → keeps I (api (UpdateStatus_Schema (set_schema_Status st obj))).
Hypothesis I_delete :
  ∀ obj c, P obj → C obj c →
           IsZeroPtr (DeletionTimestamp (schema_Meta obj)) = false →
           keeps I (remote (schemaclient.DeleteSubject c (Subject (schema_Spec obj)))).
Hypothesis I_register :
  ∀ obj c, P obj → C obj c →
           IsZeroPtr (DeletionTimestamp (schema_Meta obj)) = true →
           keeps I (remote (schemaclient.RegisterSchema c (Subject (schema_Spec obj))
                              (registerReqOf obj))).
Hypothesis I_compatibility :
  ∀ obj c, P obj → C obj c →
           IsZeroPtr (DeletionTimestamp (schema_Meta obj)) = true →
           CompatibilityLevel (schema_Spec obj) ≠ Go.empty →
           keeps I (remote (schemaclient.SetCompatibility c (Subject (schema_Spec obj))
                              (CompatibilityLevel (schema_Spec obj)))).

Lemma setConditionFailed_keeps (schema : Schema) (reason message : string) :
  P schema → keeps I (setConditionFailed schema reason message).
Proof.
  intros HP. unfold setConditionFailed. rewrite (P_key _ HP).
  apply keeps_read. intros w Hw.
  destruct (Get_Schema key (cluster w)) as [obj|err] eqn:Hget; [|apply keeps_ret].
  apply keeps_Now. intros now. apply I_status. exact (P_get _ _ Hw Hget).
Qed.

Lemma deleteFromRegistry_keeps (schema : Schema) :
  P schema → IsZeroPtr (DeletionTimestamp (schema_Meta schema)) = false →
  keeps I (deleteFromRegistry schema).
Proof.
  intros HP Hdel. unfold deleteFromRegistry. apply keeps_read. intros w Hw.
  destruct (buildClient schema (cluster w)) as [srClient|err] eqn:Hb.
  - apply I_delete; eauto.
  - apply keeps_bind; [apply I_log | intros _; apply keeps_ret].
Qed.

Lemma reconcileRegistration_keeps (schema : Schema) :
  P schema → IsZeroPtr (DeletionTimestamp (schema_Meta schema)) = true →
  keeps I (reconcileRegistration key schema).
Proof.
  intros HP Hlive. unfold reconcileRegistration. apply keeps_read. intros w Hw.
  destruct (buildClient schema (cluster w)) as [srClient|err] eqn:Hb.
  - pose proof (P_client _ _ _ Hw HP Hb) as HC.
    apply keeps_bind; [apply I_log | intros _].
    apply keeps_bind; [apply (I_register _ _ HP HC Hlive) | intros [resp|err]].
    + apply keeps_bind.
      * destruct (String.eqb _ Go.empty) eqn:Hlevel; cbn [negb]; [apply keeps_ret|].
        apply String.eqb_neq in Hlevel.
        apply keeps_bind; [apply (I_compatibility _ _ HP HC Hlive Hlevel) | intros [err|]];
          [apply I_log | apply keeps_ret].
      * intros _. apply keeps_read. intros w1 Hw1.
        destruct (Get_Schema key (cluster w1)) as [obj|err] eqn:Hget; [|apply keeps_ret].
        apply keeps_Now. intros now. apply keeps_Now. intros now'.
        apply keeps_bind; [apply I_status; exact (P_get _ _ Hw1 Hget) | intros [err|]];
          (apply keeps_bind; [apply I_log | intros _; apply keeps_ret]).
    + apply keeps_bind; [apply I_log | intros _].
      apply keeps_bind; [apply setConditionFailed_keeps; exact HP | intros e].
      apply keeps_ret.
  - apply keeps_bind; [apply I_log | intros _].
    apply keeps_bind; [apply setConditionFailed_keeps; exact HP | intros e].
    apply keeps_ret.
Qed.

(** The invariant rule of the Schema reconciler. *)
Lemma Reconcile_keeps : keeps I (Reconcile key).
Proof.
  unfold Reconcile. apply keeps_read. intros w Hw.
  destruct (Get_Schema key (cluster w)) as [schema|err] eqn:Hget; [|apply keeps_ret].
  pose proof (P_get _ _ Hw Hget) as HP.
  destruct (IsZeroPtr (DeletionTimestamp (schema_Meta schema))) eqn:Hlive; cbn [negb].
  - destruct (controllerutil.ContainsFinalizer _ _); cbn [negb].
    + apply reconcileRegistration_keeps; assumption.
    + apply keeps_bind; [apply I_update; exact HP | intros [err|]]; [apply keeps_ret|].
      apply keeps_read. intros w1 Hw1.
      destruct (Get_Schema key (cluster w1)) as [schema1|err] eqn:Hget1; [|apply keeps_ret].
      pose proof (P_get _ _ Hw1 Hget1) as HP1.
      apply reconcileRegistration_keeps; [exact HP1|].
      rewrite (P_same _ _ HP1 HP). exact Hlive.
  - destruct (controllerutil.ContainsFinalizer _ _); [|apply keeps_ret].
    apply keeps_bind; [apply I_log | intros _].
    apply keeps_bind; [apply deleteFromRegistry_keeps; assumption | intros [err|]].
    + apply keeps_bind; [apply I_log | intros _; apply keeps_ret].
    + apply keeps_bind; [apply I_update; exact HP | intros [err|]]; apply keeps_ret.
Qed.

End SchemaInvariant.

Section RegistryInvariant.
Context `{!schemaclient.GoLibs}.
Import metav1 v1alpha1 corev1 apiserver runtime controller.
Import controller.SchemaRegistryReconciler.

Variables (key : string * string) (I : World → Prop) (P : SchemaRegistry → Prop)
  (C : schemaclient.SchemaRegistryClient → Prop).
Hypothesis I_log : ∀ e, keeps I (logf e).
Hypothesis P_key : ∀ obj, P obj → ObjectKeyFromObject (sr_Meta obj) = key.
Hypothesis P_get : ∀ w obj, I w → Get_SchemaRegistry key (cluster w) = Ok obj → P obj.
Hypothesis P_client :
  ∀ w obj authConfig c,
    I w → P obj → loadAuthConfig (cluster w) obj = (authConfig, None) →
    clientFor obj authConfig = Ok c → C c.
Hypothesis I_status :
  ∀ obj st, P obj → keeps I (api (UpdateStatus_SchemaRegistry (set_sr_Status st obj))).
Hypothesis I_health : ∀ c, C c → keeps I (remote (schemaclient.HealthCheck c)).

Lemma sr_setConditionFailed_keeps (sr : SchemaRegistry) (reason message : string) :
  P sr → keeps I (setConditionFailed sr reason message).
Proof.
  intros HP. unfold setConditionFailed. rewrite (P_key _ HP).
  apply keeps_read. intros w Hw.
  destruct (Get_SchemaRegistry key (cluster w)) as [obj|err] eqn:Hget; [|apply keeps_ret].
  apply keeps_Now. intros now. apply I_status. exact (P_get _ _ Hw Hget).
Qed.

(** The invariant rule of the connectivity reconciler. *)
Lemma sr_Reconcile_keeps : keeps I (Reconcile key).
Proof.
  unfold Reconcile. apply keeps_read. intros w Hw.
  destruct (Get_SchemaRegistry key (cluster w)) as [sr|err] eqn:Hget; [|apply keeps_ret].
  pose proof (P_get _ _ Hw Hget) as HP.
  apply keeps_read. intros w1 Hw1.
  destruct (loadAuthConfig (cluster w1) sr) as [authConfig [err|]] eqn:Hauth.
  - apply keeps_bind; [apply I_log | intros _].
    apply keeps_bind; [apply sr_setConditionFailed_keeps; exact HP | intros e].
    apply keeps_ret.
  - fold (clientFor sr authConfig).
    destruct (clientFor sr authConfig) as [srClient|err] eqn:Hclient.
    + apply keeps_bind; [apply I_health; eauto | intros healthErr].
      apply keeps_read. intros w2 Hw2.
      destruct (Get_SchemaRegistry key (cluster w2)) as [sr2|err] eqn:Hget2;
        [|apply keeps_ret].
      pose proof (P_get _ _ Hw2 Hget2) as HP2.
      apply keeps_Now. intros now. apply keeps_Now. intros now'.
      apply keeps_bind.
      * destruct healthErr as [healthErr|];
          (apply keeps_bind; [apply I_log | intros _; apply keeps_ret]).
      * intros status.
        apply keeps_bind; [apply I_status; exact HP2 | intros [err|]];
          [apply keeps_bind; [apply I_log | intros _; apply keeps_ret] | apply keeps_ret].
    + apply keeps_bind; [apply I_log | intros _].
      apply keeps_bind; [apply sr_setConditionFailed_keeps; exact HP | intros e].
      apply keeps_ret.
Qed.

End RegistryInvariant.

Section FrameFacts.
Context `{!schemaclient.GoLibs}.
Import metav1 v1alpha1 corev1 apiserver runtime controller.
Import controller.SchemaReconciler.

Lemma Get_Ok_stored {A} (kind : Kind) (store : gmap (string * string) A)
    (key : string * string) (c : Cluster) (obj : A) :
  Get kind store key c = Ok obj → store !! key = Some obj.
Proof.
  unfold Get. destruct (rejected c VerbGet kind key); [discriminate|].
  destruct (store !! key); [now intros [= ->] | discriminate].
Qed.

Lemma touchesOnlySchema_refl (key : string * string) (c : Cluster) :
  touchesOnlySchema key c c.
Proof. unfold touchesOnlySchema. repeat split; eauto 10. Qed.

Lemma touchesOnlySchema_trans (key : string * string) (c1 c2 c3 : Cluster) :
  touchesOnlySchema key c1 c2 → touchesOnlySchema key c2 c3 → touchesOnlySchema key c1 c3.
Proof.
  intros (Hr & Hs & Hj & Ho & Hk) (Hr' & Hs' & Hj' & Ho' & Hk').
  unfold touchesOnlySchema. repeat apply conj; try congruence.
  - intros k Hne. rewrite Ho', Ho; auto.
  - intros s3 H3. destruct (Hk' _ H3) as (s2 & H2 & E1 & E2 & E3 & E4 & E5).
    destruct (Hk _ H2) as (s1 & H1 & F1 & F2 & F3 & F4 & F5).
    exists s1. repeat split; congruence.
Qed.

(** What the two writes of the Schema reconciler change. *)
Lemma Update_Schema_touches (key : string * string) (obj : Schema) (c : Cluster) :
  ObjectKeyFromObject (schema_Meta obj) = key →
  (∀ cur, schemas c !! key = Some cur → schema_Spec obj = schema_Spec cur) →
  wellKeyed c →
  wellKeyed (snd (Update_Schema obj c)) ∧
  touchesOnlySchema key c (snd (Update_Schema obj c)).
Proof.
  intros Hkey Hspec Hwk. unfold Update_Schema. rewrite Hkey.
  destruct (rejected c VerbUpdate KindSchema key);
    [split; [exact Hwk | apply touchesOnlySchema_refl]|].
  destruct (schemas c !! key) as [cur|] eqn:Hcur;
    [|split; [exact Hwk | apply touchesOnlySchema_refl]].
  cbn [schema_Meta set_Finalizers DeletionTimestamp Finalizers].
  destruct (DeletionTimestamp (schema_Meta cur)) as [t|] eqn:Ht;
    [destruct (Finalizers (schema_Meta obj)) as [|f fs]|]; cbn [snd]; split.
  - intros k s. cbn [schemas set_schemas]. intros Hl.
    apply lookup_delete_Some in Hl as [_ Hl]. eauto.
  - unfold touchesOnlySchema. cbn [schemas set_schemas registries secrets rejected].
    repeat apply conj; try reflexivity.
    + intros k Hne. now apply lookup_delete_ne.
    + intros s. rewrite lookup_delete_eq. discriminate.
  - intros k s. cbn [schemas set_schemas]. intros Hl.
    apply lookup_insert_Some in Hl as [[<- <-] | [_ Hl]]; [|eauto].
    exact (Hwk _ _ Hcur).
  - unfold touchesOnlySchema. cbn [schemas set_schemas registries secrets rejected].
    repeat apply conj; try reflexivity.
    + intros k Hne. now apply lookup_insert_ne.
    + intros s. rewrite lookup_insert_eq. intros [= <-]. exists cur.
      cbn [schema_Spec schema_Meta Name Namespace Generation DeletionTimestamp].
      repeat split; auto.
  - intros k s. cbn [schemas set_schemas]. intros Hl.
    apply lookup_insert_Some in Hl as [[<- <-] | [_ Hl]]; [|eauto].
    exact (Hwk _ _ Hcur).
  - unfold touchesOnlySchema. cbn [schemas set_schemas registries secrets rejected].
    repeat apply conj; try reflexivity.
    + intros k Hne. now apply lookup_insert_ne.
    + intros s. rewrite lookup_insert_eq. intros [= <-]. exists cur.
      cbn [schema_Spec schema_Meta Name Namespace Generation DeletionTimestamp].
      repeat split; auto.
Qed.

Lemma UpdateStatus_Schema_touches (key : string * string) (obj : Schema) (c : Cluster) :
  ObjectKeyFromObject (schema_Meta obj) = key →
  wellKeyed c →
  wellKeyed (snd (UpdateStatus_Schema obj c)) ∧
  touchesOnlySchema key c (snd (UpdateStatus_Schema obj c)).
Proof.
  intros Hkey Hwk. unfold UpdateStatus_Schema. rewrite Hkey.
  destruct (rejected c VerbUpdateStatus KindSchema key);
    [split; [exact Hwk | apply touchesOnlySchema_refl]|].
  destruct (schemas c !! key) as [cur|] eqn:Hcur;
    [|split; [exact Hwk | apply touchesOnlySchema_refl]].
  cbn [snd]. split.
  - intros k s. cbn [schemas set_schemas]. intros Hl.
    apply lookup_insert_Some in Hl as [[<- <-] | [_ Hl]]; [|eauto].
    exact (Hwk _ _ Hcur).
  - unfold touchesOnlySchema. cbn [schemas set_schemas registries secrets rejected].
    repeat apply conj; try reflexivity.
    + intros k Hne. now apply lookup_insert_ne.
    + intros s. rewrite lookup_insert_eq. intros [= <-]. exists cur.
      cbn [schema_Spec schema_Meta]. repeat split; auto.
Qed.

(** Each operation of the client only adds to the history of the
    connection. *)
Lemma DeleteSubject_history c subject n :
  schemaclient.sent (snd (schemaclient.DeleteSubject c subject n))
    = schemaclient.sent n ++ sentBy (schemaclient.DeleteSubject c subject) n.
Proof.
  rewrite DeleteSubject_sentBy.
  destruct (schemaclient.deleteRequest c subject) as [req|e] eqn:E.
  - now rewrite (DeleteSubject_run _ _ _ _ E).
  - unfold schemaclient.deleteRequest in E. unfold schemaclient.DeleteSubject.
    destruct (schemaclient.NewRequestWithContext _ _ _); [discriminate|].
    cbn. now rewrite app_nil_r.
Qed.

Lemma SetCompatibility_history c subject level n :
  schemaclient.sent (snd (schemaclient.SetCompatibility c subject level n))
    = schemaclient.sent n ++ sentBy (schemaclient.SetCompatibility c subject level) n.
Proof.
  rewrite SetCompatibility_sentBy.
  destruct (schemaclient.compatibilityRequest c subject level) as [req|e] eqn:E.
  - now rewrite (SetCompatibility_run _ _ _ _ _ E).
  - unfold schemaclient.compatibilityRequest in E. unfold schemaclient.SetCompatibility.
    destruct (schemaclient.NewRequestWithContext _ _ _); [discriminate|].
    cbn. now rewrite app_nil_r.
Qed.

Lemma HealthCheck_history c n :
  schemaclient.sent (snd (schemaclient.HealthCheck c n))
    = schemaclient.sent n ++ sentBy (schemaclient.HealthCheck c) n.
Proof.
  rewrite HealthCheck_sentBy.
  destruct (schemaclient.healthCheckRequest c) as [req|e] eqn:E.
  - now rewrite (HealthCheck_run _ _ _ E).
  - unfold schemaclient.healthCheckRequest in E. unfold schemaclient.HealthCheck.
    destruct (schemaclient.NewRequestWithContext _ _ _); [discriminate|].
    cbn. now rewrite app_nil_r.
Qed.

Lemma RegisterSchema_history c subject request n :
  schemaclient.sent (snd (schemaclient.RegisterSchema c subject request n))
    = schemaclient.sent n ++ sentBy (schemaclient.RegisterSchema c subject request) n.
Proof.
  rewrite RegisterSchema_sentBy.
  destruct (schemaclient.registerRequest c subject request) as [req|e] eqn:E.
  - rewrite (RegisterSchema_run _ _ _ _ _ E). cbv zeta.
    destruct (schemaclient.answer n c req) as [resp|err]; [|reflexivity].
    destruct (schemaclient.StatusCode resp =? _); [|reflexivity].
    destruct (schemaclient.Unmarshal_ID _) as [id|err]; [|reflexivity].
    destruct (schemaclient.latestVersionRequest c subject) as [req2|e2] eqn:E2.
    + rewrite (getLatestVersionForSubject_run _ _ _ _ E2). cbn [snd schemaclient.sent].
      now rewrite <- app_assoc.
    + unfold schemaclient.latestVersionRequest in E2.
      unfold schemaclient.getLatestVersionForSubject.
      destruct (schemaclient.NewRequestWithContext _ _ _); [discriminate|reflexivity].
  - unfold schemaclient.registerRequest in E. unfold schemaclient.RegisterSchema.
    destruct (schemaclient.NewRequestWithContext _ _ _); [discriminate|].
    cbn. now rewrite app_nil_r.
Qed.

End FrameFacts.

Section SchemaReconcileInvariant.
Context `{!schemaclient.GoLibs}.
Import metav1 v1alpha1 corev1 apiserver runtime controller.
Import controller.SchemaReconciler.

(** A reconcile of a Schema started in a cluster whose Schemas are stored
    under their own keys: the cluster stays so, only the Schema under the
    key is touched, and every request sent is one of the Schema's. *)
Lemma Schema_Reconcile_invariant (key : string * string) (w0 : World) :
  wellKeyed (cluster w0) →
  let w' := snd (Reconcile key w0) in
  wellKeyed (cluster w') ∧
  touchesOnlySchema key (cluster w0) (cluster w') ∧
  ∃ l, schemaclient.sent (net w') = schemaclient.sent (net w0) ++ l ∧
       Forall (λ req, ∃ s0, schemas (cluster w0) !! key = Some s0 ∧
                            schemaRequest s0 (cluster w0) req) l.
Proof.
  intros Hwk0.
  set (ok := λ req, ∃ s0, schemas (cluster w0) !! key = Some s0 ∧
                          schemaRequest s0 (cluster w0) req).
  set (I := λ w, wellKeyed (cluster w) ∧
                 touchesOnlySchema key (cluster w0) (cluster w) ∧
                 ∃ l, schemaclient.sent (net w) = schemaclient.sent (net w0) ++ l ∧
                      Forall ok l).
  set (P := λ obj, ObjectKeyFromObject (schema_Meta obj) = key ∧
                   ∃ s0, schemas (cluster w0) !! key = Some s0 ∧
                         schema_Spec obj = schema_Spec s0 ∧
                         DeletionTimestamp (schema_Meta obj)
                           = DeletionTimestamp (schema_Meta s0)).
  set (C := λ (obj : Schema) c,
              ∃ s0, schemas (cluster w0) !! key = Some s0 ∧
                    buildClient s0 (cluster w0) = Ok c).
  assert (Hremote : ∀ {A} (op : State schemaclient.Net A),
             (∀ n, ∃ l, schemaclient.sent (snd (op n)) = schemaclient.sent n ++ l ∧
                        Forall ok l) →
             keeps I (remote op)).
  { intros A op Hop w (Hwk & Hto & l & Hl & Hok). unfold remote.
    destruct (Hop (net w)) as (l' & Hl' & Hok').
    destruct (op (net w)) as [a n']. cbn [snd] in *. unfold I. cbn [cluster net].
    split; [exact Hwk|]. split; [exact Hto|].
    exists (l ++ l'). rewrite Hl', Hl, app_assoc. split; [reflexivity|].
    apply Forall_app. auto. }
  assert (Hapi : ∀ (op : State Cluster (option error)),
             (∀ c, wellKeyed c → touchesOnlySchema key (cluster w0) c →
                   wellKeyed (snd (op c)) ∧ touchesOnlySchema key c (snd (op c))) →
             keeps I (api op)).
  { intros op Hop w (Hwk & Hto & Hsent). unfold api.
    destruct (Hop (cluster w) Hwk Hto) as [Hwk' Hto'].
    destruct (op (cluster w)) as [a c']. cbn [snd] in *. unfold I. cbn [cluster net].
    split; [exact Hwk'|]. split; [|exact Hsent].
    eapply touchesOnlySchema_trans; eassumption. }
  refine (Reconcile_keeps key I P C _ _ _ _ _ _ _ _ _ _ w0 _).
  - intros e w Hw. exact Hw.
  - intros obj [Hk _]. exact Hk.
  - intros w obj (Hwk & Hto & _) Hget. apply Get_Ok_stored in Hget.
    split; [exact (Hwk _ _ Hget)|].
    destruct Hto as (_ & _ & _ & _ & Hk).
    destruct (Hk _ Hget) as (s0 & H0 & E1 & _ & _ & _ & E5). eauto.
  - intros a b (_ & sa & Ha & _ & Ea) (_ & sb & Hb & _ & Eb). congruence.
  - intros w obj c (_ & (Hr & Hs & Hj & _) & _) (Hk & s0 & H0 & Hspec & _) Hb.
    exists s0. split; [exact H0|]. rewrite <- Hb. symmetry.
    apply buildClient_frame; auto.
    pose proof (Hwk0 _ _ H0) as Hk0. rewrite <- Hk in Hk0.
    unfold ObjectKeyFromObject in Hk0. congruence.
  - intros obj fs (Hk & s0 & H0 & Hspec & Hdel). apply Hapi. intros c Hwk Hto.
    apply Update_Schema_touches; [exact Hk | | exact Hwk].
    intros cur Hcur. destruct Hto as (_ & _ & _ & _ & Hat).
    destruct (Hat _ Hcur) as (s0' & H0' & E & _). cbn [set_schema_Finalizers schema_Spec].
    congruence.
  - intros obj st (Hk & _). apply Hapi. intros c Hwk Hto.
    apply UpdateStatus_Schema_touches; [exact Hk | exact Hwk].
  - intros obj c (Hk & s0 & H0 & Hspec & Hts) (s0' & H0' & Hb) Hdel. apply Hremote.
    intros n. eexists. split; [apply DeleteSubject_history|].
    rewrite DeleteSubject_sentBy.
    destruct (schemaclient.deleteRequest c _) as [req|] eqn:E; [|constructor].
    repeat constructor. exists s0. split; [exact H0|]. exists c.
    split; [congruence|]. cbv zeta. rewrite <- Hts, Hdel, <- Hspec. exact E.
  - intros obj c (Hk & s0 & H0 & Hspec & Hts) (s0' & H0' & Hb) Hlive. apply Hremote.
    intros n. eexists. split; [apply RegisterSchema_history|].
    assert (Hreq : ∀ req,
               schemaclient.registerRequest c (Subject (schema_Spec obj)) (registerReqOf obj)
                 = Ok req ∨
               schemaclient.latestVersionRequest c (Subject (schema_Spec obj)) = Ok req →
               ok req).
    { intros req Hreq. exists s0. split; [exact H0|]. exists c.
      split; [congruence|]. cbv zeta. rewrite <- Hts, Hlive, <- Hspec.
      unfold registerReqOf in *. rewrite <- Hspec. tauto. }
    rewrite RegisterSchema_sentBy.
    destruct (schemaclient.registerRequest c _ _) as [req|] eqn:E; [|constructor].
    constructor; [auto|].
    destruct (schemaclient.answer n c req) as [resp|]; [|constructor].
    destruct (_ =? _); [|constructor].
    destruct (schemaclient.Unmarshal_ID _); [|constructor].
    destruct (schemaclient.latestVersionRequest c _) as [req2|] eqn:E2; [|constructor].
    repeat constructor. auto.
  - intros obj c (Hk & s0 & H0 & Hspec & Hts) (s0' & H0' & Hb) Hlive Hlevel. apply Hremote.
    intros n. eexists. split; [apply SetCompatibility_history|].
    rewrite SetCompatibility_sentBy.
    destruct (schemaclient.compatibilityRequest c _ _) as [req|] eqn:E; [|constructor].
    repeat constructor. exists s0. split; [exact H0|]. exists c.
    split; [congruence|]. cbv zeta. rewrite <- Hts, Hlive, <- Hspec. auto.
  - split; [exact Hwk0|]. split; [apply touchesOnlySchema_refl|].
    exists []. rewrite app_nil_r. split; [reflexivity | constructor].
Qed.

End SchemaReconcileInvariant.

Section SchemaFrameProperties.
Import metav1 v1alpha1 corev1 apiserver runtime controller.
Import controller.SchemaReconciler.

Lemma wellKeyed_clusterOf (ss : list Schema) (rs : list SchemaRegistry)
    (secs : list (string * string * Secret)) :
  wellKeyed (fixture.clusterOf ss rs secs).
Proof.
  intros k s Hl. cbn [fixture.clusterOf schemas] in Hl.
  apply elem_of_list_to_map_2 in Hl. apply list_elem_of_fmap in Hl as (s' & E & _).
  now inversion E.
Qed.

Lemma sentDuring_extends {A} (op : State World A) (w : World)
    (l : list schemaclient.Request) :
  schemaclient.sent (net (snd (op w))) = schemaclient.sent (net w) ++ l →
  sentDuring op w = l.
Proof. intros E. unfold sentDuring. rewrite E. apply drop_app_length. Qed.

(** X11.  What a reconcile of a Schema leaves alone.  In a cluster whose
    Schemas are stored under their own namespace and name, a reconcile of
    the Schema under [key], whatever the API server and the registry answer,
    writes no registry object and no secret, touches no Schema under another
    key, and of the Schema under [key] changes neither the name, the
    namespace, the generation, the deletion timestamp nor the spec; the
    Schemas are still stored under their own keys afterwards. *)
Theorem X11_Schema_reconcile_touches_only_its_Schema
    (L : schemaclient.GoLibs) (key : string * string) (w : World) :
  wellKeyed (cluster w) →
  wellKeyed (cluster (snd (Reconcile key w))) ∧
  touchesOnlySchema key (cluster w) (cluster (snd (Reconcile key w))).
Proof.
  intros Hwk. destruct (Schema_Reconcile_invariant key w Hwk) as (H1 & H2 & _).
  split; assumption.
Qed.

(** Two Schemas of the namespace kafka; the first is reconciled and
    registered, the second is as before. *)
Lemma X11_witness :
  let schema := fixture.schemaIn "kafka" "user-schema" fixture.sameNamespaceRef None [] in
  let w :=
    fixture.worldOf (fixture.clusterOf [schema; cases.otherSchema] [fixture.registry] [])
      sample.scenarioRegistry in
  let c' := cluster (snd (@Reconcile modelLibs ("kafka", "user-schema") w)) in
  touchesOnlySchema ("kafka", "user-schema") (cluster w) c' ∧
  schemas c' !! ("kafka", "order-schema") = Some cases.otherSchema ∧
  (SchemaID ∘ schema_Status <$> schemas c' !! ("kafka", "user-schema")) = Some (Some 42).
Proof.
  intros schema w c'.
  split; [|split; vm_compute; reflexivity].
  apply (X11_Schema_reconcile_touches_only_its_Schema modelLibs ("kafka", "user-schema") w).
  apply wellKeyed_clusterOf.
Defined.

(** X12.  The requests of a reconcile of a Schema.  In a cluster whose
    Schemas are stored under their own keys, every request that a reconcile
    of [key] sends to a registry, whatever the API server and the registry
    answer, is built for the Schema stored under [key] by the client of its
    owning registry, and is the DELETE of the subject when the deletion of
    the Schema was requested, and otherwise the registration, the read of the
    latest version or the PUT of a declared compatibility level.  So a
    reconcile of a key that holds no Schema sends nothing, a DELETE is sent
    only for a Schema under deletion, and for such a Schema nothing else is
    sent. *)
Theorem X12_requests_of_a_Schema_reconcile
    (L : schemaclient.GoLibs) (key : string * string) (w : World)
    (req : schemaclient.Request) :
  wellKeyed (cluster w) →
  req ∈ sentDuring (Reconcile key) w →
  ∃ schema,
    schemas (cluster w) !! key = Some schema ∧
    schemaRequest schema (cluster w) req ∧
    (schemaclient.req_Method req = schemaclient.MethodDelete ↔
     IsZeroPtr (DeletionTimestamp (schema_Meta schema)) = false).
Proof.
  intros Hwk Hin.
  destruct (Schema_Reconcile_invariant key w Hwk) as (_ & _ & l & Hl & Hok).
  rewrite (sentDuring_extends _ _ _ Hl) in Hin.
  rewrite Forall_forall in Hok. destruct (Hok _ Hin) as (schema & Hs & Hreq).
  exists schema. split; [exact Hs|]. split; [exact Hreq|].
  destruct Hreq as (srClient & _ & Hreq). cbv zeta in Hreq.
  assert (Hplain : ∀ m url body r,
             schemaclient.NewRequestWithContext m url body = Ok r →
             schemaclient.req_Method (schemaclient.addAuth srClient r) = m).
  { intros m url body r Hb. apply built_request in Hb as (Hm & _).
    destruct (addAuth_fields srClient r) as (Am & _). congruence. }
  destruct (IsZeroPtr _).
  - split; [|discriminate]. intros Hm. exfalso.
    destruct Hreq as [Hreq | [Hreq | [_ Hreq]]];
      [unfold schemaclient.registerRequest in Hreq
      |unfold schemaclient.latestVersionRequest in Hreq
      |unfold schemaclient.compatibilityRequest in Hreq];
      destruct (schemaclient.NewRequestWithContext _ _ _) as [r|] eqn:E;
      try discriminate; injection Hreq as <-;
      cbn [schemaclient.Header_Set schemaclient.req_Method] in Hm;
      rewrite (Hplain _ _ _ _ E) in Hm; discriminate.
  - split; [reflexivity|]. intros _.
    unfold schemaclient.deleteRequest in Hreq.
    destruct (schemaclient.NewRequestWithContext _ _ _) as [r|] eqn:E;
      try discriminate. injection Hreq as <-. exact (Hplain _ _ _ _ E).
Qed.

(** The Schema kafka/user-schema is reconciled against the registry of the
    scenario: the registration is among the requests. *)
Lemma X12_witness :
  let schema := fixture.schemaIn "kafka" "user-schema" fixture.sameNamespaceRef None [] in
  let w :=
    fixture.worldOf (fixture.clusterOf [schema] [fixture.registry] [])
      sample.scenarioRegistry in
  cases.registration ∈ sentDuring (@Reconcile modelLibs ("kafka", "user-schema")) w ∧
  ∃ stored,
    schemas (cluster w) !! ("kafka", "user-schema") = Some stored ∧
    @schemaRequest modelLibs stored (cluster w) cases.registration.
Proof.
  intros schema w.
  assert (Hin : cases.registration
                  ∈ sentDuring (@Reconcile modelLibs ("kafka", "user-schema")) w).
  { vm_compute. apply list_elem_of_here. }
  split; [exact Hin|].
  destruct (X12_requests_of_a_Schema_reconcile modelLibs ("kafka", "user-schema") w
              cases.registration (wellKeyed_clusterOf _ _ _) Hin)
    as (stored & Hs & Hreq & _).
  exists stored. split; assumption.
Defined.

End SchemaFrameProperties.

Section RegistryReconcileInvariant.
Context `{!schemaclient.GoLibs}.
Import metav1 v1alpha1 corev1 apiserver runtime controller.
Import controller.SchemaRegistryReconciler.

Lemma touchesOnlyStatus_refl (key : string * string) (c : Cluster) :
  touchesOnlyStatus key c c.
Proof. unfold touchesOnlyStatus. repeat split; eauto. Qed.

Lemma touchesOnlyStatus_trans (key : string * string) (c1 c2 c3 : Cluster) :
  touchesOnlyStatus key c1 c2 → touchesOnlyStatus key c2 c3 → touchesOnlyStatus key c1 c3.
Proof.
  intros (Hr & Hs & Hj & Ho & Hk) (Hr' & Hs' & Hj' & Ho' & Hk').
  unfold touchesOnlyStatus. repeat apply conj; try congruence.
  intros k Hne. rewrite Ho', Ho; auto.
Qed.

Lemma UpdateStatus_SchemaRegistry_touches (key : string * string) (obj : SchemaRegistry)
    (c : Cluster) :
  ObjectKeyFromObject (sr_Meta obj) = key →
  wellKeyedRegistries c →
  wellKeyedRegistries (snd (UpdateStatus_SchemaRegistry obj c)) ∧
  touchesOnlyStatus key c (snd (UpdateStatus_SchemaRegistry obj c)).
Proof.
  intros Hkey Hwk. unfold UpdateStatus_SchemaRegistry. rewrite Hkey.
  destruct (rejected c VerbUpdateStatus KindSchemaRegistry key);
    [split; [exact Hwk | apply touchesOnlyStatus_refl]|].
  destruct (registries c !! key) as [cur|] eqn:Hcur;
    [|split; [exact Hwk | apply touchesOnlyStatus_refl]].
  cbn [snd]. split.
  - intros k s. cbn [registries set_registries]. intros Hl.
    apply lookup_insert_Some in Hl as [[<- <-] | [_ Hl]]; [|eauto].
    exact (Hwk _ _ Hcur).
  - unfold touchesOnlyStatus. cbn [schemas set_registries registries secrets rejected].
    repeat apply conj; try reflexivity.
    + intros k Hne. now apply lookup_insert_ne.
    + rewrite lookup_insert_eq, Hcur. reflexivity.
Qed.

(** [loadAuthConfig] reads the secrets, and of the registry object its
    namespace and its spec. *)
Lemma loadAuthConfig_frame (sr sr' : SchemaRegistry) (c c' : Cluster) :
  secrets c' = secrets c → rejected c' = rejected c →
  sr_Spec sr' = sr_Spec sr → Namespace (sr_Meta sr') = Namespace (sr_Meta sr) →
  loadAuthConfig c' sr' = loadAuthConfig c sr.
Proof.
  intros Hs Hj Hspec Hns. unfold loadAuthConfig, Get_Secret, Get.
  rewrite Hs, Hj, Hspec, Hns. reflexivity.
Qed.

(** A reconcile of a registry object started in a cluster whose registry
    objects are stored under their own keys: the cluster stays so, only the
    status of the object under the key is touched, and every request sent
    is the probe of that object. *)
Lemma Registry_Reconcile_invariant (key : string * string) (w0 : World) :
  wellKeyedRegistries (cluster w0) →
  let w' := snd (Reconcile key w0) in
  wellKeyedRegistries (cluster w') ∧
  touchesOnlyStatus key (cluster w0) (cluster w') ∧
  ∃ l, schemaclient.sent (net w') = schemaclient.sent (net w0) ++ l ∧
       Forall (λ req, ∃ sr0, registries (cluster w0) !! key = Some sr0 ∧
                             registryRequest sr0 (cluster w0) req) l.
Proof.
  intros Hwk0.
  set (ok := λ req, ∃ sr0, registries (cluster w0) !! key = Some sr0 ∧
                           registryRequest sr0 (cluster w0) req).
  set (I := λ w, wellKeyedRegistries (cluster w) ∧
                 touchesOnlyStatus key (cluster w0) (cluster w) ∧
                 ∃ l, schemaclient.sent (net w) = schemaclient.sent (net w0) ++ l ∧
                      Forall ok l).
  set (P := λ obj, ObjectKeyFromObject (sr_Meta obj) = key ∧
                   ∃ sr0, registries (cluster w0) !! key = Some sr0 ∧
                          sr_Meta obj = sr_Meta sr0 ∧ sr_Spec obj = sr_Spec sr0).
  set (C := λ c, ∃ sr0 authConfig,
                   registries (cluster w0) !! key = Some sr0 ∧
                   loadAuthConfig (cluster w0) sr0 = (authConfig, None) ∧
                   clientFor sr0 authConfig = Ok c).
  refine (sr_Reconcile_keeps key I P C _ _ _ _ _ _ w0 _).
  - intros e w Hw. exact Hw.
  - intros obj [Hk _]. exact Hk.
  - intros w obj (Hwk & Hto & _) Hget. apply Get_Ok_stored in Hget.
    split; [exact (Hwk _ _ Hget)|].
    destruct Hto as (_ & _ & _ & _ & Hk). rewrite Hget in Hk.
    destruct (registries (cluster w0) !! key) as [sr0|]; [|discriminate].
    injection Hk as Hm Hsp. eauto.
  - intros w obj authConfig c (_ & (_ & Hs & Hj & _) & _) (_ & sr0 & H0 & Hm & Hsp)
      Hauth Hclient.
    exists sr0, authConfig. split; [exact H0|]. split.
    + rewrite <- Hauth. symmetry. apply loadAuthConfig_frame; congruence.
    + rewrite <- Hclient. unfold clientFor, clientTimeout. now rewrite Hsp.
  - intros obj st (Hk & _) w (Hwk & Hto & Hsent). unfold api.
    destruct (UpdateStatus_SchemaRegistry_touches key (set_sr_Status st obj) (cluster w)
                Hk Hwk) as [Hwk' Hto'].
    destruct (UpdateStatus_SchemaRegistry _ (cluster w)) as [a c']. cbn [snd] in *.
    unfold I. cbn [cluster net]. split; [exact Hwk'|]. split; [|exact Hsent].
    eapply touchesOnlyStatus_trans; eassumption.
  - intros c (sr0 & authConfig & H0 & Hauth & Hclient) w (Hwk & Hto & l & Hl & Hok).
    unfold remote. pose proof (HealthCheck_history c (net w)) as Hh.
    pose proof (HealthCheck_sentBy c (net w)) as Hs.
    destruct (schemaclient.HealthCheck c (net w)) as [a n']. cbn [snd] in *.
    unfold I. cbn [cluster net]. split; [exact Hwk|]. split; [exact Hto|].
    eexists. rewrite Hh, Hl, <- app_assoc. split; [reflexivity|].
    apply Forall_app. split; [exact Hok|]. unfold sentBy in Hs |- *. cbn [snd] in Hs.
    rewrite Hs.
    destruct (schemaclient.healthCheckRequest c) as [req|] eqn:E; [|constructor].
    repeat constructor. exists sr0. split; [exact H0|]. exists authConfig, c. auto.
  - split; [exact Hwk0|]. split; [apply touchesOnlyStatus_refl|].
    exists []. rewrite app_nil_r. split; [reflexivity | constructor].
Qed.

End RegistryReconcileInvariant.

Section RegistryFrameProperties.
Import metav1 v1alpha1 corev1 apiserver runtime controller.
Import controller.SchemaRegistryReconciler.

Lemma wellKeyedRegistries_clusterOf (ss : list Schema) (rs : list SchemaRegistry)
    (secs : list (string * string * Secret)) :
  wellKeyedRegistries (fixture.clusterOf ss rs secs).
Proof.
  intros k s Hl. cbn [fixture.clusterOf registries] in Hl.
  apply elem_of_list_to_map_2 in Hl. apply list_elem_of_fmap in Hl as (s' & E & _).
  now inversion E.
Qed.

(** X13.  What a reconcile of a registry object leaves alone.  In a cluster
    whose registry objects are stored under their own namespace and name, a
    reconcile of the object under [key], whatever the API server and the
    registry answer, writes no Schema and no secret, touches no registry
    object under another key, and of the object under [key] changes neither
    the metadata nor the spec and never removes it: only its status can
    change. *)
Theorem X13_registry_reconcile_touches_only_its_status
    (L : schemaclient.GoLibs) (key : string * string) (w : World) :
  wellKeyedRegistries (cluster w) →
  wellKeyedRegistries (cluster (snd (Reconcile key w))) ∧
  touchesOnlyStatus key (cluster w) (cluster (snd (Reconcile key w))).
Proof.
  intros Hwk. destruct (Registry_Reconcile_invariant key w Hwk) as (H1 & H2 & _).
  split; assumption.
Qed.

(** The registry kafka/my-schema-registry is probed beside a Schema: the
    Schema is as before and the registry object has a new status. *)
Lemma X13_witness :
  let w :=
    fixture.worldOf (fixture.clusterOf [cases.otherSchema] [fixture.registry] [])
      cases.healthyRegistry in
  let c' := cluster (snd (@Reconcile modelLibs ("kafka", "my-schema-registry") w)) in
  touchesOnlyStatus ("kafka", "my-schema-registry") (cluster w) c' ∧
  schemas c' !! ("kafka", "order-schema") = Some cases.otherSchema ∧
  (ConnectionStatus ∘ sr_Status <$> registries c' !! ("kafka", "my-schema-registry"))
    = Some "Connected".
Proof.
  intros w c'.
  split; [|split; vm_compute; reflexivity].
  apply (X13_registry_reconcile_touches_only_its_status modelLibs
           ("kafka", "my-schema-registry") w).
  apply wellKeyedRegistries_clusterOf.
Defined.

(** X14.  The requests of a reconcile of a registry object.  In a cluster
    whose registry objects are stored under their own keys, every request
    that a reconcile of [key] sends, whatever the API server and the
    registry answer, is the probe of the registry object stored under
    [key]: a GET without body of the URL of its spec followed by
    <</subjects>>, built by the client for that spec once the credentials
    have resolved.  So nothing is sent for a key that holds no registry
    object or for an object whose credentials do not resolve, and the
    reconciler never sends a POST, PUT or DELETE. *)
Theorem X14_requests_of_a_registry_reconcile
    (L : schemaclient.GoLibs) (key : string * string) (w : World)
    (req : schemaclient.Request) :
  wellKeyedRegistries (cluster w) →
  req ∈ sentDuring (Reconcile key) w →
  ∃ sr authConfig,
    registries (cluster w) !! key = Some sr ∧
    loadAuthConfig (cluster w) sr = (authConfig, None) ∧
    registryRequest sr (cluster w) req ∧
    schemaclient.req_Method req = schemaclient.MethodGet ∧
    schemaclient.req_URL req = URL (sr_Spec sr) +:+ "/subjects" ∧
    schemaclient.req_Body req = schemaclient.noBody.
Proof.
  intros Hwk Hin.
  destruct (Registry_Reconcile_invariant key w Hwk) as (_ & _ & l & Hl & Hok).
  rewrite (sentDuring_extends _ _ _ Hl) in Hin.
  rewrite Forall_forall in Hok. destruct (Hok _ Hin) as (sr & Hs & Hreq).
  pose proof Hreq as (authConfig & srClient & Hauth & Hclient & Hbuilt).
  exists sr, authConfig. split; [exact Hs|]. split; [exact Hauth|]. split; [exact Hreq|].
  unfold clientFor, schemaclient.NewClient in Hclient. injection Hclient as <-.
  unfold schemaclient.healthCheckRequest in Hbuilt. cbn [schemaclient.baseURL] in Hbuilt.
  destruct (schemaclient.NewRequestWithContext _ _ _) as [r|] eqn:E; [|discriminate].
  injection Hbuilt as <-. apply built_request in E as (Hm & Hu & Hb & _).
  match goal with
  | |- context [schemaclient.addAuth ?c r] =>
    destruct (addAuth_fields c r) as (Am & Au & Ab & _)
  end.
  rewrite Am, Au, Ab. auto.
Qed.

(** The registry kafka/my-schema-registry is probed: the probe is the
    request sent. *)
Lemma X14_witness :
  let w :=
    fixture.worldOf (fixture.clusterOf [] [fixture.registry] []) cases.healthyRegistry in
  cases.probe ∈ sentDuring (@Reconcile modelLibs ("kafka", "my-schema-registry")) w ∧
  ∃ sr authConfig,
    registries (cluster w) !! ("kafka", "my-schema-registry") = Some sr ∧
    @loadAuthConfig modelLibs (cluster w) sr = (authConfig, None) ∧
    schemaclient.req_URL cases.probe = URL (sr_Spec sr) +:+ "/subjects".
Proof.
  intros w.
  assert (Hin : cases.probe
                  ∈ sentDuring (@Reconcile modelLibs ("kafka", "my-schema-registry")) w).
  { vm_compute. apply list_elem_of_here. }
  split; [exact Hin|].
  destruct (X14_requests_of_a_registry_reconcile modelLibs ("kafka", "my-schema-registry")
              w cases.probe (wellKeyedRegistries_clusterOf _ _ _) Hin)
    as (sr & authConfig & Hs & Hauth & _ & _ & Hurl & _).
  exists sr, authConfig. repeat split; assumption.
Defined.

End RegistryFrameProperties.

(** ** Nothing to do, and rejected writes *)

Section EdgeProperties.
Import metav1 v1alpha1 corev1 apiserver runtime controller.

(** X15.  When there is nothing to do.  A reconcile of a key under which
    nothing is stored, by either reconciler, returns without error and
    without requeue and leaves the world as it is, provided the API server
    answers the read; an error of the read other than NotFound is returned
    as it is.  The same holds for a Schema whose deletion was requested and
    that does not carry the finalizer of the operator: nothing is sent to
    the registry and nothing is written. *)
Theorem X15_nothing_to_do
    (L : schemaclient.GoLibs) (key : string * string) (w : World) :
  (schemas (cluster w) !! key = None →
   rejected (cluster w) VerbGet KindSchema key = None →
   SchemaReconciler.Reconcile key w = ((noRequeue, None), w)) ∧
  (registries (cluster w) !! key = None →
   rejected (cluster w) VerbGet KindSchemaRegistry key = None →
   SchemaRegistryReconciler.Reconcile key w = ((noRequeue, None), w)) ∧
  (∀ err, rejected (cluster w) VerbGet KindSchema key = Some err →
     SchemaReconciler.Reconcile key w = ((noRequeue, IgnoreNotFound err), w)) ∧
  (∀ err, rejected (cluster w) VerbGet KindSchemaRegistry key = Some err →
     SchemaRegistryReconciler.Reconcile key w = ((noRequeue, IgnoreNotFound err), w)) ∧
  (∀ schema,
     schemas (cluster w) !! key = Some schema →
     rejected (cluster w) VerbGet KindSchema key = None →
     IsZeroPtr (DeletionTimestamp (schema_Meta schema)) = false →
     controllerutil.ContainsFinalizer (Finalizers (schema_Meta schema))
       SchemaReconciler.schemaFinalizer = false →
     SchemaReconciler.Reconcile key w = ((noRequeue, None), w)).
Proof.
  repeat apply conj.
  - intros Hs Hr. unfold SchemaReconciler.Reconcile, bind, read, Get_Schema, Get.
    rewrite Hr, Hs. reflexivity.
  - intros Hs Hr.
    unfold SchemaRegistryReconciler.Reconcile, bind, read, Get_SchemaRegistry, Get.
    rewrite Hr, Hs. reflexivity.
  - intros err Hr. unfold SchemaReconciler.Reconcile, bind, read, Get_Schema, Get.
    rewrite Hr. reflexivity.
  - intros err Hr.
    unfold SchemaRegistryReconciler.Reconcile, bind, read, Get_SchemaRegistry, Get.
    rewrite Hr. reflexivity.
  - intros schema Hs Hr Hdel Hfin.
    unfold SchemaReconciler.Reconcile, bind, read, Get_Schema.
    rewrite (Get_stored _ _ _ _ _ Hs Hr), Hdel. cbn [negb]. rewrite Hfin. reflexivity.
Qed.

(** A Schema under deletion that carries only a foreign finalizer, and a
    key that holds nothing. *)
Lemma X15_witness :
  let schema :=
    fixture.schemaIn "kafka" "user-schema" fixture.sameNamespaceRef (Some 1699999999)
      ["example.com/other-finalizer"] in
  let w :=
    fixture.worldOf (fixture.clusterOf [schema] [fixture.registry] [])
      sample.scenarioRegistry in
  @SchemaReconciler.Reconcile modelLibs ("kafka", "user-schema") w = ((noRequeue, None), w) ∧
  @SchemaReconciler.Reconcile modelLibs ("kafka", "gone") w = ((noRequeue, None), w) ∧
  @SchemaRegistryReconciler.Reconcile modelLibs ("kafka", "gone") w = ((noRequeue, None), w).
Proof.
  intros schema w. repeat apply conj.
  - destruct (X15_nothing_to_do modelLibs ("kafka", "user-schema") w)
      as (_ & _ & _ & _ & Hforeign).
    apply (Hforeign schema); reflexivity.
  - destruct (X15_nothing_to_do modelLibs ("kafka", "gone") w) as (Habsent & _).
    apply Habsent; reflexivity.
  - destruct (X15_nothing_to_do modelLibs ("kafka", "gone") w) as (_ & Habsent & _).
    apply Habsent; reflexivity.
Defined.

(** X16.  A rejected write of the finalizer.  When the API server rejects
    the update of a stored Schema, the reconcile returns that error without
    requeue interval and the cluster is as before.  If the finalizer was to
    be attached, nothing has been sent to the registry and no condition is
    written.  If it was to be cleared after the subject was deleted from the
    registry (or the cleanup was skipped), the Schema is still stored with
    the finalizer, so that the deletion is tried again. *)
Theorem X16_rejected_update_is_returned
    (L : schemaclient.GoLibs) (w : World) (schema : Schema) (err : error) :
  let key := ObjectKeyFromObject (schema_Meta schema) in
  schemas (cluster w) !! key = Some schema →
  rejected (cluster w) VerbGet KindSchema key = None →
  rejected (cluster w) VerbUpdate KindSchema key = Some err →
  (IsZeroPtr (DeletionTimestamp (schema_Meta schema)) = true →
   controllerutil.ContainsFinalizer (Finalizers (schema_Meta schema))
     SchemaReconciler.schemaFinalizer = false →
   SchemaReconciler.Reconcile key w = ((noRequeue, Some err), w)) ∧
  (IsZeroPtr (DeletionTimestamp (schema_Meta schema)) = false →
   controllerutil.ContainsFinalizer (Finalizers (schema_Meta schema))
     SchemaReconciler.schemaFinalizer = true →
   match SchemaReconciler.buildClient schema (cluster w) with
   | Ok srClient =>
     fst (schemaclient.DeleteSubject srClient (Subject (schema_Spec schema)) (net w)) = None
   | Err _ => True
   end →
   ∃ w', SchemaReconciler.Reconcile key w = ((noRequeue, Some err), w') ∧
         cluster w' = cluster w).
Proof.
  intros key Hs Hget Hupd. subst key. split.
  - intros Hlive Hfin. unfold SchemaReconciler.Reconcile, bind, read, Get_Schema.
    rewrite (Get_stored _ _ _ _ _ Hs Hget), Hlive, Hfin. cbn [negb].
    unfold api, Update_Schema.
    change (ObjectKeyFromObject
              (schema_Meta (SchemaReconciler.set_schema_Finalizers _ schema)))
      with (ObjectKeyFromObject (schema_Meta schema)).
    rewrite Hupd. destruct w; reflexivity.
  - intros Hdel Hfin Hclean.
    rewrite (Reconcile_deletion w schema (conj Hs (conj Hdel Hfin)) Hget). cbv zeta.
    destruct (SchemaReconciler.buildClient schema (cluster w)) as [srClient|e] eqn:Hb.
    + rewrite (deleteFromRegistry_call schema _ srClient) by exact Hb.
      unfold remote, logf. cbn [snd net cluster clock log].
      destruct (schemaclient.DeleteSubject srClient _ (net w)) as [d n'].
      cbn [fst] in Hclean. subst d. unfold api, Update_Schema. cbn [cluster].
      change (ObjectKeyFromObject
                (schema_Meta (SchemaReconciler.set_schema_Finalizers _ schema)))
        with (ObjectKeyFromObject (schema_Meta schema)).
      rewrite Hupd. eexists. split; reflexivity.
    + rewrite (deleteFromRegistry_skip schema _ e) by exact Hb.
      unfold api, Update_Schema, logf. cbn [snd cluster].
      change (ObjectKeyFromObject
                (schema_Meta (SchemaReconciler.set_schema_Finalizers _ schema)))
        with (ObjectKeyFromObject (schema_Meta schema)).
      rewrite Hupd. eexists. split; reflexivity.
Qed.

(** A new Schema, and a Schema under deletion whose subject the registry
    deletes, behind an API server that forbids updates. *)
Lemma X16_witness :
  let new := fixture.schemaIn "kafka" "user-schema" fixture.sameNamespaceRef None [] in
  let old :=
    fixture.schemaIn "kafka" "user-schema" fixture.sameNamespaceRef (Some 1699999999)
      [SchemaReconciler.schemaFinalizer] in
  let world schema :=
    fixture.worldOf (cases.noUpdates (fixture.clusterOf [schema] [fixture.registry] []))
      sample.oneSubjectRegistry in
  @SchemaReconciler.Reconcile modelLibs ("kafka", "user-schema") (world new)
    = ((noRequeue, Some cases.forbidden), world new) ∧
  ∃ w', @SchemaReconciler.Reconcile modelLibs ("kafka", "user-schema") (world old)
          = ((noRequeue, Some cases.forbidden), w') ∧
        schemas (cluster w') !! ("kafka", "user-schema") = Some old.
Proof.
  intros new old world. split.
  - destruct (X16_rejected_update_is_returned modelLibs (world new) new cases.forbidden)
      as [Hattach _]; [reflexivity | reflexivity | reflexivity |].
    apply Hattach; reflexivity.
  - destruct (X16_rejected_update_is_returned modelLibs (world old) old cases.forbidden)
      as [_ Hclear]; [reflexivity | reflexivity | reflexivity |].
    destruct Hclear as (w' & Hrun & Hc); [reflexivity | reflexivity | vm_compute; reflexivity |].
    exists w'. split; [exact Hrun|]. rewrite Hc. reflexivity.
Defined.

End EdgeProperties.

(** ** The requeue policy *)

Section RequeueProperties.
Import metav1 v1alpha1 corev1 apiserver runtime controller.

Lemma returns_ret {A} (Q : A → Prop) (a : A) : Q a → returns Q (ret a).
Proof. intros Ha w. exact Ha. Qed.

Lemma returns_bind {A B} (Q : B → Prop) (m : State World A) (k : A → State World B) :
  (∀ a, returns Q (k a)) → returns Q (x <- m ;; k x).
Proof. intros Hk w. unfold bind. destruct (m w) as [a w1]. apply Hk. Qed.

(** X17.  The requeue policy.  Neither reconciler ever sets the Requeue
    flag.  The Schema reconciler asks for no requeue interval or for one
    minute.  The connectivity reconciler asks for no interval or for five
    minutes, and for five minutes only when it returns no error. *)
Theorem X17_requeue_policy
    (L : schemaclient.GoLibs) (key : string * string) (w : World) :
  (let '(result, _) := fst (SchemaReconciler.Reconcile key w) in
   Requeue result = false ∧
   (RequeueAfter result = 0 ∨ RequeueAfter result = 60 * Second)) ∧
  (let '(result, err) := fst (SchemaRegistryReconciler.Reconcile key w) in
   Requeue result = false ∧
   (RequeueAfter result = 0 ∨ (RequeueAfter result = 300 * Second ∧ err = None))).
Proof.
  split.
  - revert w.
    change (returns (λ '(result, _),
                       Requeue result = false ∧
                       (RequeueAfter result = 0 ∨ RequeueAfter result = 60 * Second))
              (SchemaReconciler.Reconcile key)).
    assert (Hreg : ∀ schema,
               returns (λ '(result, _),
                          Requeue result = false ∧
                          (RequeueAfter result = 0 ∨ RequeueAfter result = 60 * Second))
                 (SchemaReconciler.reconcileRegistration key schema)).
    { intros schema. unfold SchemaReconciler.reconcileRegistration.
      apply returns_bind. intros [srClient|err].
      - apply returns_bind. intros _. apply returns_bind. intros [resp|err].
        + apply returns_bind. intros _. apply returns_bind. intros [obj|err];
            [|apply returns_ret; cbn; auto].
          apply returns_bind. intros now. apply returns_bind. intros now'.
          apply returns_bind. intros [err|];
            (apply returns_bind; intros _; apply returns_ret; cbn; auto).
        + apply returns_bind. intros _. apply returns_bind. intros e.
          apply returns_ret. cbn. auto.
      - apply returns_bind. intros _. apply returns_bind. intros e.
        apply returns_ret. cbn. auto. }
    unfold SchemaReconciler.Reconcile. apply returns_bind. intros [schema|err];
      [|apply returns_ret; cbn; auto].
    destruct (negb (IsZeroPtr _)).
    + destruct (controllerutil.ContainsFinalizer _ _); [|apply returns_ret; cbn; auto].
      apply returns_bind. intros _. apply returns_bind. intros [err|].
      * apply returns_bind. intros _. apply returns_ret. cbn. auto.
      * apply returns_bind. intros [err|]; apply returns_ret; cbn; auto.
    + destruct (negb (controllerutil.ContainsFinalizer _ _)); [|apply Hreg].
      apply returns_bind. intros [err|]; [apply returns_ret; cbn; auto|].
      apply returns_bind. intros [obj|err]; [apply Hreg | apply returns_ret; cbn; auto].
  - revert w.
    change (returns (λ '(result, err),
                       Requeue result = false ∧
                       (RequeueAfter result = 0 ∨
                        (RequeueAfter result = 300 * Second ∧ err = None)))
              (SchemaRegistryReconciler.Reconcile key)).
    unfold SchemaRegistryReconciler.Reconcile. apply returns_bind. intros [sr|err];
      [|apply returns_ret; cbn; auto].
    apply returns_bind. intros [authConfig [err|]].
    + apply returns_bind. intros _. apply returns_bind. intros e.
      apply returns_ret. cbn. auto.
    + destruct (schemaclient.NewClient _ _ _ _) as [srClient|err].
      * apply returns_bind. intros healthErr. apply returns_bind. intros [obj|err];
          [|apply returns_ret; cbn; auto].
        apply returns_bind. intros now. apply returns_bind. intros now'.
        apply returns_bind. intros status. apply returns_bind. intros [err|].
        -- apply returns_bind. intros _. apply returns_ret. cbn. auto.
        -- apply returns_ret. cbn. auto.
      * apply returns_bind. intros _. apply returns_bind. intros e.
        apply returns_ret. cbn. auto.
Qed.

End RequeueProperties.
